(** * pyGeoMagnetic: IGRF-12 synthesis and field-line apex tracing

    A shallow embedding of [coordinate.py], [IGRF12.py] and [apex.py].

    Modelling conventions.
    - Python and NumPy floating-point numbers are idealised as the real
      numbers [R]: rounding, infinities and NaN are not represented.
    - Python integers are [Z].
    - A division whose divisor is zero is a fault of the model
      ([ZeroDivisionError]) wherever the synthesis routine divides; Python
      raises on a Python number and NumPy answers inf/nan with a warning.
    - Python list reads and writes follow Python's indexing: an index in
      [-len, len) is valid (negative ones count from the end), any other
      raises [IndexError]. *)

From Stdlib Require Import Reals Lra Lia ZArith List String Bool.
Import ListNotations.

Open Scope R_scope.

(** ** Python and NumPy primitives *)

Module Py.

Inductive exn : Type :=
| IndexError
| ZeroDivisionError
| UnboundLocalError
| FileNotFoundError.

Inductive result (A : Type) : Type :=
| Ok (a : A)
| Raise (e : exn).

Arguments Ok {A} a.
Arguments Raise {A} e.

Definition bind {A B : Type} (c : result A) (k : A -> result B) : result B :=
  match c with
  | Ok a => k a
  | Raise e => Raise e
  end.

(** The comparisons [<], [>], [>=] and [==] of two floats. *)
Definition ltb (a b : R) : bool := if Rlt_dec a b then true else false.
Definition gtb (a b : R) : bool := if Rgt_dec a b then true else false.
Definition geb (a b : R) : bool := if Rge_dec a b then true else false.
Definition eqb (a b : R) : bool := if Req_dec_T a b then true else false.

(** [int(x)] on a float: truncation towards zero. *)
Definition int (x : R) : Z :=
  if Rle_dec 0 x then Int_part x else (- Int_part (- x))%Z.

(** [round(x)] on a float, with one argument: the nearest integer, a tie
    going to the even one. *)
Definition round (x : R) : Z :=
  let f := Int_part x in
  let d := x - IZR f in
  if Rlt_dec d (1 / 2) then f
  else if Rlt_dec (1 / 2) d then (f + 1)%Z
  else if Z.even f then f else (f + 1)%Z.

(** [np.sign]. *)
Definition sign (x : R) : R :=
  if Rlt_dec 0 x then 1 else if Rlt_dec x 0 then -1 else 0.

(** [np.arctan2(y, x)] on finite arguments. *)
Definition arctan2 (y x : R) : R :=
  if Rlt_dec 0 x then atan (y / x)
  else if Rlt_dec x 0 then
    (if Rle_dec 0 y then atan (y / x) + PI else atan (y / x) - PI)
  else if Rlt_dec 0 y then PI / 2
  else if Rlt_dec y 0 then - (PI / 2)
  else 0.

(** [max(a, b)] of the Python builtin: [b] only when [b > a]. *)
Definition max (a b : R) : R := if Rlt_dec a b then b else a.

(** [a / b] where a zero divisor is a fault. *)
Definition div (a b : R) : result R :=
  if Req_dec_T b 0 then Raise ZeroDivisionError else Ok (a / b).

(** Position of Python index [i] in a sequence of length [len]. *)
Definition index (len : nat) (i : Z) : result nat :=
  if ((0 <=? i) && (i <? Z.of_nat len))%Z then Ok (Z.to_nat i)
  else if ((- Z.of_nat len <=? i) && (i <? 0))%Z
       then Ok (Z.to_nat (Z.of_nat len + i))
       else Raise IndexError.

(** [l[i]]. *)
Definition get (l : list R) (i : Z) : result R :=
  bind (index (List.length l) i) (fun n => Ok (nth n l 0)).

Fixpoint update {A : Type} (l : list A) (n : nat) (v : A) : list A :=
  match l, n with
  | [], _ => []
  | _ :: tl, O => v :: tl
  | hd :: tl, S n' => hd :: update tl n' v
  end.

(** [l[i] = v]. *)
Definition set (l : list R) (i : Z) (v : R) : result (list R) :=
  bind (index (List.length l) i) (fun n => Ok (update l n v)).

(** [range(a, b)] for integers. *)
Definition range (a b : Z) : list Z :=
  map (fun i => (a + Z.of_nat i)%Z) (seq 0 (Z.to_nat (b - a))).

End Py.

Notation "x <- c ;; k" := (Py.bind c (fun x => k))
  (at level 61, c at next level, right associativity).

(** ** coordinate.py *)

Module Coordinate.

Definition vec3 : Type := (R * R * R)%type.
Definition mat3 : Type := (vec3 * vec3 * vec3)%type.

(** Euclidean norm of a 3-vector. *)
Definition norm (v : vec3) : R :=
  let '(x, y, z) := v in sqrt (x * x + y * y + z * z).

(** [geodetic2geocentric(theta, alt)]: every operand is a NumPy float, so
    no division raises. *)
Definition geodetic2geocentric (theta alt : R) : R * R * R :=
  let ct := cos theta in
  let st := sin theta in
  let a2 := 40680631.6 in
  let b2 := 40408296.0 in
  let one := a2 * st * st in
  let two := b2 * ct * ct in
  let three := one + two in
  let rho := sqrt three in
  let r := sqrt (alt * (alt + 2.0 * rho) + (a2 * one + b2 * two) / three) in
  let cd := (alt + rho) / r in
  let sd := (a2 - b2) / rho * ct * st / r in
  let one := ct in
  let ct := ct * cd - st * sd in
  let st := st * cd + one * sd in
  let gccolat := Py.arctan2 st ct in
  let gclon := Py.arctan2 sd cd in
  (gccolat, gclon, r).

Definition geocentric2cartesian (lat lon rho : R) : vec3 :=
  let x := rho * cos lat * cos lon in
  let y := rho * cos lat * sin lon in
  let z := rho * sin lat in
  (x, y, z).

Definition cartesian2geocentric (x y z : R) : R * R * R :=
  let rho := sqrt (x * x + y * y + z * z) in
  let lon := Py.arctan2 y x in
  let lat := Py.arctan2 z (sqrt (x * x + y * y)) in
  (lat, lon, rho).

(** The matrix [spanMat] of [rotateVector], row by row. *)
Definition spanMat (alpha beta : R) : mat3 :=
  let ca := cos alpha in
  let sa := sin alpha in
  let cb := cos beta in
  let sb := sin beta in
  ((- sb * ca, - sa, - cb * ca),
   (- sb * sa, ca, - cb * sa),
   (cb, 0, - sb)).

Definition row_dot (r v : vec3) : R :=
  let '(a, b, c) := r in
  let '(x, y, z) := v in
  a * x + b * y + c * z.

(** [np.dot(M, v)] for a 3x3 matrix and a vector of three components. *)
Definition dot (M : mat3) (v : vec3) : vec3 :=
  let '(r0, r1, r2) := M in (row_dot r0 v, row_dot r1 v, row_dot r2 v).

Definition transpose (M : mat3) : mat3 :=
  let '((a, b, c), (d, e, f), (g, h, i)) := M in
  ((a, d, g), (b, e, h), (c, f, i)).

(** Matrix product, column by column of the right factor. *)
Definition matmul (A B : mat3) : mat3 :=
  let '(c0, c1, c2) := transpose B in
  transpose (dot A c0, dot A c1, dot A c2).

Definition identity : mat3 := ((1, 0, 0), (0, 1, 0), (0, 0, 1)).

(** [rotateVector(vec, alpha, beta)] with [vec = [north, east, down]]. *)
Definition rotateVector (vec : vec3) (alpha beta : R) : vec3 :=
  dot (spanMat alpha beta) vec.

End Coordinate.

(** ** IGRF12.py *)

Module IGRF12.

Definition FACT : R := 180 / PI.

(** *** Degrees and minutes *)

(** [DMDDEC(I, M)]: degrees [I] and minutes [M] to decimal degrees.  The
    result is the double [DE + EM / 60.0] of the code, read as a real.
    That reading holds for the angles the program handles, a few hundred
    degrees, where the double carries the minutes with an error far below
    half a minute; it does not hold from about [2^47] degrees on, where
    the double loses the minutes, nor for integers beyond the range of a
    double, where Python raises [OverflowError]. *)
Definition DMDDEC (I M : Z) : R :=
  let DE := I in
  let EM := M in
  let EM := if (I <? 0)%Z then (- EM)%Z else EM in
  let X := IZR DE + IZR EM / 60.0 in
  X.

(** [DDECDM(X)]: decimal degrees to degrees and minutes. *)
Definition DDECDM (X : R) : Z * Z :=
  let SIG := Py.sign X * 1.1 in
  let DR := Rabs X in
  let I := Py.int DR in
  let T := I in
  let M := Py.round (60.0 * (DR - IZR T)) in
  let sixty := (M =? 60)%Z in
  let M := if sixty then 0%Z else M in
  let I := if sixty then (I + 1)%Z else I in
  let ISIG := Py.int SIG in
  if negb (I =? 0)%Z then ((I * ISIG)%Z, M)
  else if negb (M =? 0)%Z then (I, (M * ISIG)%Z)
  else (I, M).

(** *** The coefficient file and the console *)

(** A line [a] of the coefficient file, seen through the two expressions
    [loadCoeffs] applies to it: [a[:2]] and
    [[float(x) for x in a.split()[3:]]]. *)
Record line : Type := mkLine {
  prefix : string;
  fields : list R
}.

Inductive message : Type :=
| MsgLength (len : Z)            (* print(len(gh)) *)
| MsgWillNotWork (date : R)      (* 'This subroutine will not work ...' *)
| MsgDateRange                   (* 'Date must be in the range ...' *)
| MsgOnReturn                    (* 'On return f = 1.0, x = y = z = 0' *)
| MsgIntendedUpTo2020            (* 'This version of the IGRF is ...' *)
| MsgReducedAccuracy (date : R). (* 'values for ... reduced accuracy' *)

Inductive event : Type :=
| Opened (filename : string)
| Printed (msg : message).

(** What a call can observe and change outside its locals: the files it
    may open and the chronological record of what it opened and printed. *)
Record world : Type := mkWorld {
  files : string -> option (list line);
  events : list event
}.

Definition emit (e : event) (w : world) : world :=
  mkWorld (files w) (events w ++ [e]).

(** *** loadCoeffs *)

Definition is_coeff_line (a : line) : bool :=
  (String.eqb (prefix a) "g " || String.eqb (prefix a) "h ")%bool.

Definition column (rows : list (list R)) (i : nat) : list R :=
  map (fun row => nth i row 0) rows.

(** [np.array(rows).transpose()] for rows of equal length. *)
Definition transpose (rows : list (list R)) : list (list R) :=
  match rows with
  | [] => []
  | row :: _ => map (column rows) (seq 0 (List.length row))
  end.

(** [for j in range(120): gh.append(col[j])]. *)
Definition first120 (col : list R) : Py.result (list R) :=
  if (120 <=? List.length col)%nat then Py.Ok (firstn 120 col)
  else Py.Raise Py.IndexError.

(** The loop [for i in range(N)] of [loadCoeffs], from column [i] on. *)
Fixpoint flatten (i : nat) (cols : list (list R)) : Py.result (list R) :=
  match cols with
  | [] => Py.Ok []
  | col :: rest =>
      part <- (if (i <? 19)%nat then first120 col else Py.Ok col) ;;
      tail <- flatten (S i) rest ;;
      Py.Ok (part ++ tail)
  end.

Definition loadCoeffs (filename : string) (w : world)
  : Py.result (list R) * world :=
  match files w filename with
  | None => (Py.Raise Py.FileNotFoundError, w)
  | Some text =>
      let w := emit (Opened filename) w in
      let gh2arr := map fields (filter is_coeff_line text) in
      let gh2arr := transpose gh2arr in
      match flatten 0 gh2arr with
      | Py.Raise e => (Py.Raise e, w)
      | Py.Ok gh =>
          let gh := gh ++ [0] in
          (Py.Ok gh, emit (Printed (MsgLength (Z.of_nat (List.length gh)))) w)
      end
  end.

(** *** Epoch resolution of igrf12syn *)

(** The locals the first block of [igrf12syn] leaves for the rest. *)
Record epoch : Type := mkEpoch {
  t : R;
  tc : R;
  ll : R;
  nmx : Z;
  nc : Z;
  kmx : R
}.

Inductive resolution : Type :=
| OutOfRange
| Resolved (reduced_accuracy : bool) (e : epoch).

Definition resolve (isv : Z) (date : R) : resolution :=
  if (Py.ltb date 1900.0 || Py.gtb date 2025.0)%bool then OutOfRange
  else if Py.geb date 2015.0 then
    let t := date - 2015.0 in
    let tc := 1.0 in
    let '(t, tc) := if (isv =? 1)%Z then (1.0, 0.0) else (t, tc) in
    let ll := 3060 in
    let nmx := 13%Z in
    let nc := (nmx * (nmx + 2))%Z in
    let kmx := IZR ((nmx + 1) * (nmx + 2)) / 2 in
    Resolved (Py.gtb date 2020.0) (mkEpoch t tc ll nmx nc kmx)
  else
    let t := 0.2 * (date - 1900.0) in
    let ll := t in
    let one := ll in
    let t := t - one in
    let '(nmx, nc, ll, kmx) :=
      if Py.ltb date 1995.0 then
        let nmx := 10%Z in
        let nc := (nmx * (nmx + 2))%Z in
        let ll := IZR nc * ll in
        let kmx := IZR ((nmx + 1) * (nmx + 2)) / 2 in
        (nmx, nc, ll, kmx)
      else
        let nmx := 13%Z in
        let nc := (nmx * (nmx + 2))%Z in
        let ll := 0.2 * (date - 1995.0) in
        let ll := IZR (120 * 19) + IZR nc * ll in
        let kmx := IZR ((nmx + 1) * (nmx + 2)) / 2 in
        (nmx, nc, ll, kmx) in
    let tc := 1.0 - t in
    let '(tc, t) := if (isv =? 1)%Z then (- 0.2, 0.2) else (tc, t) in
    Resolved false (mkEpoch t tc ll nmx nc kmx).

(** The Gauss coefficient the recurrence uses at table position
    [int(lm) + off]: [tc * gh[int(lm) + off] + t * gh[int(lm + nc) + off]]
    with [off] being -1 for [one] and 0 for [two]. *)
Definition coefficient (gh : list R) (e : epoch) (lm : R) (off : Z)
  : Py.result R :=
  a <- Py.get gh (Py.int lm + off) ;;
  b <- Py.get gh (Py.int (lm + IZR (nc e)) + off) ;;
  Py.Ok (tc e * a + t e * b).

(** *** The harmonic recurrence of igrf12syn *)

(** The locals the loop over [k] reads and writes.  [fn] and [gn] are
    unbound until the loop first assigns them. *)
Record state : Type := mkState {
  p : list R;
  q : list R;
  cl : list R;
  sl : list R;
  x : R;
  y : R;
  z : R;
  rr : R;
  l : Z;
  m : Z;
  n : Z;
  fn : option Z;
  gn : option Z
}.

(** Reading a local that may not have been assigned yet. *)
Definition local (v : option Z) : Py.result Z :=
  match v with
  | Some a => Py.Ok a
  | None => Py.Raise Py.UnboundLocalError
  end.

(** The branch [if m != n] of the loop body: the non-sectoral terms. *)
Definition legendre_off_diagonal (ct st : R) (k : Z) (s : state)
  : Py.result state :=
  let gmm := (m s * m s)%Z in
  fn0 <- local (fn s) ;;
  let one := sqrt (IZR (fn0 * fn0 - gmm)) in
  gn0 <- local (gn s) ;;
  two <- Py.div (sqrt (IZR (gn0 * gn0 - gmm))) one ;;
  three <- Py.div (IZR (fn0 + gn0)) one ;;
  let i := (k - n s)%Z in
  let j := (i - n s + 1)%Z in
  pi <- Py.get (p s) (i - 1) ;;
  pj <- Py.get (p s) (j - 1) ;;
  p' <- Py.set (p s) (k - 1) (three * ct * pi - two * pj) ;;
  qi <- Py.get (q s) (i - 1) ;;
  pi' <- Py.get p' (i - 1) ;;
  qj <- Py.get (q s) (j - 1) ;;
  q' <- Py.set (q s) (k - 1) (three * (ct * qi - st * pi') - two * qj) ;;
  Py.Ok (mkState p' q' (cl s) (sl s) (x s) (y s) (z s) (rr s)
                 (l s) (m s) (n s) (fn s) (gn s)).

(** The branch [else: if k != 3] of the loop body: the sectoral terms and
    the next pair of longitude harmonics. *)
Definition legendre_diagonal (ct st : R) (k : Z) (fm : Z) (s : state)
  : Py.result state :=
  h <- Py.div 0.5 (IZR fm) ;;
  let one := sqrt (1.0 - h) in
  let j := (k - n s - 1)%Z in
  pj <- Py.get (p s) (j - 1) ;;
  p' <- Py.set (p s) (k - 1) (one * st * pj) ;;
  qj <- Py.get (q s) (j - 1) ;;
  pj' <- Py.get p' (j - 1) ;;
  q' <- Py.set (q s) (k - 1) (one * (st * qj + ct * pj')) ;;
  c2 <- Py.get (cl s) (m s - 2) ;;
  c0 <- Py.get (cl s) 0 ;;
  s2 <- Py.get (sl s) (m s - 2) ;;
  s0 <- Py.get (sl s) 0 ;;
  cl' <- Py.set (cl s) (m s - 1) (c2 * c0 - s2 * s0) ;;
  s2 <- Py.get (sl s) (m s - 2) ;;
  c0 <- Py.get cl' 0 ;;
  c2 <- Py.get cl' (m s - 2) ;;
  s0 <- Py.get (sl s) 0 ;;
  sl' <- Py.set (sl s) (m s - 1) (s2 * c0 + c2 * s0) ;;
  Py.Ok (mkState p' q' cl' sl' (x s) (y s) (z s) (rr s)
                 (l s) (m s) (n s) (fn s) (gn s)).

(** The statements under [if m == 0]. *)
Definition zonal_term (k : Z) (one : R) (s : state) : Py.result state :=
  qk <- Py.get (q s) (k - 1) ;;
  let x' := x s + one * qk in
  fn0 <- local (fn s) ;;
  pk <- Py.get (p s) (k - 1) ;;
  let z' := z s - (IZR fn0 + 1.0) * one * pk in
  Py.Ok (mkState (p s) (q s) (cl s) (sl s) x' (y s) z' (rr s)
                 (l s + 1) (m s + 1) (n s) (fn s) (gn s)).

(** The update of the east accumulator [y]:
    [if st == 0.0: ... * q[k - 1] * ct  else: ... * fm * p[k - 1] / st]. *)
Definition east_term (ct st : R) (k : Z) (fm : Z) (one two : R) (s : state)
  : Py.result R :=
  if Py.eqb st 0.0 then
    slm <- Py.get (sl s) (m s - 1) ;;
    clm <- Py.get (cl s) (m s - 1) ;;
    qk <- Py.get (q s) (k - 1) ;;
    Py.Ok (y s + (one * slm - two * clm) * qk * ct)
  else
    slm <- Py.get (sl s) (m s - 1) ;;
    clm <- Py.get (cl s) (m s - 1) ;;
    pk <- Py.get (p s) (k - 1) ;;
    d <- Py.div ((one * slm - two * clm) * IZR fm * pk) st ;;
    Py.Ok (y s + d).

(** One iteration of [for k in range(2, int(kmx))]. *)
Definition body (gh : list R) (e : epoch) (ct st ratio : R)
           (k : Z) (s : state) : Py.result state :=
  if (n s >=? m s)%Z then
    let fm := m s in
    s <- (if negb (m s =? n s)%Z then legendre_off_diagonal ct st k s
          else if negb (k =? 3)%Z then legendre_diagonal ct st k fm s
          else Py.Ok s) ;;
    let lm := ll e + IZR (l s) in
    g <- coefficient gh e lm (-1) ;;
    let one := g * rr s in
    s <- (if (m s =? 0)%Z then zonal_term k one s else Py.Ok s) ;;
    h <- coefficient gh e lm 0 ;;
    let two := h * rr s in
    clm <- Py.get (cl s) (m s - 1) ;;
    slm <- Py.get (sl s) (m s - 1) ;;
    let three := one * clm + two * slm in
    qk <- Py.get (q s) (k - 1) ;;
    let x' := x s + three * qk in
    fn0 <- local (fn s) ;;
    pk <- Py.get (p s) (k - 1) ;;
    let z' := z s - (IZR fn0 + 1.0) * three * pk in
    y' <- east_term ct st k fm one two s ;;
    Py.Ok (mkState (p s) (q s) (cl s) (sl s) x' y' z' (rr s)
                   (l s + 2) (m s + 1) (n s) (fn s) (gn s))
  else
    let m' := 0%Z in
    let n' := (n s + 1)%Z in
    Py.Ok (mkState (p s) (q s) (cl s) (sl s) (x s) (y s) (z s)
                   (rr s * ratio) (l s) (m' + 1)%Z n' (Some n') (Some (n' - 1)%Z)).

(** A [for] loop whose body may raise. *)
Fixpoint for_each (ks : list Z) (f : Z -> state -> Py.result state)
         (s : state) : Py.result state :=
  match ks with
  | [] => Py.Ok s
  | k :: rest => s' <- f k s ;; for_each rest f s'
  end.

(** *** Coordinate preparation, synthesis and frame restoration *)

(** What the block [if itype == 1] computes: the geocentric radius, the
    rotation [(cd, sd)] and the geocentric [ct], [st]. *)
Record frame : Type := mkFrame {
  r : R;
  cd : R;
  sd : R;
  ct : R;
  st : R
}.

Definition geodetic_reduction (alt ct st : R) : Py.result frame :=
  let a2 := 40680631.6 in
  let b2 := 40408296.0 in
  let one := a2 * st * st in
  let two := b2 * ct * ct in
  let three := one + two in
  let rho := sqrt three in
  d <- Py.div (a2 * one + b2 * two) three ;;
  let r := sqrt (alt * (alt + 2.0 * rho) + d) in
  cd <- Py.div (alt + rho) r ;;
  d <- Py.div (a2 - b2) rho ;;
  sd <- Py.div (d * ct * st) r ;;
  let one := ct in
  let ct := ct * cd - st * sd in
  let st := st * cd + one * sd in
  Py.Ok (mkFrame r cd sd ct st).

Definition prepare (itype : Z) (alt colat : R) : Py.result frame :=
  let r := alt in
  let one := colat / FACT in
  let ct := cos one in
  let st := sin one in
  let cd := 1.0 in
  let sd := 0.0 in
  if (itype =? 1)%Z then geodetic_reduction alt ct st
  else Py.Ok (mkFrame r cd sd ct st).

(** The locals on entry to the loop.  The four lists are the fresh
    [[0.] * 105] and [[0.] * 13] of this call, so the writes to positions
    0 and 2 are in range. *)
Definition initial (elong : R) (fr : frame) (ratio : R) : state :=
  let one := elong / FACT in
  let cl := Py.update (repeat 0.0 13) 0 (cos one) in
  let sl := Py.update (repeat 0.0 13) 0 (sin one) in
  let rr := ratio * ratio in
  let p := Py.update (Py.update (repeat 0.0 105) 0 1.0) 2 (st fr) in
  let q := Py.update (Py.update (repeat 0.0 105) 0 0.0) 2 (ct fr) in
  mkState p q cl sl 0 0 0 rr 1 1 0 None None.

(** Everything after the epoch has been resolved. *)
Definition synthesize (gh : list R) (e : epoch) (itype : Z)
           (alt colat elong : R) : Py.result (R * R * R * R) :=
  fr <- prepare itype alt colat ;;
  ratio <- Py.div 6371.2 (r fr) ;;
  s <- for_each (Py.range 2 (Py.int (kmx e)))
                (body gh e (ct fr) (st fr) ratio)
                (initial elong fr ratio) ;;
  let one := x s in
  let x := x s * cd fr + z s * sd fr in
  let z := z s * cd fr - one * sd fr in
  let f := sqrt (x * x + y s * y s + z * z) in
  Py.Ok (x, y s, z, f).

Definition print (msg : message) (w : world) : world :=
  emit (Printed msg) w.

Definition igrf12syn (isv : Z) (date : R) (itype : Z) (alt colat elong : R)
           (w : world) : Py.result (R * R * R * R) * world :=
  let '(loaded, w) := loadCoeffs "igrf12coeffs.txt" w in
  match loaded with
  | Py.Raise e => (Py.Raise e, w)
  | Py.Ok gh =>
      let x := 0.0 in
      let y := 0.0 in
      let z := 0.0 in
      match resolve isv date with
      | OutOfRange =>
          let f := 1.0 in
          let w := print (MsgWillNotWork date) w in
          let w := print MsgDateRange w in
          let w := print MsgOnReturn w in
          (Py.Ok (x, y, z, f), w)
      | Resolved reduced e =>
          let w := if reduced
                   then print (MsgReducedAccuracy date)
                              (print MsgIntendedUpTo2020 w)
                   else w in
          (synthesize gh e itype alt colat elong, w)
      end
  end.

End IGRF12.

(** ** apex.py *)

Module Apex.

Definition FACT : R := 180 / PI.

(** The four arrays [itrace] updates in place.  [Y] and [YOLD] have three
    entries, [YAPX] is 3x3 and [YP] is 3x4, stored row by row; every index
    the code uses is a constant or the loop variable [I] in [range(0, 3)]. *)
Record arrays : Type := mkArrays {
  Y : list R;
  YOLD : list R;
  YAPX : list (list R);
  YP : list (list R)
}.

Definition at1 (v : list R) (i : nat) : R := nth i v 0.
Definition at2 (M : list (list R)) (i j : nat) : R := nth j (nth i M []) 0.
Definition put2 (M : list (list R)) (i j : nat) (v : R) : list (list R) :=
  Py.update M i (Py.update (nth i M []) j v).

Definition set_Y (a : arrays) (i : nat) (v : R) : arrays :=
  mkArrays (Py.update (Y a) i v) (YOLD a) (YAPX a) (YP a).
Definition set_YOLD (a : arrays) (i : nat) (v : R) : arrays :=
  mkArrays (Y a) (Py.update (YOLD a) i v) (YAPX a) (YP a).
Definition set_YAPX (a : arrays) (i j : nat) (v : R) : arrays :=
  mkArrays (Y a) (YOLD a) (put2 (YAPX a) i j v) (YP a).
Definition set_YP (a : arrays) (i j : nat) (v : R) : arrays :=
  mkArrays (Y a) (YOLD a) (YAPX a) (put2 (YP a) i j v).

(** [for I in range(0, 3)]. *)
Definition for_I (f : nat -> arrays -> arrays) (a : arrays) : arrays :=
  fold_left (fun acc I => f I acc) [0%nat; 1%nat; 2%nat] a.

(** The body of the loop over [I] under [if NSTP <= 7]. *)
Definition bootstrap (NSTP : Z) (DS D2 D6 D12 D24 : R) (I : nat)
           (a : arrays) : arrays :=
  if (NSTP =? 1)%Z then
    let a := set_YP a I 0 (at2 (YP a) I 3) in
    let a := set_YOLD a I (at1 (Y a) I) in
    let a := set_YAPX a I 0 (at1 (Y a) I) in
    set_Y a I (at1 (YOLD a) I + DS * at2 (YP a) I 0)
  else if (NSTP =? 2)%Z then
    let a := set_YP a I 1 (at2 (YP a) I 3) in
    set_Y a I (at1 (YOLD a) I + D2 * (at2 (YP a) I 1 + at2 (YP a) I 0))
  else if (NSTP =? 3)%Z then
    set_Y a I (at1 (YOLD a) I
               + D6 * (2.0 * at2 (YP a) I 3 + at2 (YP a) I 1
                       + 3.0 * at2 (YP a) I 0))
  else if (NSTP =? 4)%Z then
    let a := set_YP a I 1 (at2 (YP a) I 3) in
    let a := set_YAPX a I 1 (at1 (Y a) I) in
    let a := set_YOLD a I (at1 (Y a) I) in
    set_Y a I (at1 (YOLD a) I
               + D2 * (3.0 * at2 (YP a) I 1 - at2 (YP a) I 0))
  else if (NSTP =? 5)%Z then
    set_Y a I (at1 (YOLD a) I
               + D12 * (5.0 * at2 (YP a) I 3 + 8.0 * at2 (YP a) I 1
                        - at2 (YP a) I 0))
  else if (NSTP =? 6)%Z then
    let a := set_YP a I 2 (at2 (YP a) I 3) in
    let a := set_YOLD a I (at1 (Y a) I) in
    let a := set_YAPX a I 2 (at1 (Y a) I) in
    set_Y a I (at1 (YOLD a) I
               + D12 * (23.0 * at2 (YP a) I 2 - 16.0 * at2 (YP a) I 1
                        + 5.0 * at2 (YP a) I 0))
  else if (NSTP =? 7)%Z then
    let a := set_YAPX a I 0 (at2 (YAPX a) I 1) in
    let a := set_YAPX a I 1 (at2 (YAPX a) I 2) in
    let a := set_Y a I (at1 (YOLD a) I
                        + D24 * (9.0 * at2 (YP a) I 3 + 19.0 * at2 (YP a) I 2
                                 - 5.0 * at2 (YP a) I 1 + at2 (YP a) I 0)) in
    set_YAPX a I 2 (at1 (Y a) I)
  else a.

(** The body of the loop over [I] under [else:  # NSTP > 7]. *)
Definition adams (D24 : R) (I : nat) (a : arrays) : arrays :=
  let a := set_YAPX a I 0 (at2 (YAPX a) I 1) in
  let a := set_YAPX a I 1 (at1 (Y a) I) in
  let a := set_YOLD a I (at1 (Y a) I) in
  let a := set_Y a I (at1 (YOLD a) I
                      + D24 * (55.0 * at2 (YP a) I 3 - 59.0 * at2 (YP a) I 2
                               + 37.0 * at2 (YP a) I 1
                               - 9.0 * at2 (YP a) I 0)) in
  let a := set_YAPX a I 2 (at1 (Y a) I) in
  fold_left (fun acc J => set_YP acc I J (at2 (YP acc) I (J + 1)))
            [0%nat; 1%nat; 2%nat] a.

(** Geocentric radius of column [j] of [YAPX]. *)
Definition apex_radius (M : list (list R)) (j : nat) : R :=
  sqrt (at2 M 0 j ^ 2 + at2 M 1 j ^ 2 + at2 M 2 j ^ 2).

Definition radius (v : list R) : R :=
  sqrt (at1 v 0 ^ 2 + at1 v 1 ^ 2 + at1 v 2 ^ 2).

(** [itrace]: the returned flag and the arrays as the call leaves them.
    The divisions are NumPy's and do not raise. *)
Definition itrace (a : arrays) (BX BY BZ BB SGN DS : R) (NSTP : Z)
  : bool * arrays :=
  let a := set_YP a 0 3 (SGN * BX / BB) in
  let a := set_YP a 1 3 (SGN * BY / BB) in
  let a := set_YP a 2 3 (SGN * BZ / BB) in
  let D2 := DS / 2.0 in
  let D6 := DS / 6.0 in
  let D12 := DS / 12.0 in
  let D24 := DS / 24.0 in
  if (NSTP <=? 7)%Z then
    let a := for_I (bootstrap NSTP DS D2 D6 D12 D24) a in
    if ((NSTP =? 6) || (NSTP =? 7))%Z then
      let RC := apex_radius (YAPX a) 2 in
      let RP := apex_radius (YAPX a) 1 in
      if Py.ltb RC RP then (true, a) else (false, a)
    else (false, a)
  else
    let a := for_I (adams D24) a in
    let RC := radius (Y a) in
    let RP := radius (YOLD a) in
    if Py.ltb RC RP then (true, a) else (false, a).

Section Tracer.

(** [igrf12syn] and [getCoeffs] as [apex.py] imports them from the
    module [igrf], whose code is not modelled here: the field evaluator
    and the per-epoch tables [g], [h] with [g[n][m]] as [g n m]. *)
Variable igrf12syn : Z -> R -> Z -> R -> R -> R -> R * R * R * R.
Variable getCoeffs : R -> (nat -> nat -> R) * (nat -> nat -> R).

Definition northPole (date : R) : R * R :=
  let '(g, h) := getCoeffs date in
  let g10 := g 1%nat 0%nat in
  let g11 := g 1%nat 1%nat in
  let h11 := h 1%nat 1%nat in
  let colat := acos (g10 / sqrt (g10 ^ 2 + g11 ^ 2 + h11 ^ 2)) in
  let elong := Py.arctan2 h11 g11 in
  (colat * FACT - 90, elong * FACT - 180).

(** The locals of [findApex] the [while] loop reads and writes. *)
Record loop : Type := mkLoop {
  arr : arrays;
  step : Z;
  arrive : bool;
  gclat : R;
  gclon : R;
  gcrho : R;
  trace : list (list R)
}.

(** One pass through the body of the [while] loop. *)
Definition iteration (date ctp stp nlon sgn : R) (s : loop) : loop :=
  let stngml := ctp * sin (gclat s)
                + stp * cos (gclat s) * cos (gclon s - nlon) in
  let cgml2 := Py.max (1 - stngml ^ 2) 0.25 in
  let DS := gcrho s * 0.06 / cgml2 - 370 in
  let '(bx, by_, bz, bb) :=
    igrf12syn 0 date 2 (gcrho s) (gclat s * FACT) (gclon s * FACT) in
  let '(Bx, By, Bz) :=
    Coordinate.rotateVector (bx, by_, bz) (gclon s) (gclat s) in
  let '(arrive, a) := itrace (arr s) Bx By Bz bb sgn DS (step s) in
  let step := (step s + 1)%Z in
  let '(gclat, gclon, gcrho) :=
    Coordinate.cartesian2geocentric (at1 (Y a) 0) (at1 (Y a) 1)
                                    (at1 (Y a) 2) in
  mkLoop a step arrive gclat gclon gcrho (trace s ++ [Y a]).

(** [while not arrive and step < 100]. *)
Definition continue (s : loop) : bool :=
  (negb (arrive s) && (step s <? 100)%Z)%bool.

Fixpoint while (fuel : nat) (body : loop -> loop) (s : loop) : loop :=
  match fuel with
  | O => s
  | S fuel' => if continue s then while fuel' body (body s) else s
  end.

(** The locals of [findApex] when the [while] loop is first reached,
    with the constants the loop body reads. *)
Definition launch (lat lon alt date : R) : R * R * R * R * R * loop :=
  let '(nlat, nlon) := northPole date in
  let nlat := nlat / FACT in
  let nlon := nlon / FACT in
  let ctp := cos (PI / 2 - nlat) in
  let stp := sin (PI / 2 - nlat) in
  let '(gccolat, plon, gcrho) :=
    Coordinate.geodetic2geocentric (PI / 2 - lat / FACT) alt in
  let gclat := PI / 2 - gccolat in
  let gclon := lon / FACT in
  let '(x0, y0, z0) :=
    Coordinate.geocentric2cartesian gclat gclon gcrho in
  let '(bx, by_, bz, bb) :=
    igrf12syn 0 date 2 gcrho (gclat * FACT) (gclon * FACT) in
  let sgn := - Py.sign bz in
  let trace := [[x0; y0; z0]] in
  let YAPX := repeat (repeat 0.0 3) 3 in
  let step := 0%Z in
  let arrive := false in
  let Y := [x0; y0; z0] in
  let YOLD := [0; 0; 0] in
  let YP := repeat (repeat 0.0 4) 3 in
  (date, ctp, stp, nlon, sgn,
   mkLoop (mkArrays Y YOLD YAPX YP) step arrive gclat gclon gcrho trace).

(** The state in which the [while] loop of [findApex] stops.  The step
    counter grows by one per pass, so 100 passes always suffice. *)
Definition findApex_loop (lat lon alt date : R) : loop :=
  let '(date, ctp, stp, nlon, sgn, s) := launch lat lon alt date in
  while 100 (iteration date ctp stp nlon sgn) s.

Definition findApex (lat lon alt date : R) : list (list R) :=
  trace (findApex_loop lat lon alt date).

End Tracer.

End Apex.

(** * The specification's wording and concrete inputs *)

(** What the specification says where the code is compared with it. *)
Module Claimed.

(** The dipole pole: colatitude [arccos(g10 / sqrt(g10^2 + g11^2 + h11^2))],
    latitude 90 degrees minus that colatitude, longitude
    [atan2(h11, g11)], both in degrees. *)
Definition northPole (g10 g11 h11 : R) : R * R :=
  let colatitude := acos (g10 / sqrt (g10 ^ 2 + g11 ^ 2 + h11 ^ 2)) in
  let latitude := 90 - colatitude * Apex.FACT in
  let longitude := Py.arctan2 h11 g11 * Apex.FACT in
  (latitude, longitude).

(** Index of the 5-year snapshot at or before [date]. *)
Definition bracket (date : R) : Z := Py.int ((date - 1900) / 5).

(** Fractional position of [date] inside its bracket. *)
Definition fraction (date : R) : R :=
  (date - 1900) / 5 - IZR (bracket date).

(** The interpolated Gauss coefficient number [l] (from 1) for an epoch
    before 1995.0, where a snapshot holds 120 coefficients. *)
Definition interpolated (gh : list R) (date : R) (l : Z) : Py.result R :=
  let t := fraction date in
  g_lower <- Py.get gh (120 * bracket date + l - 1) ;;
  g_upper <- Py.get gh (120 * (bracket date + 1) + l - 1) ;;
  Py.Ok ((1 - t) * g_lower + t * g_upper).

(** The two outcomes of a trace the specification tells apart. *)
Inductive outcome : Type :=
| ApexTrace (path : list (list R))
| TraceDidNotConverge.

(** The outcome the specification asks for when the loop of [findApex]
    stops in state [s]: the path if a radius decrease was signalled, the
    distinguished failure if the cap stopped the loop. *)
Definition findApex (s : Apex.loop) : outcome :=
  if Apex.arrive s then ApexTrace (Apex.trace s) else TraceDidNotConverge.

End Claimed.

(** The integer control of the harmonic recurrence, which does not depend on
    the floating-point data: how one pass of the loop body moves [(l, m, n)],
    and what a pass needs of them to stay inside its lists and away from a
    zero divisor. *)
Module Skeleton.

Definition ctl : Type := (Z * Z * Z)%type.

Definition of_state (s : IGRF12.state) : ctl :=
  (IGRF12.l s, IGRF12.m s, IGRF12.n s).

Definition next (c : ctl) : ctl :=
  let '(l, m, n) := c in
  if (n >=? m)%Z then
    let '(l, m) := if (m =? 0)%Z then (l + 1, m + 1)%Z else (l, m) in
    (l + 2, m + 1, n)%Z
  else (l, 0 + 1, n + 1)%Z.

Definition within (len i : Z) : bool := ((0 <=? i) && (i <? len))%Z.

Definition safe (k : Z) (c : ctl) : bool :=
  let '(l, m, n) := c in
  if (n >=? m)%Z then
    ((1 <=? m) && (1 <=? l) && (l <=? 195))%Z
    && within 105 (k - 1) && within 13 (m - 1)
    && (if negb (m =? n)%Z then
          (0 <? n * n - m * m)%Z
          && within 105 (k - n - 1) && within 105 (k - n - n + 1 - 1)
        else if negb (k =? 3)%Z then
          within 105 (k - n - 1 - 1) && within 13 (m - 2)
        else true)
  else true.

Fixpoint all_safe (ks : list Z) (c : ctl) : bool :=
  match ks with
  | [] => true
  | k :: rest => safe k c && all_safe rest (next c)
  end.

(** What the loop keeps true of the locals that are not in [ctl]. *)
Definition shaped (s : IGRF12.state) : Prop :=
  List.length (IGRF12.p s) = 105%nat
  /\ List.length (IGRF12.q s) = 105%nat
  /\ List.length (IGRF12.cl s) = 13%nat
  /\ List.length (IGRF12.sl s) = 13%nat
  /\ ((1 <= IGRF12.n s)%Z ->
      IGRF12.fn s = Some (IGRF12.n s)
      /\ IGRF12.gn s = Some (IGRF12.n s - 1)%Z).

End Skeleton.

(** What can be observed of a sequence of calls. *)
Module Observed.

Definition is_load (e : IGRF12.event) : bool :=
  match e with
  | IGRF12.Opened _ => true
  | IGRF12.Printed _ => false
  end.

(** How many times the coefficient table has been built. *)
Definition loads (w : IGRF12.world) : nat :=
  List.length (filter is_load (IGRF12.events w)).

Definition is_error (e : IGRF12.event) : bool :=
  match e with
  | IGRF12.Printed (IGRF12.MsgWillNotWork _) => true
  | IGRF12.Printed IGRF12.MsgDateRange => true
  | IGRF12.Printed IGRF12.MsgOnReturn => true
  | _ => false
  end.

(** The arguments of one call of [igrf12syn]. *)
Record call : Type := mkCall {
  isv : Z;
  date : R;
  itype : Z;
  alt : R;
  colat : R;
  elong : R
}.

Definition invoke (c : call) (w : IGRF12.world)
  : Py.result (R * R * R * R) * IGRF12.world :=
  IGRF12.igrf12syn (isv c) (date c) (itype c) (alt c) (colat c) (elong c) w.

(** The world after the calls [cs], made one after the other. *)
Definition after (cs : list call) (w : IGRF12.world) : IGRF12.world :=
  fold_left (fun w c => snd (invoke c w)) cs w.

(** The published shape of the coefficient file: 195 coefficient rows,
    each with one value per model epoch (24 main-field epochs and the
    secular variation). *)
Definition published (text : list IGRF12.line) : Prop :=
  List.length (filter IGRF12.is_coeff_line text) = 195%nat
  /\ Forall (fun a => List.length (IGRF12.fields a) = 25%nat)
            (filter IGRF12.is_coeff_line text).

(** Length of what [IGRF12.flatten] makes of [count] columns of 195
    values, the first of them being column [i]. *)
Fixpoint flat_length (i count : nat) : nat :=
  match count with
  | O => O
  | S count' =>
      ((if (i <? 19)%nat then 120 else 195) + flat_length (S i) count')%nat
  end.

(** The documented domain of [igrf12syn]: geodetic height above sea level,
    or geocentric distance above 3485 km. *)
Definition documented (itype : Z) (alt : R) : Prop :=
  (itype = 1%Z /\ 0 <= alt) \/ (itype = 2%Z /\ 3485 < alt).

End Observed.

(** What the arrays of the tracer look like, and how to read them. *)
Module Tracer.

(** Column [j] of [YAPX]: one of the three points about the apex. *)
Definition column (M : list (list R)) (j : nat) : list R :=
  [Apex.at2 M 0 j; Apex.at2 M 1 j; Apex.at2 M 2 j].

(** The sizes [findApex] gives the arrays: [Y] and [YOLD] of length 3,
    [YAPX] 3x3 and [YP] 3x4. *)
Definition shaped (a : Apex.arrays) : Prop :=
  List.length (Apex.Y a) = 3%nat
  /\ List.length (Apex.YOLD a) = 3%nat
  /\ List.length (Apex.YAPX a) = 3%nat
  /\ Forall (fun row => List.length row = 3%nat) (Apex.YAPX a)
  /\ List.length (Apex.YP a) = 3%nat
  /\ Forall (fun row => List.length row = 4%nat) (Apex.YP a).

(** The state after [j] passes through the body of the [while] loop of
    [findApex], whether or not the loop would have stopped before. *)
Definition passes (igrf12syn : Z -> R -> Z -> R -> R -> R -> R * R * R * R)
           (getCoeffs : R -> (nat -> nat -> R) * (nat -> nat -> R))
           (lat lon alt date : R) (j : nat) : Apex.loop :=
  let '(date, ctp, stp, nlon, sgn, s) :=
    Apex.launch igrf12syn getCoeffs lat lon alt date in
  Nat.iter j (Apex.iteration igrf12syn date ctp stp nlon sgn) s.

(** The arrays of a trace that does not move: the point stays at [y],
    every stored derivative is zero, and the copies of the point made
    before step [k] are equal to it. *)
Definition still (y : list R) (k : Z) (a : Apex.arrays) : Prop :=
  exists y0 y1 y2 o0 o1 o2 a00 a01 a02 a10 a11 a12 a20 a21 a22,
    y = [y0; y1; y2]
    /\ a = Apex.mkArrays [y0; y1; y2] [o0; o1; o2]
             [[a00; a01; a02]; [a10; a11; a12]; [a20; a21; a22]]
             [[0; 0; 0; 0]; [0; 0; 0; 0]; [0; 0; 0; 0]]
    /\ ((2 <= k)%Z -> o0 = y0 /\ o1 = y1 /\ o2 = y2)
    /\ ((5 <= k)%Z -> a01 = y0 /\ a11 = y1 /\ a21 = y2)
    /\ ((7 <= k)%Z -> a02 = y0 /\ a12 = y1 /\ a22 = y2).

(** The arc length [DS] a pass of the loop of [findApex] computes from
    the locals it is entered with, before it calls [itrace]. *)
Definition step_length (ctp stp nlon : R) (s : Apex.loop) : R :=
  let stngml := ctp * sin (Apex.gclat s)
                + stp * cos (Apex.gclat s) * cos (Apex.gclon s - nlon) in
  let cgml2 := Py.max (1 - stngml ^ 2) 0.25 in
  Apex.gcrho s * 0.06 / cgml2 - 370.

End Tracer.

(** Concrete inputs. *)
Module Linear.

(** The coefficient table [a * gh1 + b * gh2], entry by entry. *)
Definition blend (a b : R) (gh1 gh2 : list R) : list R :=
  map (fun uv => a * fst uv + b * snd uv) (combine gh1 gh2).

(** The locals [s] of the loop of [igrf12syn] with the three sums
    [x], [y], [z] replaced. *)
Definition with_sums (s : IGRF12.state) (x y z : R) : IGRF12.state :=
  IGRF12.mkState (IGRF12.p s) (IGRF12.q s) (IGRF12.cl s) (IGRF12.sl s)
                 x y z (IGRF12.rr s) (IGRF12.l s) (IGRF12.m s) (IGRF12.n s)
                 (IGRF12.fn s) (IGRF12.gn s).

End Linear.

Module Inputs.

(** Degree-1 coefficients of the 2005.0 model. *)
Definition dgrf2005 (date : R) : (nat -> nat -> R) * (nat -> nat -> R) :=
  (fun n m => match n, m with
              | 1%nat, 0%nat => -29554.63
              | 1%nat, 1%nat => -1669.05
              | _, _ => 0
              end,
   fun n m => match n, m with
              | 1%nat, 1%nat => 5077.99
              | _, _ => 0
              end).

(** A centred dipole along the rotation axis, [g10 = -1]. *)
Definition axial (date : R) : (nat -> nat -> R) * (nat -> nat -> R) :=
  (fun n m => match n, m with
              | 1%nat, 0%nat => -1
              | _, _ => 0
              end,
   fun _ _ => 0).

(** A coefficient table of the length [loadCoeffs] produces (3451) whose
    only non-zero entry is [gh[60] = 1]. *)
Definition spike60 : list R := repeat 0 60 ++ 1 :: repeat 0 3390.

(** A coefficient file of the published shape, 195 rows of 25 values,
    all of them zero. *)
Definition zero_file : list IGRF12.line :=
  repeat (IGRF12.mkLine "g " (repeat 0 25)) 195.

Definition disk (filename : string) : option (list IGRF12.line) :=
  if String.eqb filename "igrf12coeffs.txt" then Some zero_file else None.

Definition fresh : IGRF12.world := IGRF12.mkWorld disk [].

(** The call at the end of [IGRF12.py]:
    [igrf12syn(1, DATE, ITYPE, ALT, CLT, XLN)]. *)
Definition main_call : Observed.call :=
  Observed.mkCall 1 2005 1 300 40 116.

(** Arrays as they may stand when step 6 is entered: the current point
    at radius 1, the point stored before it at radius 2. *)
Definition past_apex : Apex.arrays :=
  Apex.mkArrays [1; 0; 0] [1; 0; 0]
    [[0; 2; 0]; [0; 0; 0]; [0; 0; 0]]
    [[0; 0; 0; 0]; [0; 0; 0; 0]; [0; 0; 0; 0]].

(** What [igrf12syn] answers for an epoch outside [1900.0, 2025.0]. *)
Definition sentinel (isv : Z) (date : R) (itype : Z) (alt colat elong : R)
  : R * R * R * R := (0.0, 0.0, 0.0, 1.0).

End Inputs.

(** * Properties *)

(** ** Real-number and Python-primitive facts *)

Lemma ltb_true (a b : R) : a < b -> Py.ltb a b = true.
Proof.
  intros H. unfold Py.ltb.
  destruct (Rlt_dec a b); [reflexivity | contradiction].
Qed.

Lemma ltb_false (a b : R) : ~ a < b -> Py.ltb a b = false.
Proof.
  intros H. unfold Py.ltb.
  destruct (Rlt_dec a b); [contradiction | reflexivity].
Qed.

Lemma ltb_spec (a b : R) : Py.ltb a b = true <-> a < b.
Proof.
  unfold Py.ltb. destruct (Rlt_dec a b); split; intros; try assumption;
    try reflexivity; try discriminate; contradiction.
Qed.

Lemma gtb_true (a b : R) : a > b -> Py.gtb a b = true.
Proof.
  intros H. unfold Py.gtb.
  destruct (Rgt_dec a b); [reflexivity | contradiction].
Qed.

Lemma gtb_false (a b : R) : ~ a > b -> Py.gtb a b = false.
Proof.
  intros H. unfold Py.gtb.
  destruct (Rgt_dec a b); [contradiction | reflexivity].
Qed.

Lemma geb_true (a b : R) : a >= b -> Py.geb a b = true.
Proof.
  intros H. unfold Py.geb.
  destruct (Rge_dec a b); [reflexivity | contradiction].
Qed.

Lemma geb_false (a b : R) : ~ a >= b -> Py.geb a b = false.
Proof.
  intros H. unfold Py.geb.
  destruct (Rge_dec a b); [contradiction | reflexivity].
Qed.

Lemma int_IZR (z : Z) : Py.int (IZR z) = z.
Proof.
  unfold Py.int. destruct (Rle_dec 0 (IZR z)) as [H | H].
  - symmetry. apply Int_part_spec. lra.
  - rewrite <- opp_IZR.
    assert (E : (- z)%Z = Int_part (IZR (- z))) by (apply Int_part_spec; lra).
    rewrite <- E. lia.
Qed.

Lemma int_range (v : R) (a b : Z) :
  0 <= v -> IZR a <= v -> v < IZR b -> (a <= Py.int v < b)%Z.
Proof.
  intros H0 Ha Hb. unfold Py.int.
  destruct (Rle_dec 0 v) as [_ | H]; [| contradiction].
  destruct (base_Int_part v) as [H1 H2]. split.
  - assert (H : IZR a < IZR (Int_part v + 1)) by (rewrite plus_IZR; lra).
    apply lt_IZR in H. lia.
  - apply lt_IZR. lra.
Qed.

Lemma unit_circle (a : R) : sin a * sin a + cos a * cos a = 1.
Proof. pose proof (sin2_cos2 a) as H. unfold Rsqr in H. exact H. Qed.

Lemma FACT_PI : PI * Apex.FACT = 180.
Proof. unfold Apex.FACT. field. apply PI_neq0. Qed.

(** ** coordinate.py: the rotation to cartesian coordinates *)

Lemma spanMat_orthogonal (alpha beta : R) :
  Coordinate.matmul (Coordinate.transpose (Coordinate.spanMat alpha beta))
                    (Coordinate.spanMat alpha beta)
  = Coordinate.identity.
Proof.
  pose proof (unit_circle alpha) as Ha.
  unfold Coordinate.spanMat, Coordinate.matmul, Coordinate.transpose,
    Coordinate.dot, Coordinate.row_dot, Coordinate.identity.
  set (sa := sin alpha) in *. set (ca := cos alpha) in *.
  pose proof (unit_circle beta) as Hb.
  set (sb := sin beta) in *. set (cb := cos beta) in *.
  repeat f_equal.
  - replace (_ + _ + _) with (sb * sb * (sa * sa + ca * ca) + cb * cb) by ring.
    rewrite Ha. lra.
  - ring.
  - replace (_ + _ + _) with (sb * cb * (sa * sa + ca * ca) - cb * sb) by ring.
    rewrite Ha. ring.
  - ring.
  - replace (_ + _ + _) with (sa * sa + ca * ca) by ring. lra.
  - ring.
  - replace (_ + _ + _) with (sb * cb * (sa * sa + ca * ca) - cb * sb) by ring.
    rewrite Ha. ring.
  - ring.
  - replace (_ + _ + _) with (cb * cb * (sa * sa + ca * ca) + sb * sb) by ring.
    rewrite Ha. lra.
Qed.

Lemma rotateVector_norm (north east down alpha beta : R) :
  Coordinate.norm (Coordinate.rotateVector (north, east, down) alpha beta)
  = Coordinate.norm (north, east, down).
Proof.
  pose proof (unit_circle alpha) as Ha.
  unfold Coordinate.rotateVector, Coordinate.spanMat, Coordinate.dot,
    Coordinate.row_dot, Coordinate.norm.
  set (sa := sin alpha) in *. set (ca := cos alpha) in *.
  pose proof (unit_circle beta) as Hb.
  set (sb := sin beta) in *. set (cb := cos beta) in *.
  f_equal.
  replace (_ + _ + _) with
    (north * north + east * east + down * down
     + (sa * sa + ca * ca - 1)
       * (north * north * (sb * sb) + east * east + down * down * (cb * cb)
          + 2 * north * down * sb * cb)
     + (sb * sb + cb * cb - 1) * (north * north + down * down)) by ring.
  rewrite Ha, Hb. ring.
Qed.

(** C10. For every input vector [north, east, down] and all angles alpha and
    beta, the matrix applied by rotateVector is orthogonal (its transpose is
    its inverse), and the Euclidean norm of the returned cartesian vector
    equals the Euclidean norm of the input vector.  Floats are read as real
    numbers. *)
Theorem C10_rotateVector_preserves_norm :
  forall (vec : Coordinate.vec3) (alpha beta : R),
    Coordinate.matmul (Coordinate.transpose (Coordinate.spanMat alpha beta))
                      (Coordinate.spanMat alpha beta)
    = Coordinate.identity
    /\ Coordinate.norm (Coordinate.rotateVector vec alpha beta)
       = Coordinate.norm vec.
Proof.
  intros [[north east] down] alpha beta. split.
  - apply spanMat_orthogonal.
  - apply rotateVector_norm.
Qed.

(** ** apex.py: the dipole pole *)

Lemma arctan2_0_0 : Py.arctan2 0 0 = 0.
Proof.
  unfold Py.arctan2.
  destruct (Rlt_dec 0 0) as [H | _]; [lra | reflexivity].
Qed.

Lemma acos_minus_1 : acos (-1) = PI.
Proof.
  replace (-1) with (- (1)) by lra. rewrite acos_opp, acos_1. lra.
Qed.

Lemma northPole_axial :
  Apex.northPole Inputs.axial 2005 = (90, -180).
Proof.
  unfold Apex.northPole, Inputs.axial.
  replace (-1 / sqrt ((-1) ^ 2 + 0 ^ 2 + 0 ^ 2)) with (-1).
  - rewrite acos_minus_1, arctan2_0_0, FACT_PI. f_equal; lra.
  - replace ((-1) ^ 2 + 0 ^ 2 + 0 ^ 2) with 1 by lra. rewrite sqrt_1. lra.
Qed.

Lemma claimed_northPole_axial :
  Claimed.northPole (-1) 0 0 = (-90, 0).
Proof.
  unfold Claimed.northPole.
  replace (-1 / sqrt ((-1) ^ 2 + 0 ^ 2 + 0 ^ 2)) with (-1).
  - rewrite acos_minus_1, arctan2_0_0, FACT_PI. f_equal; lra.
  - replace ((-1) ^ 2 + 0 ^ 2 + 0 ^ 2) with 1 by lra. rewrite sqrt_1. lra.
Qed.

(** C4, as stated, fails.  With the degree-1 coefficients of 2005.0 the
    code's answer differs from latitude = 90 - colatitude, longitude =
    atan2(h11, g11); for an axial dipole with g10 = -1 the code answers
    (90, -180) where the claim gives (-90, 0). *)
Lemma C4_northPole_is_antipodal_counterexample :
  Apex.northPole Inputs.dgrf2005 2005
  <> Claimed.northPole (-29554.63) (-1669.05) 5077.99
  /\ Apex.northPole Inputs.axial 2005 = (90, -180)
  /\ Claimed.northPole (-1) 0 0 = (-90, 0).
Proof.
  split; [| split].
  - unfold Apex.northPole, Claimed.northPole, Inputs.dgrf2005.
    intros H. injection H as _ H. lra.
  - apply northPole_axial.
  - apply claimed_northPole_axial.
Qed.

(** C4, amended.  For every epoch, northPole returns, in degrees, the pair
    (colatitude - 90, atan2(h11, g11) - 180) with colatitude =
    arccos(g10 / sqrt(g10^2 + g11^2 + h11^2)): the negated latitude and the
    longitude shifted by 180 degrees of the claim, that is the antipode of
    the point the claim describes.  It is a function of the three degree-1
    coefficients getCoeffs gives for the epoch. *)
Theorem C4_northPole_amended :
  forall (getCoeffs : R -> (nat -> nat -> R) * (nat -> nat -> R)) (date : R),
    let g10 := fst (getCoeffs date) 1%nat 0%nat in
    let g11 := fst (getCoeffs date) 1%nat 1%nat in
    let h11 := snd (getCoeffs date) 1%nat 1%nat in
    let colatitude := acos (g10 / sqrt (g10 ^ 2 + g11 ^ 2 + h11 ^ 2)) in
    Apex.northPole getCoeffs date
    = (colatitude * Apex.FACT - 90, Py.arctan2 h11 g11 * Apex.FACT - 180)
    /\ fst (Apex.northPole getCoeffs date)
       = - fst (Claimed.northPole g10 g11 h11)
    /\ snd (Apex.northPole getCoeffs date)
       = snd (Claimed.northPole g10 g11 h11) - 180.
Proof.
  intros getCoeffs date. unfold Apex.northPole, Claimed.northPole.
  destruct (getCoeffs date) as [g h]. simpl. repeat split; lra.
Qed.

(** ** IGRF12.py: epoch resolution *)

Lemma resolve_out_of_range (isv : Z) (date : R) :
  date < 1900 \/ date > 2025 -> IGRF12.resolve isv date = IGRF12.OutOfRange.
Proof.
  intros [H | H]; unfold IGRF12.resolve.
  - rewrite ltb_true by lra. reflexivity.
  - rewrite gtb_true by lra. rewrite orb_true_r. reflexivity.
Qed.

(** Before 2015.0 in field mode the code leaves [t = 0] and [tc = 1]
    whatever the epoch: [ll = t] keeps the fraction, so [t - one] is zero. *)
Lemma resolve_field_before_2015 (date : R) :
  1900 <= date < 2015 ->
  exists e,
    IGRF12.resolve 0 date = IGRF12.Resolved false e
    /\ IGRF12.t e = 0 /\ IGRF12.tc e = 1.
Proof.
  intros [Hlo Hhi]. unfold IGRF12.resolve.
  rewrite ltb_false by lra. rewrite gtb_false by lra.
  rewrite geb_false by lra. cbn [orb Z.eqb].
  destruct (Py.ltb date 1995.0); eexists; (split; [reflexivity |]);
    cbn [IGRF12.t IGRF12.tc]; split; lra.
Qed.

Lemma resolve_1902_5 :
  IGRF12.resolve 0 1902.5
  = IGRF12.Resolved false (IGRF12.mkEpoch 0 1 60 10 120 66).
Proof.
  unfold IGRF12.resolve.
  rewrite ltb_false by lra. rewrite gtb_false by lra.
  rewrite geb_false by lra. rewrite ltb_true by lra. cbn [orb Z.eqb].
  f_equal. f_equal; try reflexivity; try lra.
  - change (IZR (10 * (10 + 2))) with 120. lra.
  - change (IZR ((10 + 1) * (10 + 2))) with 132. lra.
Qed.

Lemma get_spike60_60 : Py.get Inputs.spike60 60 = Py.Ok 1.
Proof. vm_compute. reflexivity. Qed.

Lemma get_spike60_180 : Py.get Inputs.spike60 180 = Py.Ok 0.
Proof. vm_compute. reflexivity. Qed.

Lemma get_spike60_0 : Py.get Inputs.spike60 0 = Py.Ok 0.
Proof. vm_compute. reflexivity. Qed.

Lemma get_spike60_120 : Py.get Inputs.spike60 120 = Py.Ok 0.
Proof. vm_compute. reflexivity. Qed.

Lemma bracket_1902_5 : Claimed.bracket 1902.5 = 0%Z.
Proof.
  unfold Claimed.bracket.
  assert (H : (0 <= Py.int ((1902.5 - 1900) / 5) < 1)%Z)
    by (apply int_range; lra).
  lia.
Qed.

(** C1, the code at the failing input.  In field mode at epoch 1902.5 the
    code resolves t = 0 and tc = 1 with the table offset ll = 60, half-way
    into the 1900.0 snapshot; on a table whose only non-zero entry is
    gh[60] = 1 the first coefficient it uses is 1 * gh[60] + 0 * gh[180] = 1,
    while the interpolation (1 - t) * g_lower + t * g_upper of the claim, with
    t = 0.5 between the 1900.0 and 1905.0 snapshots, is
    0.5 * gh[0] + 0.5 * gh[120] = 0. *)
Theorem C1_field_mode_does_not_interpolate :
  let e := IGRF12.mkEpoch 0 1 60 10 120 66 in
  IGRF12.resolve 0 1902.5 = IGRF12.Resolved false e
  /\ IGRF12.coefficient Inputs.spike60 e (IGRF12.ll e + IZR 1) (-1)
     = Py.Ok 1
  /\ Claimed.fraction 1902.5 = 0.5
  /\ Claimed.interpolated Inputs.spike60 1902.5 1 = Py.Ok 0.
Proof.
  cbv zeta. split; [apply resolve_1902_5 |]. split; [| split].
  - unfold IGRF12.coefficient. cbn [IGRF12.ll IGRF12.nc IGRF12.tc IGRF12.t].
    replace (60 + 1) with (IZR 61) by lra.
    replace (IZR 61 + 120) with (IZR 181) by lra.
    rewrite !int_IZR.
    change (61 + -1)%Z with 60%Z. change (181 + -1)%Z with 180%Z.
    rewrite get_spike60_60, get_spike60_180. cbn [Py.bind].
    f_equal. lra.
  - unfold Claimed.fraction. rewrite bracket_1902_5. lra.
  - unfold Claimed.interpolated, Claimed.fraction.
    rewrite bracket_1902_5.
    change (120 * 0 + 1 - 1)%Z with 0%Z.
    change (120 * (0 + 1) + 1 - 1)%Z with 120%Z.
    rewrite get_spike60_0, get_spike60_120. cbn [Py.bind].
    f_equal. lra.
Qed.

(** ** IGRF12.py: list accesses, divisions and the coefficient table *)



Lemma update_length {A : Type} (l : list A) (n : nat) (v : A) :
  List.length (Py.update l n v) = List.length l.
Proof.
  revert n. induction l as [| hd tl IH]; intros [| n]; simpl; try reflexivity.
  now rewrite IH.
Qed.

Lemma index_ok (len : nat) (i : Z) :
  (0 <= i < Z.of_nat len)%Z -> Py.index len i = Py.Ok (Z.to_nat i).
Proof.
  intros [H0 H1]. unfold Py.index.
  apply Z.leb_le in H0. apply Z.ltb_lt in H1. now rewrite H0, H1.
Qed.

Lemma get_ok (l : list R) (i : Z) :
  (0 <= i < Z.of_nat (List.length l))%Z ->
  Py.get l i = Py.Ok (nth (Z.to_nat i) l 0).
Proof. intros H. unfold Py.get. now rewrite index_ok. Qed.

Lemma set_ok (l : list R) (i : Z) (v : R) :
  (0 <= i < Z.of_nat (List.length l))%Z ->
  Py.set l i v = Py.Ok (Py.update l (Z.to_nat i) v).
Proof. intros H. unfold Py.set. now rewrite index_ok. Qed.

Lemma div_ok (a b : R) : b <> 0 -> Py.div a b = Py.Ok (a / b).
Proof.
  intros H. unfold Py.div. destruct (Req_dec_T b 0); [contradiction | reflexivity].
Qed.

Lemma within_spec (len i : Z) :
  Skeleton.within len i = true -> (0 <= i < len)%Z.
Proof.
  unfold Skeleton.within. intros H. apply andb_prop in H as [H0 H1].
  apply Z.leb_le in H0. apply Z.ltb_lt in H1. lia.
Qed.

Lemma coefficient_ok (gh : list R) (e : IGRF12.epoch) (l off : Z) :
  List.length gh = 3451%nat ->
  0 <= IGRF12.ll e -> IGRF12.ll e + IZR (IGRF12.nc e) <= 3255 ->
  (0 <= IGRF12.nc e)%Z ->
  (1 <= l <= 195)%Z -> (-1 <= off <= 0)%Z ->
  exists g, IGRF12.coefficient gh e (IGRF12.ll e + IZR l) off = Py.Ok g.
Proof.
  intros Hlen Hll Hnc Hnc0 Hl Hoff. unfold IGRF12.coefficient.
  assert (Hl1 : 1 <= IZR l <= 195) by (split; apply IZR_le; lia).
  assert (Hn : 0 <= IZR (IGRF12.nc e)) by (apply IZR_le; lia).
  assert (H1 : (1 <= Py.int (IGRF12.ll e + IZR l) < 3451)%Z)
    by (apply int_range; lra).
  assert (H2 : (1 <= Py.int (IGRF12.ll e + IZR l + IZR (IGRF12.nc e)) < 3451)%Z)
    by (apply int_range; lra).
  rewrite !get_ok by (rewrite Hlen; lia). cbn [Py.bind]. eexists. reflexivity.
Qed.



Ltac in_bounds := rewrite ?update_length; lia.
Ltac run :=
  repeat first
    [ rewrite get_ok by in_bounds
    | rewrite set_ok by in_bounds
    | rewrite div_ok by assumption
    | progress cbn [Py.bind] ].

Lemma eqb_false_neq (a b : R) : Py.eqb a b = false -> a <> b.
Proof.
  unfold Py.eqb. destruct (Req_dec_T a b); [discriminate | auto].
Qed.

Lemma legendre_off_diagonal_ok (ct st : R) (k : Z) (s : IGRF12.state) :
  Skeleton.shaped s ->
  (1 <= IGRF12.n s)%Z ->
  (0 < IGRF12.n s * IGRF12.n s - IGRF12.m s * IGRF12.m s)%Z ->
  (0 <= k - 1 < 105)%Z ->
  (0 <= k - IGRF12.n s - 1 < 105)%Z ->
  (0 <= k - IGRF12.n s - IGRF12.n s + 1 - 1 < 105)%Z ->
  exists s',
    IGRF12.legendre_off_diagonal ct st k s = Py.Ok s'
    /\ Skeleton.shaped s' /\ Skeleton.of_state s' = Skeleton.of_state s
    /\ IGRF12.cl s' = IGRF12.cl s /\ IGRF12.sl s' = IGRF12.sl s.
Proof.
  intros (Hp & Hq & Hcl & Hsl & Hfn) Hn Hpos Hk Hi Hj.
  destruct (Hfn Hn) as [Efn Egn].
  unfold IGRF12.legendre_off_diagonal. rewrite Efn, Egn. cbn [IGRF12.local Py.bind].
  assert (Hone : sqrt (IZR (IGRF12.n s * IGRF12.n s - IGRF12.m s * IGRF12.m s)) <> 0).
  { apply Rgt_not_eq. apply sqrt_lt_R0. apply IZR_lt. exact Hpos. }
  run.
  eexists. split; [reflexivity |].
  unfold Skeleton.shaped, Skeleton.of_state. cbn.
  rewrite !update_length. repeat split; auto; apply Hfn; assumption.
Qed.

Lemma legendre_diagonal_ok (ct st : R) (k : Z) (s : IGRF12.state) :
  Skeleton.shaped s ->
  (1 <= IGRF12.m s)%Z ->
  (0 <= k - 1 < 105)%Z ->
  (0 <= k - IGRF12.n s - 1 - 1 < 105)%Z ->
  (0 <= IGRF12.m s - 2)%Z -> (IGRF12.m s - 1 < 13)%Z ->
  exists s',
    IGRF12.legendre_diagonal ct st k (IGRF12.m s) s = Py.Ok s'
    /\ Skeleton.shaped s' /\ Skeleton.of_state s' = Skeleton.of_state s.
Proof.
  intros (Hp & Hq & Hcl & Hsl & Hfn) Hm Hk Hj Hm2 Hm1.
  unfold IGRF12.legendre_diagonal.
  assert (Hfm : IZR (IGRF12.m s) <> 0).
  { apply Rgt_not_eq. apply IZR_lt. lia. }
  run.
  eexists. split; [reflexivity |].
  unfold Skeleton.shaped, Skeleton.of_state. cbn.
  rewrite !update_length. repeat split; auto; apply Hfn; assumption.
Qed.

Lemma east_term_ok (ct st : R) (k fm : Z) (one two : R) (s : IGRF12.state) :
  Skeleton.shaped s ->
  (0 <= k - 1 < 105)%Z -> (0 <= IGRF12.m s - 1 < 13)%Z ->
  exists y', IGRF12.east_term ct st k fm one two s = Py.Ok y'.
Proof.
  intros (Hp & Hq & Hcl & Hsl & Hfn) Hk Hm. unfold IGRF12.east_term.
  destruct (Py.eqb st 0.0) eqn:E.
  - run. eexists. reflexivity.
  - apply eqb_false_neq in E. assert (Hst : st <> 0) by lra.
    run.
  eexists. reflexivity.
Qed.



Lemma body_ok (gh : list R) (e : IGRF12.epoch) (ct st ratio : R)
      (k : Z) (s : IGRF12.state) :
  List.length gh = 3451%nat ->
  0 <= IGRF12.ll e -> IGRF12.ll e + IZR (IGRF12.nc e) <= 3255 ->
  (0 <= IGRF12.nc e)%Z ->
  Skeleton.shaped s ->
  Skeleton.safe k (Skeleton.of_state s) = true ->
  exists s',
    IGRF12.body gh e ct st ratio k s = Py.Ok s'
    /\ Skeleton.shaped s'
    /\ Skeleton.of_state s' = Skeleton.next (Skeleton.of_state s).
Proof.
  intros Hgh Hll Hnc Hnc0 Hs Hsafe.
  unfold IGRF12.body, Skeleton.safe, Skeleton.next, Skeleton.of_state in *.
  destruct (IGRF12.n s >=? IGRF12.m s)%Z eqn:Hnm.
  - apply Z.geb_le in Hnm.
    apply andb_prop in Hsafe as [Hsafe Hbranch].
    apply andb_prop in Hsafe as [Hsafe Hm1].
    apply andb_prop in Hsafe as [Hsafe Hk1].
    apply andb_prop in Hsafe as [Hsafe Hl2].
    apply andb_prop in Hsafe as [Hm Hl1].
    apply Z.leb_le in Hm, Hl1, Hl2.
    apply within_spec in Hm1, Hk1.
    assert (Hstage : exists s1,
      (if negb (IGRF12.m s =? IGRF12.n s)%Z
       then IGRF12.legendre_off_diagonal ct st k s
       else if negb (k =? 3)%Z
            then IGRF12.legendre_diagonal ct st k (IGRF12.m s) s
            else Py.Ok s) = Py.Ok s1
      /\ Skeleton.shaped s1
      /\ Skeleton.of_state s1 = Skeleton.of_state s).
    { destruct (negb (IGRF12.m s =? IGRF12.n s)%Z) eqn:Hd.
      - apply andb_prop in Hbranch as [Hbranch Hj].
        apply andb_prop in Hbranch as [Hpos Hi].
        apply Z.ltb_lt in Hpos. apply within_spec in Hi, Hj.
        destruct (legendre_off_diagonal_ok ct st k s Hs) as (s1 & E & H1 & H2 & _);
          try lia.
        exists s1. auto.
      - destruct (negb (k =? 3)%Z) eqn:Hk3.
        + apply andb_prop in Hbranch as [Hj Hm2].
          apply within_spec in Hj, Hm2.
          destruct (legendre_diagonal_ok ct st k s Hs) as (s1 & E & H1 & H2);
            try lia.
          exists s1. auto.
        + exists s. auto. }
    destruct Hstage as (s1 & -> & Hs1 & Hctl). cbn [Py.bind].
    unfold Skeleton.of_state in Hctl. injection Hctl as El Em En.
    destruct (coefficient_ok gh e (IGRF12.l s1) (-1)) as [g ->]; try lia; try assumption.
    cbn [Py.bind].
    assert (Hm0 : (IGRF12.m s1 =? 0)%Z = false) by (apply Z.eqb_neq; lia).
    assert (Hm0' : (IGRF12.m s =? 0)%Z = false) by (apply Z.eqb_neq; lia).
    rewrite Hm0, Hm0'. cbn [Py.bind].
    destruct (coefficient_ok gh e (IGRF12.l s1) 0) as [h ->]; try lia; try assumption.
    cbn [Py.bind].
    pose proof Hs1 as (Hp & Hq & Hcl & Hsl & Hfn).
    destruct Hfn as [Efn Egn]; [lia |].
    run. rewrite Efn. cbn [IGRF12.local Py.bind]. run.
    destruct (east_term_ok ct st k (IGRF12.m s) (g * IGRF12.rr s1) (h * IGRF12.rr s1) s1 Hs1)
      as [y' ->]; try lia.
    cbn [Py.bind]. eexists. split; [reflexivity |].
    unfold Skeleton.shaped. cbn. rewrite El, Em, En.
    repeat split; auto; rewrite <- En; assumption.
  - eexists. split; [reflexivity |].
    destruct Hs as (Hp & Hq & Hcl & Hsl & Hfn).
    unfold Skeleton.shaped. cbn. repeat split; auto.
Qed.

Lemma for_each_ok (gh : list R) (e : IGRF12.epoch) (ct st ratio : R)
      (ks : list Z) :
  List.length gh = 3451%nat ->
  0 <= IGRF12.ll e -> IGRF12.ll e + IZR (IGRF12.nc e) <= 3255 ->
  (0 <= IGRF12.nc e)%Z ->
  forall s,
    Skeleton.shaped s ->
    Skeleton.all_safe ks (Skeleton.of_state s) = true ->
    exists s', IGRF12.for_each ks (IGRF12.body gh e ct st ratio) s = Py.Ok s'.
Proof.
  intros Hgh Hll Hnc Hnc0.
  induction ks as [| k rest IH]; intros s Hs Hsafe.
  - exists s. reflexivity.
  - cbn [Skeleton.all_safe] in Hsafe. apply andb_prop in Hsafe as [Hk Hrest].
    destruct (body_ok gh e ct st ratio k s Hgh Hll Hnc Hnc0 Hs Hk)
      as (s1 & E & Hs1 & Hctl).
    cbn [IGRF12.for_each]. rewrite E. cbn [Py.bind].
    apply IH; [assumption |]. rewrite Hctl. exact Hrest.
Qed.



Lemma geodetic_reduction_ok (alt colat : R) :
  0 <= alt ->
  exists fr,
    IGRF12.geodetic_reduction alt (cos colat) (sin colat) = Py.Ok fr
    /\ IGRF12.r fr <> 0.
Proof.
  intros Halt. unfold IGRF12.geodetic_reduction.
  pose proof (unit_circle colat) as Hc.
  set (ct := cos colat) in *. set (st := sin colat) in *.
  assert (Hst : 0 <= st * st) by nra.
  assert (Hct : 0 <= ct * ct) by nra.
  assert (H3 : 0 < 40680631.6 * st * st + 40408296.0 * ct * ct) by nra.
  assert (Hrho : 0 < sqrt (40680631.6 * st * st + 40408296.0 * ct * ct))
    by (apply sqrt_lt_R0; exact H3).
  assert (Hnum : 0 < 40680631.6 * (40680631.6 * st * st)
                     + 40408296.0 * (40408296.0 * ct * ct)) by nra.
  assert (Hd : 0 < (40680631.6 * (40680631.6 * st * st)
                    + 40408296.0 * (40408296.0 * ct * ct))
                   / (40680631.6 * st * st + 40408296.0 * ct * ct))
    by (apply Rdiv_lt_0_compat; assumption).
  set (rho := sqrt (40680631.6 * st * st + 40408296.0 * ct * ct)) in *.
  set (d := (40680631.6 * (40680631.6 * st * st)
             + 40408296.0 * (40408296.0 * ct * ct))
            / (40680631.6 * st * st + 40408296.0 * ct * ct)) in *.
  assert (Hr : 0 < sqrt (alt * (alt + 2.0 * rho) + d)).
  { apply sqrt_lt_R0. nra. }
  assert (N3 : 40680631.6 * st * st + 40408296.0 * ct * ct <> 0) by lra.
  assert (Nrho : rho <> 0) by lra.
  assert (Nr : sqrt (alt * (alt + 2.0 * rho) + d) <> 0) by lra.
  rewrite (div_ok _ _ N3). cbn [Py.bind]. fold d.
  rewrite (div_ok _ _ Nr). cbn [Py.bind].
  rewrite (div_ok _ _ Nrho). cbn [Py.bind].
  rewrite (div_ok _ _ Nr). cbn [Py.bind].
  eexists. split; [reflexivity |]. cbn [IGRF12.r]. exact Nr.
Qed.

Lemma prepare_ok (itype : Z) (alt colat : R) :
  Observed.documented itype alt ->
  exists fr, IGRF12.prepare itype alt colat = Py.Ok fr /\ IGRF12.r fr <> 0.
Proof.
  intros [[-> Halt] | [-> Halt]]; unfold IGRF12.prepare; cbn [Z.eqb Pos.eqb].
  - apply geodetic_reduction_ok. exact Halt.
  - eexists. split; [reflexivity |]. cbn [IGRF12.r]. lra.
Qed.

Lemma int_kmx (a : Z) (b : Z) :
  IZR a = 2 * IZR b -> Py.int (IZR a / 2) = b.
Proof.
  intros H. replace (IZR a / 2) with (IZR b) by lra. apply int_IZR.
Qed.

Lemma resolve_in_range (isv : Z) (date : R) :
  1900 <= date <= 2025 ->
  exists reduced e,
    IGRF12.resolve isv date = IGRF12.Resolved reduced e
    /\ 0 <= IGRF12.ll e
    /\ IGRF12.ll e + IZR (IGRF12.nc e) <= 3255
    /\ (0 <= IGRF12.nc e)%Z
    /\ (Py.int (IGRF12.kmx e) = 66%Z \/ Py.int (IGRF12.kmx e) = 105%Z).
Proof.
  intros [Hlo Hhi]. unfold IGRF12.resolve.
  rewrite ltb_false by lra. rewrite gtb_false by lra. cbn [orb].
  destruct (Rge_dec date 2015.0) as [H15 | H15].
  - rewrite geb_true by assumption.
    destruct (isv =? 1)%Z; do 2 eexists; (split; [reflexivity |]);
      cbn [IGRF12.ll IGRF12.nc IGRF12.kmx];
      change (IZR (13 * (13 + 2))) with 195;
      (repeat split; [lra | lra | lia |]); right; apply int_kmx;
      change (IZR ((13 + 1) * (13 + 2))) with 210; lra.
  - rewrite geb_false by assumption.
    destruct (Rlt_dec date 1995.0) as [H95 | H95].
    + rewrite ltb_true by assumption.
      destruct (isv =? 1)%Z; do 2 eexists; (split; [reflexivity |]);
        cbn [IGRF12.ll IGRF12.nc IGRF12.kmx];
        change (IZR (10 * (10 + 2))) with 120;
        (repeat split; [lra | lra | lia |]); left; apply int_kmx;
        change (IZR ((10 + 1) * (10 + 2))) with 132; lra.
    + rewrite ltb_false by assumption.
      destruct (isv =? 1)%Z; do 2 eexists; (split; [reflexivity |]);
        cbn [IGRF12.ll IGRF12.nc IGRF12.kmx];
        change (IZR (13 * (13 + 2))) with 195;
        change (IZR (120 * 19)) with 2280;
        (repeat split; [lra | lra | lia |]); right; apply int_kmx;
        change (IZR ((13 + 1) * (13 + 2))) with 210; lra.
Qed.

Lemma initial_shaped (elong : R) (fr : IGRF12.frame) (ratio : R) :
  Skeleton.shaped (IGRF12.initial elong fr ratio).
Proof.
  unfold Skeleton.shaped, IGRF12.initial.
  cbn [IGRF12.p IGRF12.q IGRF12.cl IGRF12.sl IGRF12.n IGRF12.fn IGRF12.gn].
  rewrite !update_length, !repeat_length. repeat split; try reflexivity; lia.
Qed.

Lemma skeleton_safe_66 :
  Skeleton.all_safe (Py.range 2 66) (1, 1, 0)%Z = true.
Proof. vm_compute. reflexivity. Qed.

Lemma skeleton_safe_105 :
  Skeleton.all_safe (Py.range 2 105) (1, 1, 0)%Z = true.
Proof. vm_compute. reflexivity. Qed.

Lemma synthesize_ok (gh : list R) (isv : Z) (date : R) (itype : Z)
      (alt colat elong : R) (reduced : bool) (e : IGRF12.epoch) :
  List.length gh = 3451%nat ->
  1900 <= date <= 2025 ->
  IGRF12.resolve isv date = IGRF12.Resolved reduced e ->
  Observed.documented itype alt ->
  exists x y z,
    IGRF12.synthesize gh e itype alt colat elong
    = Py.Ok (x, y, z, sqrt (x * x + y * y + z * z)).
Proof.
  intros Hgh Hdate He Hdom.
  destruct (resolve_in_range isv date Hdate)
    as (reduced' & e' & He' & Hll & Hnc & Hnc0 & Hk).
  rewrite He in He'. injection He' as _ <-.
  unfold IGRF12.synthesize.
  destruct (prepare_ok itype alt colat Hdom) as (fr & -> & Hr).
  cbn [Py.bind]. rewrite (div_ok _ _ Hr). cbn [Py.bind].
  destruct (for_each_ok gh e (IGRF12.ct fr) (IGRF12.st fr)
              (6371.2 / IGRF12.r fr) (Py.range 2 (Py.int (IGRF12.kmx e)))
              Hgh Hll Hnc Hnc0
              (IGRF12.initial elong fr (6371.2 / IGRF12.r fr))
              (initial_shaped _ _ _)) as [s ->].
  - change (Skeleton.of_state (IGRF12.initial elong fr (6371.2 / IGRF12.r fr)))
      with (1, 1, 0)%Z.
    destruct Hk as [-> | ->]; [apply skeleton_safe_66 | apply skeleton_safe_105].
  - cbn [Py.bind]. do 3 eexists. reflexivity.
Qed.



Lemma flatten_length (cols : list (list R)) :
  Forall (fun col => List.length col = 195%nat) cols ->
  forall i,
  exists gh,
    IGRF12.flatten i cols = Py.Ok gh
    /\ List.length gh = Observed.flat_length i (List.length cols).
Proof.
  induction 1 as [| col rest Hcol _ IH]; intros i.
  - exists []. split; reflexivity.
  - destruct (IH (S i)) as (tail & Etail & Ltail).
    cbn [IGRF12.flatten Observed.flat_length List.length].
    rewrite Etail. unfold IGRF12.first120.
    destruct (i <? 19)%nat.
    + assert (E : (120 <=? List.length col)%nat = true)
        by (apply Nat.leb_le; lia).
      rewrite E. cbn [Py.bind]. eexists. split; [reflexivity |].
      rewrite length_app, firstn_length_le by lia. lia.
    + cbn [Py.bind]. eexists. split; [reflexivity |].
      rewrite length_app. lia.
Qed.

Lemma transpose_published (rows : list (list R)) :
  List.length rows = 195%nat ->
  Forall (fun row => List.length row = 25%nat) rows ->
  List.length (IGRF12.transpose rows) = 25%nat
  /\ Forall (fun col => List.length col = 195%nat) (IGRF12.transpose rows).
Proof.
  intros Hlen Hrows. destruct rows as [| row rest]; [discriminate |].
  unfold IGRF12.transpose.
  assert (Hrow : List.length row = 25%nat) by (inversion Hrows; assumption).
  rewrite Hrow. split.
  - rewrite length_map, length_seq. reflexivity.
  - apply Forall_forall. intros col Hin. apply in_map_iff in Hin as (i & <- & _).
    unfold IGRF12.column. rewrite length_map. exact Hlen.
Qed.

Lemma loadCoeffs_published (w : IGRF12.world) (text : list IGRF12.line) :
  IGRF12.files w "igrf12coeffs.txt" = Some text ->
  Observed.published text ->
  exists gh,
    IGRF12.loadCoeffs "igrf12coeffs.txt" w
    = (Py.Ok gh,
       IGRF12.mkWorld (IGRF12.files w)
         (IGRF12.events w
          ++ [IGRF12.Opened "igrf12coeffs.txt";
              IGRF12.Printed (IGRF12.MsgLength 3451)]))
    /\ List.length gh = 3451%nat.
Proof.
  intros Hfile [Hcount Hrows]. unfold IGRF12.loadCoeffs. rewrite Hfile.
  destruct (transpose_published
              (map IGRF12.fields (filter IGRF12.is_coeff_line text)))
    as [Hn Hcols].
  - rewrite length_map. exact Hcount.
  - apply Forall_map. exact Hrows.
  - destruct (flatten_length _ Hcols 0%nat) as (gh & -> & Hgh).
    rewrite Hn in Hgh. change (Observed.flat_length 0 25) with 3450%nat in Hgh.
    assert (L : List.length (gh ++ [0]) = 3451%nat)
      by (rewrite length_app, Hgh; reflexivity).
    exists (gh ++ [0]). split; [| exact L].
    rewrite L. unfold IGRF12.emit. cbn [IGRF12.files IGRF12.events].
    rewrite <- app_assoc. reflexivity.
Qed.


(** ** IGRF12.py: igrf12syn *)

(** The world right after [loadCoeffs] has read a file of the published
    shape. *)
Lemma igrf12syn_loaded (isv : Z) (date : R) (itype : Z)
      (alt colat elong : R) (w : IGRF12.world) (text : list IGRF12.line) :
  IGRF12.files w "igrf12coeffs.txt" = Some text ->
  Observed.published text ->
  exists gh,
    List.length gh = 3451%nat
    /\ fst (IGRF12.loadCoeffs "igrf12coeffs.txt" w) = Py.Ok gh
    /\ let w1 := IGRF12.mkWorld (IGRF12.files w)
                   (IGRF12.events w
                    ++ [IGRF12.Opened "igrf12coeffs.txt";
                        IGRF12.Printed (IGRF12.MsgLength 3451)]) in
       IGRF12.igrf12syn isv date itype alt colat elong w
       = match IGRF12.resolve isv date with
         | IGRF12.OutOfRange =>
             (Py.Ok (0.0, 0.0, 0.0, 1.0),
              IGRF12.print IGRF12.MsgOnReturn
                (IGRF12.print IGRF12.MsgDateRange
                   (IGRF12.print (IGRF12.MsgWillNotWork date) w1)))
         | IGRF12.Resolved reduced e =>
             (IGRF12.synthesize gh e itype alt colat elong,
              if reduced
              then IGRF12.print (IGRF12.MsgReducedAccuracy date)
                     (IGRF12.print IGRF12.MsgIntendedUpTo2020 w1)
              else w1)
         end.
Proof.
  intros Hfile Hshape.
  destruct (loadCoeffs_published w text Hfile Hshape) as (gh & E & Hgh).
  exists gh. split; [exact Hgh |]. split; [rewrite E; reflexivity |].
  cbv zeta. unfold IGRF12.igrf12syn. rewrite E.
  destruct (IGRF12.resolve isv date); reflexivity.
Qed.


Lemma synthesize_norm (gh : list R) (e : IGRF12.epoch) (itype : Z)
      (alt colat elong x y z f : R) :
  IGRF12.synthesize gh e itype alt colat elong = Py.Ok (x, y, z, f) ->
  f = sqrt (x * x + y * y + z * z).
Proof.
  unfold IGRF12.synthesize.
  destruct (IGRF12.prepare itype alt colat) as [fr | ]; [| discriminate].
  cbn [Py.bind].
  destruct (Py.div 6371.2 (IGRF12.r fr)) as [ratio | ]; [| discriminate].
  cbn [Py.bind].
  destruct (IGRF12.for_each _ _ _) as [s | ]; [| discriminate].
  cbn [Py.bind]. intros H. injection H as <- <- <- <-. reflexivity.
Qed.

Lemma fresh_file :
  IGRF12.files Inputs.fresh "igrf12coeffs.txt" = Some Inputs.zero_file.
Proof. reflexivity. Qed.

Lemma zero_file_published : Observed.published Inputs.zero_file.
Proof.
  assert (E : filter IGRF12.is_coeff_line Inputs.zero_file = Inputs.zero_file)
    by (vm_compute; reflexivity).
  unfold Observed.published. rewrite E. split.
  - apply repeat_length.
  - apply Forall_forall. intros a Ha. apply repeat_spec in Ha. subst a.
    apply repeat_length.
Qed.

Lemma igrf12syn_out_of_range (isv : Z) (date : R) (itype : Z)
      (alt colat elong : R) (w : IGRF12.world) (text : list IGRF12.line) :
  IGRF12.files w "igrf12coeffs.txt" = Some text ->
  Observed.published text ->
  date < 1900 \/ date > 2025 ->
  IGRF12.igrf12syn isv date itype alt colat elong w
  = (Py.Ok (0, 0, 0, 1),
     IGRF12.mkWorld (IGRF12.files w)
       (IGRF12.events w
        ++ [IGRF12.Opened "igrf12coeffs.txt";
            IGRF12.Printed (IGRF12.MsgLength 3451);
            IGRF12.Printed (IGRF12.MsgWillNotWork date);
            IGRF12.Printed IGRF12.MsgDateRange;
            IGRF12.Printed IGRF12.MsgOnReturn])).
Proof.
  intros Hfile Hshape Hdate.
  destruct (igrf12syn_loaded isv date itype alt colat elong w text Hfile Hshape)
    as (gh & _ & _ & E).
  cbv zeta in E. rewrite E, (resolve_out_of_range isv date Hdate).
  unfold IGRF12.print, IGRF12.emit. cbn [IGRF12.files IGRF12.events].
  rewrite <- !app_assoc. cbn [app].
  f_equal. f_equal. f_equal; [f_equal; [f_equal |] |]; lra.
Qed.

Lemma igrf12syn_in_range (isv : Z) (date : R) (itype : Z)
      (alt colat elong : R) (w : IGRF12.world) (text : list IGRF12.line) :
  IGRF12.files w "igrf12coeffs.txt" = Some text ->
  Observed.published text ->
  1900 <= date <= 2025 ->
  exists reduced e gh,
    IGRF12.resolve isv date = IGRF12.Resolved reduced e
    /\ List.length gh = 3451%nat
    /\ fst (IGRF12.loadCoeffs "igrf12coeffs.txt" w) = Py.Ok gh
    /\ fst (IGRF12.igrf12syn isv date itype alt colat elong w)
       = IGRF12.synthesize gh e itype alt colat elong
    /\ filter Observed.is_error
         (IGRF12.events
            (snd (IGRF12.igrf12syn isv date itype alt colat elong w)))
       = filter Observed.is_error (IGRF12.events w).
Proof.
  intros Hfile Hshape Hdate.
  destruct (igrf12syn_loaded isv date itype alt colat elong w text Hfile Hshape)
    as (gh & Hgh & Hload & E).
  destruct (resolve_in_range isv date Hdate) as (reduced & e & He & _).
  exists reduced, e, gh. cbv zeta in E. rewrite E, He.
  repeat split; try assumption. cbn [snd].
  destruct reduced; cbn [IGRF12.print IGRF12.emit IGRF12.events];
    rewrite ?filter_app; cbn [filter Observed.is_error];
    rewrite ?app_nil_r; reflexivity.
Qed.

Lemma igrf12syn_returns (isv : Z) (date : R) (itype : Z)
      (alt colat elong : R) (w : IGRF12.world) (text : list IGRF12.line) :
  IGRF12.files w "igrf12coeffs.txt" = Some text ->
  Observed.published text ->
  1900 <= date <= 2025 ->
  Observed.documented itype alt ->
  exists x y z,
    fst (IGRF12.igrf12syn isv date itype alt colat elong w)
    = Py.Ok (x, y, z, sqrt (x * x + y * y + z * z)).
Proof.
  intros Hfile Hshape Hdate Hdom.
  destruct (igrf12syn_in_range isv date itype alt colat elong w text
              Hfile Hshape Hdate)
    as (reduced & e & gh & He & Hgh & _ & -> & _).
  exact (synthesize_ok gh isv date itype alt colat elong reduced e
           Hgh Hdate He Hdom).
Qed.

(** C3. With the coefficient file in place, for every input with epoch
    < 1900.0 or > 2025.0, whatever the mode, coordinate system, altitude,
    colatitude and longitude, igrf12syn returns x = y = z = 0 with f = 1.0
    and prints its three error lines; for 1900.0 <= epoch <= 2025.0 that
    branch is not taken (no error line is printed), the result is that of
    the synthesis on the loaded table, and on the documented domain a field
    value is returned. *)
Theorem C3_epoch_out_of_range_sentinel :
  forall (isv : Z) (date : R) (itype : Z) (alt colat elong : R)
         (w : IGRF12.world) (text : list IGRF12.line),
    IGRF12.files w "igrf12coeffs.txt" = Some text ->
    Observed.published text ->
    let out := IGRF12.igrf12syn isv date itype alt colat elong w in
    (date < 1900 \/ date > 2025 ->
     fst out = Py.Ok (0, 0, 0, 1)
     /\ filter Observed.is_error (IGRF12.events (snd out))
        = filter Observed.is_error (IGRF12.events w)
          ++ [IGRF12.Printed (IGRF12.MsgWillNotWork date);
              IGRF12.Printed IGRF12.MsgDateRange;
              IGRF12.Printed IGRF12.MsgOnReturn])
    /\ (1900 <= date <= 2025 ->
        filter Observed.is_error (IGRF12.events (snd out))
        = filter Observed.is_error (IGRF12.events w)
        /\ (exists reduced e gh,
               IGRF12.resolve isv date = IGRF12.Resolved reduced e
               /\ fst (IGRF12.loadCoeffs "igrf12coeffs.txt" w) = Py.Ok gh
               /\ fst out = IGRF12.synthesize gh e itype alt colat elong)
        /\ (Observed.documented itype alt ->
            exists x y z f, fst out = Py.Ok (x, y, z, f))).
Proof.
  intros isv date itype alt colat elong w text Hfile Hshape out. split.
  - intros Hdate. unfold out.
    rewrite (igrf12syn_out_of_range isv date itype alt colat elong w text
               Hfile Hshape Hdate).
    split; [reflexivity |]. cbn [snd IGRF12.events].
    rewrite filter_app. reflexivity.
  - intros Hdate.
    destruct (igrf12syn_in_range isv date itype alt colat elong w text
                Hfile Hshape Hdate)
      as (reduced & e & gh & He & Hgh & Hload & Hout & Hev).
    split; [exact Hev |]. split.
    + exists reduced, e, gh. auto.
    + intros Hdom.
      destruct (igrf12syn_returns isv date itype alt colat elong w text
                  Hfile Hshape Hdate Hdom) as (x & y & z & E).
      exists x, y, z, (sqrt (x * x + y * y + z * z)). exact E.
Qed.

Lemma C3_epoch_out_of_range_sentinel_witness :
  fst (IGRF12.igrf12syn 0 1800 2 6371.2 90 0 Inputs.fresh)
  = Py.Ok (0, 0, 0, 1)
  /\ exists x y z f,
       fst (IGRF12.igrf12syn 0 2005 2 6371.2 90 0 Inputs.fresh)
       = Py.Ok (x, y, z, f).
Proof.
  split.
  - apply (C3_epoch_out_of_range_sentinel 0 1800 2 6371.2 90 0 Inputs.fresh
             Inputs.zero_file fresh_file zero_file_published).
    left. lra.
  - apply (C3_epoch_out_of_range_sentinel 0 2005 2 6371.2 90 0 Inputs.fresh
             Inputs.zero_file fresh_file zero_file_published).
    + lra.
    + right. split; [reflexivity | lra].
Defined.

(** C5. For every igrf12syn call whose epoch is within [1900.0, 2025.0], in
    field and in secular-variation mode, the returned f is
    sqrt(x^2 + y^2 + z^2) of the three returned, frame-restored components;
    on the documented domain the call does return such a result. *)
Theorem C5_total_intensity_is_norm :
  forall (isv : Z) (date : R) (itype : Z) (alt colat elong : R)
         (w : IGRF12.world) (text : list IGRF12.line),
    IGRF12.files w "igrf12coeffs.txt" = Some text ->
    Observed.published text ->
    1900 <= date <= 2025 ->
    let out := IGRF12.igrf12syn isv date itype alt colat elong w in
    (forall x y z f,
        fst out = Py.Ok (x, y, z, f) -> f = sqrt (x * x + y * y + z * z))
    /\ (Observed.documented itype alt ->
        exists x y z,
          fst out = Py.Ok (x, y, z, sqrt (x * x + y * y + z * z))).
Proof.
  intros isv date itype alt colat elong w text Hfile Hshape Hdate out. split.
  - intros x y z f. unfold out.
    destruct (igrf12syn_in_range isv date itype alt colat elong w text
                Hfile Hshape Hdate)
      as (reduced & e & gh & _ & _ & _ & -> & _).
    apply synthesize_norm.
  - intros Hdom.
    exact (igrf12syn_returns isv date itype alt colat elong w text
             Hfile Hshape Hdate Hdom).
Qed.

Lemma C5_total_intensity_is_norm_witness :
  exists x y z,
    fst (IGRF12.igrf12syn 1 2005 1 300 40 116 Inputs.fresh)
    = Py.Ok (x, y, z, sqrt (x * x + y * y + z * z)).
Proof.
  apply (C5_total_intensity_is_norm 1 2005 1 300 40 116 Inputs.fresh
           Inputs.zero_file fresh_file zero_file_published).
  - lra.
  - left. split; [reflexivity | lra].
Defined.

(** ** IGRF12.py: the east accumulator near the poles *)

Lemma get_cases (v : list R) (i : Z) :
  (exists a, Py.get v i = Py.Ok a) \/ Py.get v i = Py.Raise Py.IndexError.
Proof.
  unfold Py.get, Py.index.
  destruct ((0 <=? i)%Z && (i <? Z.of_nat (List.length v))%Z)%bool.
  - left. eexists. reflexivity.
  - destruct ((- Z.of_nat (List.length v) <=? i)%Z && (i <? 0)%Z)%bool.
    + left. eexists. reflexivity.
    + right. reflexivity.
Qed.

Lemma eqb_true_eq (a b : R) : Py.eqb a b = true -> a = b.
Proof.
  unfold Py.eqb. destruct (Req_dec_T a b); [auto | discriminate].
Qed.

Lemma eqb_refl_0 : Py.eqb 0 0.0 = true.
Proof.
  unfold Py.eqb. destruct (Req_dec_T 0 0.0) as [_ | H]; [reflexivity | lra].
Qed.

Lemma eqb_neq_0 (st : R) : st <> 0 -> Py.eqb st 0.0 = false.
Proof.
  intros H. unfold Py.eqb.
  destruct (Req_dec_T st 0.0) as [E | _]; [| reflexivity].
  exfalso. apply H. lra.
Qed.

Lemma east_term_at_pole (ct : R) (k fm : Z) (one two : R)
      (s : IGRF12.state) :
  IGRF12.east_term ct 0 k fm one two s
  = (slm <- Py.get (IGRF12.sl s) (IGRF12.m s - 1) ;;
     clm <- Py.get (IGRF12.cl s) (IGRF12.m s - 1) ;;
     qk <- Py.get (IGRF12.q s) (k - 1) ;;
     Py.Ok (IGRF12.y s + (one * slm - two * clm) * qk * ct)).
Proof. unfold IGRF12.east_term. rewrite eqb_refl_0. reflexivity. Qed.

Lemma east_term_off_pole (ct st : R) (k fm : Z) (one two : R)
      (s : IGRF12.state) :
  st <> 0 ->
  IGRF12.east_term ct st k fm one two s
  = (slm <- Py.get (IGRF12.sl s) (IGRF12.m s - 1) ;;
     clm <- Py.get (IGRF12.cl s) (IGRF12.m s - 1) ;;
     pk <- Py.get (IGRF12.p s) (k - 1) ;;
     Py.Ok (IGRF12.y s + (one * slm - two * clm) * IZR fm * pk / st)).
Proof.
  intros Hst. unfold IGRF12.east_term. rewrite (eqb_neq_0 st Hst).
  destruct (Py.get (IGRF12.sl s) (IGRF12.m s - 1)) as [slm |];
    [| reflexivity].
  destruct (Py.get (IGRF12.cl s) (IGRF12.m s - 1)) as [clm |];
    [| reflexivity].
  destruct (Py.get (IGRF12.p s) (k - 1)) as [pk |]; [| reflexivity].
  cbn [Py.bind]. rewrite (div_ok _ _ Hst). reflexivity.
Qed.

Lemma east_term_no_zero_division (ct st : R) (k fm : Z) (one two : R)
      (s : IGRF12.state) :
  IGRF12.east_term ct st k fm one two s <> Py.Raise Py.ZeroDivisionError.
Proof.
  destruct (Req_dec_T st 0) as [-> | Hst].
  - rewrite east_term_at_pole.
    destruct (get_cases (IGRF12.sl s) (IGRF12.m s - 1)) as [[a ->] | ->];
      [| discriminate].
    destruct (get_cases (IGRF12.cl s) (IGRF12.m s - 1)) as [[b ->] | ->];
      [| discriminate].
    destruct (get_cases (IGRF12.q s) (k - 1)) as [[c ->] | ->];
      discriminate.
  - rewrite (east_term_off_pole ct st k fm one two s Hst).
    destruct (get_cases (IGRF12.sl s) (IGRF12.m s - 1)) as [[a ->] | ->];
      [| discriminate].
    destruct (get_cases (IGRF12.cl s) (IGRF12.m s - 1)) as [[b ->] | ->];
      [| discriminate].
    destruct (get_cases (IGRF12.p s) (k - 1)) as [[c ->] | ->];
      discriminate.
Qed.

(** C7. In the harmonic recurrence the east accumulator divides by
    sin(colatitude) only when it is non-zero; when it is zero the closed
    form multiplying by cos(colatitude) is used instead, so the update never
    divides by zero, and for an input in the documented domain (coefficient
    file in place, epoch in [1900.0, 2025.0], geodetic height >= 0 or
    geocentric radius > 3485 km, any colatitude and longitude) igrf12syn
    ends without any division by zero. *)
Theorem C7_east_term_guards_the_pole :
  forall (isv : Z) (date : R) (itype : Z) (alt colat elong : R)
         (w : IGRF12.world) (text : list IGRF12.line),
    IGRF12.files w "igrf12coeffs.txt" = Some text ->
    Observed.published text ->
    1900 <= date <= 2025 ->
    Observed.documented itype alt ->
    (forall (ct st : R) (k fm : Z) (one two : R) (s : IGRF12.state),
        (st = 0 ->
         IGRF12.east_term ct st k fm one two s
         = (slm <- Py.get (IGRF12.sl s) (IGRF12.m s - 1) ;;
            clm <- Py.get (IGRF12.cl s) (IGRF12.m s - 1) ;;
            qk <- Py.get (IGRF12.q s) (k - 1) ;;
            Py.Ok (IGRF12.y s + (one * slm - two * clm) * qk * ct)))
        /\ (st <> 0 ->
            IGRF12.east_term ct st k fm one two s
            = (slm <- Py.get (IGRF12.sl s) (IGRF12.m s - 1) ;;
               clm <- Py.get (IGRF12.cl s) (IGRF12.m s - 1) ;;
               pk <- Py.get (IGRF12.p s) (k - 1) ;;
               Py.Ok (IGRF12.y s
                      + (one * slm - two * clm) * IZR fm * pk / st)))
        /\ IGRF12.east_term ct st k fm one two s
           <> Py.Raise Py.ZeroDivisionError)
    /\ fst (IGRF12.igrf12syn isv date itype alt colat elong w)
       <> Py.Raise Py.ZeroDivisionError
    /\ exists v, fst (IGRF12.igrf12syn isv date itype alt colat elong w)
                 = Py.Ok v.
Proof.
  intros isv date itype alt colat elong w text Hfile Hshape Hdate Hdom.
  destruct (igrf12syn_returns isv date itype alt colat elong w text
              Hfile Hshape Hdate Hdom) as (x & y & z & E).
  split; [| split].
  - intros ct st k fm one two s. split; [| split].
    + intros ->. apply east_term_at_pole.
    + apply east_term_off_pole.
    + apply east_term_no_zero_division.
  - rewrite E. discriminate.
  - eexists. exact E.
Qed.

Lemma C7_east_term_guards_the_pole_witness :
  exists v, fst (IGRF12.igrf12syn 0 2005 2 6371.2 0 0 Inputs.fresh)
            = Py.Ok v.
Proof.
  apply (C7_east_term_guards_the_pole 0 2005 2 6371.2 0 0 Inputs.fresh
           Inputs.zero_file fresh_file zero_file_published).
  - lra.
  - right. split; [reflexivity | lra].
Defined.

(** ** IGRF12.py: when the coefficient table is built *)

Lemma loads_emit (e : IGRF12.event) (w : IGRF12.world) :
  Observed.loads (IGRF12.emit e w)
  = (Observed.loads w + (if Observed.is_load e then 1 else 0))%nat.
Proof.
  unfold Observed.loads, IGRF12.emit. cbn [IGRF12.events].
  rewrite filter_app, length_app. cbn [filter].
  destruct (Observed.is_load e); reflexivity.
Qed.

Lemma igrf12syn_world (isv : Z) (date : R) (itype : Z)
      (alt colat elong : R) (w : IGRF12.world) (text : list IGRF12.line) :
  IGRF12.files w "igrf12coeffs.txt" = Some text ->
  let w' := snd (IGRF12.igrf12syn isv date itype alt colat elong w) in
  IGRF12.files w' = IGRF12.files w
  /\ Observed.loads w' = S (Observed.loads w).
Proof.
  intros Hfile. cbv zeta. unfold IGRF12.igrf12syn, IGRF12.loadCoeffs.
  rewrite Hfile.
  destruct (IGRF12.flatten 0 _) as [gh | err].
  - destruct (IGRF12.resolve isv date) as [| [|] e]; cbn [snd];
      unfold IGRF12.print; rewrite ?loads_emit; cbn [Observed.is_load];
      (split; [reflexivity | lia]).
  - cbn [snd]. rewrite loads_emit. cbn [Observed.is_load].
    split; [reflexivity | lia].
Qed.

Lemma loadCoeffs_same_file (filename : string) (w w' : IGRF12.world) :
  IGRF12.files w' = IGRF12.files w ->
  fst (IGRF12.loadCoeffs filename w') = fst (IGRF12.loadCoeffs filename w).
Proof.
  intros E. unfold IGRF12.loadCoeffs. rewrite E.
  destruct (IGRF12.files w filename) as [text |]; [| reflexivity].
  destruct (IGRF12.flatten 0 _); reflexivity.
Qed.

Lemma after_world (cs : list Observed.call) :
  forall (w : IGRF12.world) (text : list IGRF12.line),
    IGRF12.files w "igrf12coeffs.txt" = Some text ->
    IGRF12.files (Observed.after cs w) = IGRF12.files w
    /\ Observed.loads (Observed.after cs w)
       = (Observed.loads w + List.length cs)%nat.
Proof.
  induction cs as [| c rest IH]; intros w text Hfile.
  - split; [reflexivity |]. cbn. lia.
  - destruct (igrf12syn_world (Observed.isv c) (Observed.date c)
                (Observed.itype c) (Observed.alt c) (Observed.colat c)
                (Observed.elong c) w text Hfile) as [Hf Hl].
    assert (Hfile' : IGRF12.files (snd (Observed.invoke c w))
                       "igrf12coeffs.txt" = Some text)
      by (unfold Observed.invoke; rewrite Hf; exact Hfile).
    destruct (IH _ text Hfile') as [Hf' Hl'].
    unfold Observed.after in *. cbn [fold_left List.length].
    rewrite Hf', Hl'. unfold Observed.invoke. rewrite Hf, Hl.
    split; [reflexivity | lia].
Qed.

(** C8, as stated, fails.  Starting from a world in which nothing has been
    loaded, two calls of igrf12syn build the coefficient table twice: the
    second call rebuilds it. *)
Lemma C8_table_rebuilt_per_call_counterexample :
  Observed.loads Inputs.fresh = 0%nat
  /\ Observed.loads
       (Observed.after [Inputs.main_call; Inputs.main_call] Inputs.fresh)
     = 2%nat
  /\ ~ (Observed.loads
          (Observed.after [Inputs.main_call; Inputs.main_call] Inputs.fresh)
        <= 1)%nat.
Proof.
  destruct (after_world [Inputs.main_call; Inputs.main_call] Inputs.fresh
              Inputs.zero_file fresh_file) as [_ H].
  split; [reflexivity |]. rewrite H. split; [reflexivity |].
  cbn. lia.
Qed.

(** C8, amended.  The coefficient table is built at the start of every
    igrf12syn invocation: a sequence of calls performs as many loads as it
    has calls.  No invocation changes the coefficient file, so while the
    file exists every invocation builds, and then only reads, the same
    table. *)
Theorem C8_table_built_at_every_call :
  forall (cs : list Observed.call) (w : IGRF12.world)
         (text : list IGRF12.line),
    IGRF12.files w "igrf12coeffs.txt" = Some text ->
    Observed.loads (Observed.after cs w)
    = (Observed.loads w + List.length cs)%nat
    /\ IGRF12.files (Observed.after cs w) = IGRF12.files w
    /\ fst (IGRF12.loadCoeffs "igrf12coeffs.txt" (Observed.after cs w))
       = fst (IGRF12.loadCoeffs "igrf12coeffs.txt" w).
Proof.
  intros cs w text Hfile.
  destruct (after_world cs w text Hfile) as [Hf Hl].
  split; [exact Hl |]. split; [exact Hf |].
  apply loadCoeffs_same_file. exact Hf.
Qed.

Lemma C8_table_built_at_every_call_witness :
  Observed.loads
    (Observed.after [Inputs.main_call; Inputs.main_call; Inputs.main_call]
       Inputs.fresh)
  = (Observed.loads Inputs.fresh + 3)%nat.
Proof.
  apply (C8_table_built_at_every_call
           [Inputs.main_call; Inputs.main_call; Inputs.main_call]
           Inputs.fresh Inputs.zero_file fresh_file).
Defined.

(** ** apex.py: one call of itrace *)



(** Running [itrace] on arrays given entry by entry, by value so that no
    array is copied into the places that read it before it is computed. *)
Ltac trace_compute :=
  cbv [Apex.itrace Apex.for_I Apex.bootstrap Apex.adams
       Apex.set_Y Apex.set_YOLD Apex.set_YAPX Apex.set_YP Apex.put2
       Apex.at1 Apex.at2 Py.update nth fold_left
       Apex.Y Apex.YOLD Apex.YAPX Apex.YP
       Tracer.column Nat.add fst snd
       Z.leb Z.eqb Z.compare Pos.eqb Pos.compare Pos.compare_cont orb].

Ltac split_on_flag :=
  match goal with
  | |- context [Py.ltb ?a ?b] => destruct (Py.ltb a b)
  end.

Lemma list3 {A : Type} (v : list A) :
  List.length v = 3%nat -> exists a b c, v = [a; b; c].
Proof.
  destruct v as [| a [| b [| c [| d v]]]]; try discriminate.
  intros _. exists a, b, c. reflexivity.
Qed.

Lemma list4 {A : Type} (v : list A) :
  List.length v = 4%nat -> exists a b c d, v = [a; b; c; d].
Proof.
  destruct v as [| a [| b [| c [| d [| e v]]]]]; try discriminate.
  intros _. exists a, b, c, d. reflexivity.
Qed.

Lemma matrix3 (n : nat) (M : list (list R)) :
  List.length M = 3%nat ->
  Forall (fun row => List.length row = n) M ->
  exists r0 r1 r2,
    M = [r0; r1; r2]
    /\ List.length r0 = n /\ List.length r1 = n /\ List.length r2 = n.
Proof.
  intros HM Hrows. destruct (list3 M HM) as (r0 & r1 & r2 & ->).
  inversion Hrows as [| ? ? H0 Hrows1]; subst.
  inversion Hrows1 as [| ? ? H1 Hrows2]; subst.
  inversion Hrows2 as [| ? ? H2 _]; subst.
  exists r0, r1, r2. auto.
Qed.

Lemma shaped_explicit (a : Apex.arrays) :
  Tracer.shaped a ->
  exists y0 y1 y2 o0 o1 o2 a00 a01 a02 a10 a11 a12 a20 a21 a22
         p00 p01 p02 p03 p10 p11 p12 p13 p20 p21 p22 p23,
    a = Apex.mkArrays [y0; y1; y2] [o0; o1; o2]
          [[a00; a01; a02]; [a10; a11; a12]; [a20; a21; a22]]
          [[p00; p01; p02; p03]; [p10; p11; p12; p13]; [p20; p21; p22; p23]].
Proof.
  destruct a as [Y YOLD YAPX YP].
  intros (HY & HO & HA & HAr & HP & HPr). cbn in *.
  destruct (list3 Y HY) as (y0 & y1 & y2 & ->).
  destruct (list3 YOLD HO) as (o0 & o1 & o2 & ->).
  destruct (matrix3 3 YAPX HA HAr) as (r0 & r1 & r2 & -> & L0 & L1 & L2).
  destruct (list3 r0 L0) as (a00 & a01 & a02 & ->).
  destruct (list3 r1 L1) as (a10 & a11 & a12 & ->).
  destruct (list3 r2 L2) as (a20 & a21 & a22 & ->).
  destruct (matrix3 4 YP HP HPr) as (q0 & q1 & q2 & -> & M0 & M1 & M2).
  destruct (list4 q0 M0) as (p00 & p01 & p02 & p03 & ->).
  destruct (list4 q1 M1) as (p10 & p11 & p12 & p13 & ->).
  destruct (list4 q2 M2) as (p20 & p21 & p22 & p23 & ->).
  repeat eexists.
Qed.

(** With [NSTP = 0] no branch of the bootstrap matches. *)
Lemma itrace_step_0 (a : Apex.arrays) (BX BY BZ BB SGN DS : R) :
  let r := Apex.itrace a BX BY BZ BB SGN DS 0 in
  fst r = false
  /\ Apex.Y (snd r) = Apex.Y a
  /\ Apex.YOLD (snd r) = Apex.YOLD a
  /\ Apex.YAPX (snd r) = Apex.YAPX a.
Proof.
  cbv zeta. unfold Apex.itrace. change (0 <=? 7)%Z with true.
  change ((0 =? 6)%Z || (0 =? 7)%Z)%bool with false.
  cbv iota. unfold Apex.for_I, Apex.bootstrap.
  change (0 =? 1)%Z with false. change (0 =? 2)%Z with false.
  change (0 =? 3)%Z with false. change (0 =? 4)%Z with false.
  change (0 =? 5)%Z with false. change (0 =? 6)%Z with false.
  change (0 =? 7)%Z with false. cbv iota. cbn [fold_left fst snd].
  repeat split.
Qed.

Lemma itrace_flag (a : Apex.arrays) (BX BY BZ BB SGN DS : R) (NSTP : Z) :
  (NSTP <= 7)%Z ->
  let r := Apex.itrace a BX BY BZ BB SGN DS NSTP in
  fst r = true
  <-> (NSTP = 6%Z \/ NSTP = 7%Z)
      /\ Apex.apex_radius (Apex.YAPX (snd r)) 2
         < Apex.apex_radius (Apex.YAPX (snd r)) 1.
Proof.
  intros H7. cbv zeta. unfold Apex.itrace.
  apply Z.leb_le in H7. rewrite H7.
  destruct ((NSTP =? 6)%Z || (NSTP =? 7)%Z)%bool eqn:E.
  - assert (H67 : NSTP = 6%Z \/ NSTP = 7%Z).
    { apply orb_prop in E as [E | E]; apply Z.eqb_eq in E; auto. }
    match goal with |- context [Py.ltb ?a ?b] =>
      destruct (Py.ltb a b) eqn:L end; cbn [fst snd].
    + apply ltb_spec in L. split; auto.
    + split; [discriminate |]. intros [_ C]. apply ltb_spec in C. congruence.
  - cbn [fst snd]. split; [discriminate |].
    intros [[-> | ->] _]; discriminate.
Qed.

Lemma itrace_step_6 (a : Apex.arrays) (BX BY BZ BB SGN DS : R) :
  Tracer.shaped a ->
  let a' := snd (Apex.itrace a BX BY BZ BB SGN DS 6) in
  Tracer.column (Apex.YAPX a') 2 = Apex.Y a
  /\ Tracer.column (Apex.YAPX a') 1 = Tracer.column (Apex.YAPX a) 1.
Proof.
  intros Hs. destruct (shaped_explicit a Hs) as
    (y0 & y1 & y2 & o0 & o1 & o2 & a00 & a01 & a02 & a10 & a11 & a12
     & a20 & a21 & a22 & p00 & p01 & p02 & p03 & p10 & p11 & p12 & p13
     & p20 & p21 & p22 & p23 & ->).
  trace_compute. split_on_flag; trace_compute; split; reflexivity.
Qed.

Lemma itrace_step_7 (a : Apex.arrays) (BX BY BZ BB SGN DS : R) :
  Tracer.shaped a ->
  let a' := snd (Apex.itrace a BX BY BZ BB SGN DS 7) in
  Tracer.column (Apex.YAPX a') 2 = Apex.Y a'
  /\ Tracer.column (Apex.YAPX a') 1 = Tracer.column (Apex.YAPX a) 2.
Proof.
  intros Hs. destruct (shaped_explicit a Hs) as
    (y0 & y1 & y2 & o0 & o1 & o2 & a00 & a01 & a02 & a10 & a11 & a12
     & a20 & a21 & a22 & p00 & p01 & p02 & p03 & p10 & p11 & p12 & p13
     & p20 & p21 & p22 & p23 & ->).
  trace_compute. split_on_flag; trace_compute; split; reflexivity.
Qed.


(** ** apex.py: the loop of findApex *)


Section TracerFacts.

Variable igrf12syn : Z -> R -> Z -> R -> R -> R -> R * R * R * R.
Variable getCoeffs : R -> (nat -> nat -> R) * (nat -> nat -> R).

(** What one pass of the loop body does to the locals. *)
Lemma iteration_spec (date ctp stp nlon sgn : R) (s : Apex.loop) :
  exists BX BY BZ BB DS,
    let r := Apex.itrace (Apex.arr s) BX BY BZ BB sgn DS (Apex.step s) in
    Apex.arr (Apex.iteration igrf12syn date ctp stp nlon sgn s) = snd r
    /\ Apex.arrive (Apex.iteration igrf12syn date ctp stp nlon sgn s) = fst r
    /\ Apex.step (Apex.iteration igrf12syn date ctp stp nlon sgn s)
       = (Apex.step s + 1)%Z
    /\ Apex.trace (Apex.iteration igrf12syn date ctp stp nlon sgn s)
       = Apex.trace s ++ [Apex.Y (snd r)]
    /\ (BX, BY, BZ)
       = (let '(bx, by_, bz, _) :=
            igrf12syn 0%Z date 2%Z (Apex.gcrho s)
                      (Apex.gclat s * Apex.FACT) (Apex.gclon s * Apex.FACT) in
          Coordinate.rotateVector (bx, by_, bz) (Apex.gclon s) (Apex.gclat s))
    /\ BB = snd (igrf12syn 0%Z date 2%Z (Apex.gcrho s)
                   (Apex.gclat s * Apex.FACT) (Apex.gclon s * Apex.FACT)).
Proof.
  unfold Apex.iteration.
  destruct (igrf12syn 0%Z date 2%Z (Apex.gcrho s) (Apex.gclat s * Apex.FACT)
              (Apex.gclon s * Apex.FACT)) as [[[bx by_] bz] bb].
  destruct (Coordinate.rotateVector (bx, by_, bz) (Apex.gclon s) (Apex.gclat s))
    as [[Bx By] Bz].
  match goal with
  | |- context [Apex.itrace ?a ?x ?y ?z ?b ?g ?d ?n] =>
      exists x, y, z, b, d; destruct (Apex.itrace a x y z b g d n) as [flag a']
  end.
  unfold Coordinate.cartesian2geocentric.
  cbn [Apex.arr Apex.arrive Apex.step Apex.trace fst snd]. repeat split.
Qed.

(** The loop leaves the entries already in [trace] where they are. *)
Lemma while_trace_prefix (date ctp stp nlon sgn : R) (fuel : nat) :
  forall s,
  exists rest,
    Apex.trace (Apex.while fuel (Apex.iteration igrf12syn date ctp stp nlon sgn) s)
    = Apex.trace s ++ rest.
Proof.
  induction fuel as [| fuel IH]; intros s.
  - exists []. cbn [Apex.while]. now rewrite app_nil_r.
  - cbn [Apex.while]. destruct (Apex.continue s).
    + destruct (IH (Apex.iteration igrf12syn date ctp stp nlon sgn s))
        as [rest E].
      destruct (iteration_spec date ctp stp nlon sgn s)
        as (BX & BY & BZ & BB & DS & _ & _ & _ & Et & _).
      rewrite E, Et, <- app_assoc. eexists. reflexivity.
    + exists []. now rewrite app_nil_r.
Qed.

(** The loop as a number of passes: it makes [j] of them, stops because
    [arrive] is set or the counter has reached 100, and has then appended
    [j] positions. *)
Lemma while_passes (date ctp stp nlon sgn : R) (fuel : nat) :
  forall s,
    (0 <= Apex.step s)%Z ->
    (Apex.step s + Z.of_nat fuel = 100)%Z ->
    exists j,
      (j <= fuel)%nat
      /\ Apex.while fuel (Apex.iteration igrf12syn date ctp stp nlon sgn) s
         = Nat.iter j (Apex.iteration igrf12syn date ctp stp nlon sgn) s
      /\ Apex.step (Nat.iter j (Apex.iteration igrf12syn date ctp stp nlon sgn) s)
         = (Apex.step s + Z.of_nat j)%Z
      /\ List.length
           (Apex.trace (Nat.iter j (Apex.iteration igrf12syn date ctp stp nlon sgn) s))
         = (List.length (Apex.trace s) + j)%nat
      /\ Apex.continue
           (Nat.iter j (Apex.iteration igrf12syn date ctp stp nlon sgn) s)
         = false.
Proof.
  induction fuel as [| fuel IH]; intros s H0 H100.
  - exists 0%nat. cbn [Apex.while Nat.iter nat_rect]. repeat split; try lia.
    unfold Apex.continue.
    assert (E : (Apex.step s <? 100)%Z = false) by (apply Z.ltb_ge; lia).
    rewrite E. apply andb_false_r.
  - cbn [Apex.while]. destruct (Apex.continue s) eqn:Hc.
    + destruct (iteration_spec date ctp stp nlon sgn s)
        as (BX & BY & BZ & BB & DS & _ & _ & Es & Et & _).
      destruct (IH (Apex.iteration igrf12syn date ctp stp nlon sgn s))
        as (j & Hj & Ew & Estep & Elen & Estop); [lia | lia |].
      exists (S j). rewrite Nat.iter_succ_r.
      repeat split; try assumption; try lia.
      rewrite Elen, Et, length_app. cbn [List.length]. lia.
    + exists 0%nat. cbn [Nat.iter nat_rect]. repeat split; try lia. exact Hc.
Qed.

Lemma launch_spec (lat lon alt date : R) :
  exists ctp stp nlon sgn x0 y0 z0 gclat gclon gcrho,
    Apex.launch igrf12syn getCoeffs lat lon alt date
    = (date, ctp, stp, nlon, sgn,
       Apex.mkLoop
         (Apex.mkArrays [x0; y0; z0] [0; 0; 0]
            (repeat (repeat 0.0 3) 3) (repeat (repeat 0.0 4) 3))
         0%Z false gclat gclon gcrho [[x0; y0; z0]])
    /\ sgn = - Py.sign (snd (fst (igrf12syn 0%Z date 2%Z gcrho
                                    (gclat * Apex.FACT) (gclon * Apex.FACT)))).
Proof.
  unfold Apex.launch.
  destruct (Apex.northPole getCoeffs date) as [nlat nlon].
  unfold Coordinate.geodetic2geocentric, Coordinate.geocentric2cartesian.
  match goal with
  | |- context [igrf12syn ?a ?b ?c ?d ?e ?f] =>
      destruct (igrf12syn a b c d e f) as [[[bx by_] bz] bb] eqn:E
  end.
  do 10 eexists. split; [reflexivity |]. rewrite E. reflexivity.
Qed.

End TracerFacts.



Ltac same_radius :=
  match goal with
  | |- context [Py.ltb ?a ?b] =>
      let E := fresh "E" in
      assert (E : a = b)
        by (cbv [Apex.radius Apex.apex_radius Apex.at1 Apex.at2 nth];
            repeat f_equal; lra);
      rewrite E, (ltb_false b b (Rlt_irrefl b))
  end.

Ltac still_goal :=
  cbv [fst snd]; split; [reflexivity |];
  unfold Tracer.still; do 15 eexists;
  split; [reflexivity |];
  split; [repeat f_equal; lra |];
  repeat split; intros; try lia; try lra.

Lemma itrace_still (y : list R) (k : Z) (a : Apex.arrays)
      (BX BY BZ BB SGN DS : R) :
  (0 <= k)%Z ->
  SGN * BX / BB = 0 -> SGN * BY / BB = 0 -> SGN * BZ / BB = 0 ->
  Tracer.still y k a ->
  let r := Apex.itrace a BX BY BZ BB SGN DS k in
  fst r = false /\ Tracer.still y (k + 1) (snd r).
Proof.
  intros Hk HX HY HZ
    (y0 & y1 & y2 & o0 & o1 & o2 & a00 & a01 & a02 & a10 & a11 & a12
     & a20 & a21 & a22 & -> & -> & H2 & H5 & H7).
  cbv zeta. unfold Apex.itrace. rewrite HX, HY, HZ.
  assert (C : (k = 0 \/ k = 1 \/ k = 2 \/ k = 3 \/ k = 4 \/ k = 5 \/ k = 6
               \/ k = 7 \/ 8 <= k)%Z) by lia.
  destruct C as [-> | [-> | [-> | [-> | [-> | [-> | [-> | [-> | H8]]]]]]]].
  - trace_compute. still_goal.
  - trace_compute. still_goal.
  - destruct H2 as (-> & -> & ->); [lia |]. trace_compute. still_goal.
  - destruct H2 as (-> & -> & ->); [lia |]. trace_compute. still_goal.
  - destruct H2 as (-> & -> & ->); [lia |]. trace_compute. still_goal.
  - destruct H2 as (-> & -> & ->); [lia |].
    destruct H5 as (-> & -> & ->); [lia |]. trace_compute. still_goal.
  - destruct H2 as (-> & -> & ->); [lia |].
    destruct H5 as (-> & -> & ->); [lia |]. trace_compute.
    same_radius. still_goal.
  - destruct H2 as (-> & -> & ->); [lia |].
    destruct H5 as (-> & -> & ->); [lia |].
    destruct H7 as (-> & -> & ->); [lia |]. trace_compute.
    same_radius. still_goal.
  - destruct H2 as (-> & -> & ->); [lia |].
    destruct H5 as (-> & -> & ->); [lia |].
    destruct H7 as (-> & -> & ->); [lia |].
    assert (E : (k <=? 7)%Z = false) by (apply Z.leb_gt; lia).
    rewrite E. trace_compute. same_radius. still_goal.
Qed.


(** ** apex.py: a trace in a vanishing field *)

Lemma rotateVector_zero (alpha beta : R) :
  Coordinate.rotateVector (0.0, 0.0, 0.0) alpha beta = (0, 0, 0).
Proof.
  unfold Coordinate.rotateVector, Coordinate.spanMat, Coordinate.dot,
    Coordinate.row_dot.
  repeat f_equal; lra.
Qed.

Lemma still_Y (y : list R) (k : Z) (a : Apex.arrays) :
  Tracer.still y k a -> Apex.Y a = y.
Proof.
  intros (y0 & y1 & y2 & o0 & o1 & o2 & a00 & a01 & a02 & a10 & a11 & a12
          & a20 & a21 & a22 & -> & -> & _).
  reflexivity.
Qed.

Lemma sentinel_pass (y : list R) (date ctp stp nlon sgn : R) (s : Apex.loop) :
  (0 <= Apex.step s)%Z ->
  Tracer.still y (Apex.step s) (Apex.arr s) ->
  let s' := Apex.iteration Inputs.sentinel date ctp stp nlon sgn s in
  Tracer.still y (Apex.step s') (Apex.arr s')
  /\ Apex.arrive s' = false
  /\ Apex.step s' = (Apex.step s + 1)%Z
  /\ Apex.trace s' = Apex.trace s ++ [y].
Proof.
  intros Hk Hstill. cbv zeta.
  destruct (iteration_spec Inputs.sentinel date ctp stp nlon sgn s)
    as (BX & BY & BZ & BB & DS & Ea & Ef & Es & Et & EB & EBB).
  cbv zeta in Ea, Ef, Et. unfold Inputs.sentinel in EB, EBB.
  rewrite rotateVector_zero in EB. injection EB as -> -> ->.
  cbn [snd] in EBB. subst BB.
  destruct (itrace_still y (Apex.step s) (Apex.arr s) 0 0 0 1.0 sgn DS Hk)
    as [Hflag Hnext]; try (unfold Rdiv; ring); [exact Hstill |].
  rewrite Ea, Ef, Es, Et. repeat split; try assumption.
  rewrite (still_Y _ _ _ Hnext). reflexivity.
Qed.

Lemma sentinel_run (y : list R) (date ctp stp nlon sgn : R) (fuel : nat) :
  forall s,
    (0 <= Apex.step s)%Z ->
    (Apex.step s + Z.of_nat fuel = 100)%Z ->
    Apex.arrive s = false ->
    Tracer.still y (Apex.step s) (Apex.arr s) ->
    let s' := Apex.while fuel
                (Apex.iteration Inputs.sentinel date ctp stp nlon sgn) s in
    Apex.step s' = 100%Z
    /\ Apex.arrive s' = false
    /\ Apex.trace s' = Apex.trace s ++ repeat y fuel.
Proof.
  induction fuel as [| fuel IH]; intros s H0 H100 Harr Hstill; cbv zeta.
  - cbn [Apex.while repeat]. rewrite app_nil_r. repeat split; [lia | exact Harr].
  - assert (Hc : Apex.continue s = true).
    { unfold Apex.continue. rewrite Harr.
      assert (E : (Apex.step s <? 100)%Z = true) by (apply Z.ltb_lt; lia).
      rewrite E. reflexivity. }
    cbn [Apex.while]. rewrite Hc.
    destruct (sentinel_pass y date ctp stp nlon sgn s H0 Hstill)
      as (Hstill' & Harr' & Hstep' & Htrace').
    destruct (IH (Apex.iteration Inputs.sentinel date ctp stp nlon sgn s))
      as (R1 & R2 & R3); try assumption; try (rewrite Hstep'; lia).
    split; [exact R1 |]. split; [exact R2 |].
    rewrite R3, Htrace', <- app_assoc. reflexivity.
Qed.

Lemma zeros_3x4 :
  repeat (repeat 0.0 4) 3 = [[0; 0; 0; 0]; [0; 0; 0; 0]; [0; 0; 0; 0]].
Proof. cbn [repeat]. repeat f_equal; lra. Qed.

Lemma sentinel_trace
      (getCoeffs : R -> (nat -> nat -> R) * (nat -> nat -> R))
      (lat lon alt date : R) :
  let s := Apex.findApex_loop Inputs.sentinel getCoeffs lat lon alt date in
  Apex.step s = 100%Z
  /\ Apex.arrive s = false
  /\ exists y,
       Apex.trace (snd (Apex.launch Inputs.sentinel getCoeffs lat lon alt date))
       = [y]
       /\ Apex.trace s = repeat y 101.
Proof.
  cbv zeta. unfold Apex.findApex_loop.
  destruct (launch_spec Inputs.sentinel getCoeffs lat lon alt date)
    as (ctp & stp & nlon & sgn & x0 & y0 & z0 & gclat & gclon & gcrho & E & _).
  rewrite E. cbn [snd Apex.trace].
  destruct (sentinel_run [x0; y0; z0] date ctp stp nlon sgn 100
              (Apex.mkLoop
                 (Apex.mkArrays [x0; y0; z0] [0; 0; 0]
                    (repeat (repeat 0.0 3) 3) (repeat (repeat 0.0 4) 3))
                 0%Z false gclat gclon gcrho [[x0; y0; z0]]))
    as (R1 & R2 & R3); cbn [Apex.step Apex.arrive Apex.arr]; try lia;
    try reflexivity.
  - rewrite zeros_3x4. unfold Tracer.still. cbn [repeat].
    do 15 eexists. split; [reflexivity |]. split; [reflexivity |].
    repeat split; intros; lia.
  - repeat split; try assumption. exists [x0; y0; z0].
    split; [reflexivity |]. rewrite R3. reflexivity.
Qed.

Lemma sentinel_is_out_of_range_answer (isv itype : Z) (alt colat elong : R) :
  fst (IGRF12.igrf12syn isv 1800 itype alt colat elong Inputs.fresh)
  = Py.Ok (Inputs.sentinel isv 1800 itype alt colat elong).
Proof.
  rewrite (igrf12syn_out_of_range isv 1800 itype alt colat elong Inputs.fresh
             Inputs.zero_file fresh_file zero_file_published)
    by (left; lra).
  unfold Inputs.sentinel. cbn [fst].
  f_equal. f_equal; [f_equal; [f_equal |] |]; lra.
Qed.

(** ** apex.py: findApex *)

Lemma findApex_loop_passes
      (igrf12syn : Z -> R -> Z -> R -> R -> R -> R * R * R * R)
      (getCoeffs : R -> (nat -> nat -> R) * (nat -> nat -> R))
      (lat lon alt date : R) :
  exists j,
    (j <= 100)%nat
    /\ Apex.findApex_loop igrf12syn getCoeffs lat lon alt date
       = Tracer.passes igrf12syn getCoeffs lat lon alt date j
    /\ Apex.step (Tracer.passes igrf12syn getCoeffs lat lon alt date j)
       = Z.of_nat j
    /\ List.length
         (Apex.trace (Tracer.passes igrf12syn getCoeffs lat lon alt date j))
       = S j
    /\ Apex.continue (Tracer.passes igrf12syn getCoeffs lat lon alt date j)
       = false.
Proof.
  unfold Apex.findApex_loop, Tracer.passes.
  destruct (launch_spec igrf12syn getCoeffs lat lon alt date)
    as (ctp & stp & nlon & sgn & x0 & y0 & z0 & gclat & gclon & gcrho & E & _).
  rewrite E.
  destruct (while_passes igrf12syn date ctp stp nlon sgn 100
              (Apex.mkLoop
                 (Apex.mkArrays [x0; y0; z0] [0; 0; 0]
                    (repeat (repeat 0.0 3) 3) (repeat (repeat 0.0 4) 3))
                 0%Z false gclat gclon gcrho [[x0; y0; z0]]))
    as (j & Hj & Ew & Es & El & Ec); cbn [Apex.step]; try lia.
  exists j. cbn [Apex.step Apex.trace List.length] in Es, El.
  repeat split; try assumption; lia.
Qed.

Lemma passes_succ
      (igrf12syn : Z -> R -> Z -> R -> R -> R -> R * R * R * R)
      (getCoeffs : R -> (nat -> nat -> R) * (nat -> nat -> R))
      (lat lon alt date : R) (j : nat) :
  exists ctp stp nlon sgn,
    Tracer.passes igrf12syn getCoeffs lat lon alt date (S j)
    = Apex.iteration igrf12syn date ctp stp nlon sgn
        (Tracer.passes igrf12syn getCoeffs lat lon alt date j).
Proof.
  unfold Tracer.passes.
  destruct (launch_spec igrf12syn getCoeffs lat lon alt date)
    as (ctp & stp & nlon & sgn & x0 & y0 & z0 & gclat & gclon & gcrho & E & _).
  rewrite E. exists ctp, stp, nlon, sgn. reflexivity.
Qed.

Lemma passes_0
      (igrf12syn : Z -> R -> Z -> R -> R -> R -> R * R * R * R)
      (getCoeffs : R -> (nat -> nat -> R) * (nat -> nat -> R))
      (lat lon alt date : R) :
  exists start,
    Apex.step (Tracer.passes igrf12syn getCoeffs lat lon alt date 0) = 0%Z
    /\ Apex.arrive (Tracer.passes igrf12syn getCoeffs lat lon alt date 0)
       = false
    /\ Apex.Y (Apex.arr (Tracer.passes igrf12syn getCoeffs lat lon alt date 0))
       = start
    /\ Apex.trace (Tracer.passes igrf12syn getCoeffs lat lon alt date 0)
       = [start].
Proof.
  unfold Tracer.passes.
  destruct (launch_spec igrf12syn getCoeffs lat lon alt date)
    as (ctp & stp & nlon & sgn & x0 & y0 & z0 & gclat & gclon & gcrho & E & _).
  rewrite E. exists [x0; y0; z0]. repeat split.
Qed.

Lemma passes_step
      (igrf12syn : Z -> R -> Z -> R -> R -> R -> R * R * R * R)
      (getCoeffs : R -> (nat -> nat -> R) * (nat -> nat -> R))
      (lat lon alt date : R) (j : nat) :
  Apex.step (Tracer.passes igrf12syn getCoeffs lat lon alt date j)
  = Z.of_nat j.
Proof.
  induction j as [| j IH].
  - destruct (passes_0 igrf12syn getCoeffs lat lon alt date) as (y & E & _).
    exact E.
  - destruct (passes_succ igrf12syn getCoeffs lat lon alt date j)
      as (ctp & stp & nlon & sgn & E).
    rewrite E.
    destruct (iteration_spec igrf12syn date ctp stp nlon sgn
                (Tracer.passes igrf12syn getCoeffs lat lon alt date j))
      as (BX & BY & BZ & BB & DS & _ & _ & Es & _).
    rewrite Es, IH. lia.
Qed.

Lemma passes_arrive
      (igrf12syn : Z -> R -> Z -> R -> R -> R -> R * R * R * R)
      (getCoeffs : R -> (nat -> nat -> R) * (nat -> nat -> R))
      (lat lon alt date : R) (j : nat) :
  (j <= 6)%nat ->
  Apex.arrive (Tracer.passes igrf12syn getCoeffs lat lon alt date j) = false.
Proof.
  intros Hj. destruct j as [| j].
  - destruct (passes_0 igrf12syn getCoeffs lat lon alt date) as (y & _ & E & _).
    exact E.
  - destruct (passes_succ igrf12syn getCoeffs lat lon alt date j)
      as (ctp & stp & nlon & sgn & E).
    rewrite E.
    destruct (iteration_spec igrf12syn date ctp stp nlon sgn
                (Tracer.passes igrf12syn getCoeffs lat lon alt date j))
      as (BX & BY & BZ & BB & DS & _ & Ef & _).
    cbv zeta in Ef. rewrite Ef, passes_step.
    destruct (fst (Apex.itrace _ BX BY BZ BB sgn DS (Z.of_nat j))) eqn:F;
      [| reflexivity].
    apply itrace_flag in F; [| lia]. destruct F as [[F | F] _]; lia.
Qed.

Lemma while_succ (fuel : nat) (body : Apex.loop -> Apex.loop)
      (s : Apex.loop) :
  Apex.while (S fuel) body s
  = if Apex.continue s then Apex.while fuel body (body s) else s.
Proof. reflexivity. Qed.

Lemma findApex_starts_twice
      (igrf12syn : Z -> R -> Z -> R -> R -> R -> R * R * R * R)
      (getCoeffs : R -> (nat -> nat -> R) * (nat -> nat -> R))
      (lat lon alt date : R) :
  exists start rest,
    Apex.trace (Tracer.passes igrf12syn getCoeffs lat lon alt date 0)
    = [start]
    /\ Apex.findApex igrf12syn getCoeffs lat lon alt date
       = start :: start :: rest.
Proof.
  unfold Apex.findApex, Apex.findApex_loop, Tracer.passes.
  destruct (launch_spec igrf12syn getCoeffs lat lon alt date)
    as (ctp & stp & nlon & sgn & x0 & y0 & z0 & gclat & gclon & gcrho & E & _).
  rewrite E. cbn [Nat.iter nat_rect Apex.trace].
  set (s0 := Apex.mkLoop
               (Apex.mkArrays [x0; y0; z0] [0; 0; 0]
                  (repeat (repeat 0.0 3) 3) (repeat (repeat 0.0 4) 3))
               0%Z false gclat gclon gcrho [[x0; y0; z0]]).
  rewrite (while_succ 99).
  change (Apex.continue s0) with true. cbv iota.
  destruct (while_trace_prefix igrf12syn date ctp stp nlon sgn 99
              (Apex.iteration igrf12syn date ctp stp nlon sgn s0))
    as [rest Er].
  destruct (iteration_spec igrf12syn date ctp stp nlon sgn s0)
    as (BX & BY & BZ & BB & DS & _ & _ & _ & Et & _).
  unfold s0 in Et.
  cbv zeta in Et. cbn [Apex.arr Apex.step Apex.trace] in Et.
  destruct (itrace_step_0
              (Apex.mkArrays [x0; y0; z0] [0; 0; 0]
                 (repeat (repeat 0.0 3) 3) (repeat (repeat 0.0 4) 3))
              BX BY BZ BB sgn DS) as (_ & EY & _).
  rewrite EY in Et. cbn [Apex.Y] in Et.
  exists [x0; y0; z0], rest. split; [reflexivity |].
  rewrite Er. unfold s0. rewrite Et. reflexivity.
Qed.

Lemma past_apex_shaped : Tracer.shaped Inputs.past_apex.
Proof.
  unfold Tracer.shaped, Inputs.past_apex.
  cbn [Apex.Y Apex.YOLD Apex.YAPX Apex.YP List.length].
  repeat split; repeat constructor.
Qed.

(** C2, as stated, fails.  With the field evaluator answering the
    out-of-range sentinel (epoch 1800.0), the trace launched at latitude 0,
    longitude 0, altitude 0 never sees a radius decrease: the loop stops at
    the cap with step = 100 and arrive = False, the specification's outcome
    is TraceDidNotConverge, and findApex returns the 101-entry list of
    positions, every entry being the launch position. *)
Lemma C2_cap_returns_the_path_counterexample :
  let s := Apex.findApex_loop Inputs.sentinel Inputs.dgrf2005 0 0 0 1800 in
  let path := Apex.findApex Inputs.sentinel Inputs.dgrf2005 0 0 0 1800 in
  Apex.step s = 100%Z
  /\ Apex.arrive s = false
  /\ Claimed.findApex s = Claimed.TraceDidNotConverge
  /\ List.length path = 101%nat
  /\ path = repeat (hd [] path) 101.
Proof.
  cbv zeta. unfold Apex.findApex, Claimed.findApex.
  destruct (sentinel_trace Inputs.dgrf2005 0 0 0 1800)
    as (Hstep & Harr & y & _ & Htrace).
  rewrite Harr, Htrace. repeat split; assumption.
Qed.

(** C2, amended.  For every launch point and epoch, findApex performs at
    most 100 integration steps and returns the launch position followed by
    one position per step performed, at most 101 entries; the loop stops
    because a radius decrease was signalled or because the step counter
    reached 100, and in both cases what is returned is that list: when the
    cap is reached the 101-entry path is returned like any other trace,
    with no distinguished outcome. *)
Theorem C2_findApex_returns_the_path_at_the_cap :
  forall (igrf12syn : Z -> R -> Z -> R -> R -> R -> R * R * R * R)
         (getCoeffs : R -> (nat -> nat -> R) * (nat -> nat -> R))
         (lat lon alt date : R),
    let s := Apex.findApex_loop igrf12syn getCoeffs lat lon alt date in
    let path := Apex.findApex igrf12syn getCoeffs lat lon alt date in
    (exists j, (j <= 100)%nat
               /\ s = Tracer.passes igrf12syn getCoeffs lat lon alt date j
               /\ Apex.step s = Z.of_nat j)
    /\ (0 <= Apex.step s <= 100)%Z
    /\ (Apex.arrive s = true \/ Apex.step s = 100%Z)
    /\ path = Apex.trace s
    /\ Z.of_nat (List.length path) = (Apex.step s + 1)%Z
    /\ (List.length path <= 101)%nat.
Proof.
  intros igrf12syn getCoeffs lat lon alt date. cbv zeta.
  unfold Apex.findApex.
  destruct (findApex_loop_passes igrf12syn getCoeffs lat lon alt date)
    as (j & Hj & -> & Es & El & Ec).
  split; [exists j; auto |]. rewrite Es, El.
  split; [lia |]. split; [| split; [reflexivity | split; lia]].
  unfold Apex.continue in Ec. rewrite Es in Ec.
  destruct (Apex.arrive _); [left; reflexivity | right].
  cbn [negb andb] in Ec. apply Z.ltb_ge in Ec. lia.
Qed.

(** C9. The first pass of the loop of every findApex call hands itrace the
    step counter 0, which matches no bootstrap branch, so the position is
    left as it was and no apex is signalled: the returned path begins with
    two entries equal to the launch position.  Pass number j + 1 runs with
    step counter j, and the first seven passes always take place, so the
    bootstrap steps 1 to 7 are made by passes 2 to 8. *)
Theorem C9_first_pass_repeats_the_launch_position :
  forall (igrf12syn : Z -> R -> Z -> R -> R -> R -> R * R * R * R)
         (getCoeffs : R -> (nat -> nat -> R) * (nat -> nat -> R))
         (lat lon alt date : R),
    (forall (a : Apex.arrays) (BX BY BZ BB SGN DS : R),
        fst (Apex.itrace a BX BY BZ BB SGN DS 0) = false
        /\ Apex.Y (snd (Apex.itrace a BX BY BZ BB SGN DS 0)) = Apex.Y a)
    /\ (exists start rest,
           Apex.trace (Tracer.passes igrf12syn getCoeffs lat lon alt date 0)
           = [start]
           /\ Apex.findApex igrf12syn getCoeffs lat lon alt date
              = start :: start :: rest)
    /\ (forall j : nat,
           Apex.step (Tracer.passes igrf12syn getCoeffs lat lon alt date j)
           = Z.of_nat j)
    /\ (forall j : nat,
           (j <= 6)%nat ->
           Apex.continue (Tracer.passes igrf12syn getCoeffs lat lon alt date j)
           = true).
Proof.
  intros igrf12syn getCoeffs lat lon alt date.
  split; [| split; [| split]].
  - intros a BX BY BZ BB SGN DS.
    destruct (itrace_step_0 a BX BY BZ BB SGN DS) as (H1 & H2 & _).
    split; assumption.
  - apply findApex_starts_twice.
  - apply passes_step.
  - intros j Hj. unfold Apex.continue.
    rewrite (passes_arrive igrf12syn getCoeffs lat lon alt date j Hj).
    rewrite passes_step. cbn [negb andb]. apply Z.ltb_lt. lia.
Qed.


(** * More of the code *)

(** ** coordinate.py: polar coordinates *)

Lemma sqrt_sum_pos (x y : R) : x <> 0 -> 0 < sqrt (x * x + y * y).
Proof. intros H. apply sqrt_lt_R0. nra. Qed.

Lemma sqrt_scaled (x y : R) :
  0 < x -> sqrt (x * x + y * y) = x * sqrt (1 + (y / x)²).
Proof.
  intros Hx. rewrite <- (sqrt_square x) at 3 by lra.
  rewrite <- sqrt_mult by (unfold Rsqr; nra). f_equal.
  unfold Rsqr. field. lra.
Qed.

(** For a point right of the vertical axis the angle is [atan (y / x)]. *)
Lemma polar_right (x y : R) :
  0 < x ->
  sqrt (x * x + y * y) * cos (atan (y / x)) = x
  /\ sqrt (x * x + y * y) * sin (atan (y / x)) = y.
Proof.
  intros Hx. rewrite cos_atan, sin_atan, (sqrt_scaled x y Hx).
  assert (H : 0 < sqrt (1 + (y / x)²)).
  { apply sqrt_lt_R0. pose proof (Rle_0_sqr (y / x)). lra. }
  split; field; lra.
Qed.

Lemma polar_left (x y : R) :
  x < 0 ->
  sqrt (x * x + y * y) * cos (atan (y / x)) = - x
  /\ sqrt (x * x + y * y) * sin (atan (y / x)) = - y.
Proof.
  intros Hx. destruct (polar_right (- x) (- y)) as [Hc Hs]; [lra |].
  replace (- x * - x + - y * - y) with (x * x + y * y) in * by ring.
  replace (- y / - x) with (y / x) in * by (field; lra).
  split; assumption.
Qed.

(** [np.arctan2] gives the angle of the point [(x, y)]. *)
Lemma arctan2_polar (x y : R) :
  sqrt (x * x + y * y) * cos (Py.arctan2 y x) = x
  /\ sqrt (x * x + y * y) * sin (Py.arctan2 y x) = y.
Proof.
  unfold Py.arctan2.
  destruct (Rlt_dec 0 x) as [Hx | Hx]; [apply polar_right; exact Hx |].
  destruct (Rlt_dec x 0) as [Hx' | Hx'].
  - destruct (polar_left x y Hx') as [Hc Hs].
    destruct (Rle_dec 0 y).
    + rewrite neg_cos, neg_sin. split; lra.
    + unfold Rminus. rewrite cos_plus, sin_plus, cos_neg, sin_neg, cos_PI, sin_PI.
      split; lra.
  - assert (x = 0) by lra. subst x.
    replace (0 * 0 + y * y) with (y * y) by ring.
    destruct (Rlt_dec 0 y) as [Hy | Hy].
    + rewrite cos_PI2, sin_PI2, sqrt_square by lra. split; lra.
    + destruct (Rlt_dec y 0) as [Hy' | Hy'].
      * rewrite cos_neg, sin_neg, cos_PI2, sin_PI2.
        replace (y * y) with (- y * - y) by ring.
        rewrite sqrt_square by lra. split; lra.
      * assert (y = 0) by lra. subst y.
        rewrite cos_0, sin_0. replace (0 * 0) with 0 by ring. rewrite sqrt_0.
        split; lra.
Qed.

Lemma atan_nonpos (u : R) : u <= 0 -> atan u <= 0.
Proof.
  intros [H | ->]; [| rewrite atan_0; lra].
  pose proof (atan_increasing u 0 H) as Hi. rewrite atan_0 in Hi. lra.
Qed.

Lemma atan_pos (u : R) : 0 < u -> 0 < atan u.
Proof.
  intros H. pose proof (atan_increasing 0 u H) as Hi.
  rewrite atan_0 in Hi. exact Hi.
Qed.

Lemma arctan2_range (y x : R) : - PI < Py.arctan2 y x <= PI.
Proof.
  pose proof PI_RGT_0 as Hpi. unfold Py.arctan2.
  destruct (Rlt_dec 0 x) as [Hx | Hx].
  - pose proof (atan_bound (y / x)). lra.
  - destruct (Rlt_dec x 0) as [Hx' | Hx'].
    + pose proof (atan_bound (y / x)) as Hb.
      assert (Hinv : / x < 0) by (apply Rinv_lt_0_compat; exact Hx').
      destruct (Rle_dec 0 y) as [Hy | Hy].
      * assert (Hq : y / x <= 0) by (unfold Rdiv; nra).
        pose proof (atan_nonpos _ Hq). lra.
      * assert (Hq : 0 < y / x) by (unfold Rdiv; nra).
        pose proof (atan_pos _ Hq). lra.
    + destruct (Rlt_dec 0 y); [lra |]. destruct (Rlt_dec y 0); lra.
Qed.

(** The angle of a point on the closed right half plane (without the
    origin's axis below) stays within a quarter turn. *)
Lemma arctan2_right_range (y x : R) :
  0 <= x -> - (PI / 2) <= Py.arctan2 y x <= PI / 2.
Proof.
  intros Hx. pose proof PI_RGT_0 as Hpi. unfold Py.arctan2.
  destruct (Rlt_dec 0 x) as [H | H].
  - pose proof (atan_bound (y / x)). lra.
  - destruct (Rlt_dec x 0) as [H' | H']; [lra |].
    destruct (Rlt_dec 0 y); [lra |]. destruct (Rlt_dec y 0); lra.
Qed.

(** ** coordinate.py: spherical and cartesian coordinates *)

Lemma cartesian_roundtrip (x y z : R) :
  let '(lat, lon, rho) := Coordinate.cartesian2geocentric x y z in
  Coordinate.geocentric2cartesian lat lon rho = (x, y, z).
Proof.
  unfold Coordinate.cartesian2geocentric, Coordinate.geocentric2cartesian.
  destruct (arctan2_polar x y) as [Hc Hs].
  set (h := sqrt (x * x + y * y)) in *.
  destruct (arctan2_polar h z) as [Hc' Hs'].
  assert (Hh : h * h = x * x + y * y).
  { unfold h. apply sqrt_sqrt. nra. }
  rewrite Hh in Hc', Hs'.
  replace (x * x + y * y + z * z) with (x * x + y * y + z * z) in * by ring.
  set (rho := sqrt (x * x + y * y + z * z)) in *.
  f_equal; [f_equal |].
  - rewrite Hc'. exact Hc.
  - rewrite Hc'. exact Hs.
  - exact Hs'.
Qed.

Lemma cartesian2geocentric_range (x y z : R) :
  let '(lat, lon, rho) := Coordinate.cartesian2geocentric x y z in
  0 <= rho
  /\ - (PI / 2) <= lat <= PI / 2
  /\ - PI < lon <= PI
  /\ rho * rho = x * x + y * y + z * z.
Proof.
  unfold Coordinate.cartesian2geocentric.
  split; [apply sqrt_pos |].
  split; [apply arctan2_right_range; apply sqrt_pos |].
  split; [apply arctan2_range |].
  apply sqrt_sqrt. nra.
Qed.

Lemma sin_zero_small (d : R) : - PI < d < PI -> sin d = 0 -> d = 0.
Proof.
  intros [Hlo Hhi] Hs. pose proof PI_RGT_0 as Hpi.
  destruct (Rle_dec 0 d) as [H | H].
  - destruct (sin_eq_O_2PI_0 d) as [E | [E | E]]; try lra.
  - assert (Hs' : sin (- d) = 0) by (rewrite sin_neg; lra).
    destruct (sin_eq_O_2PI_0 (- d)) as [E | [E | E]]; lra.
Qed.

(** An angle in (-pi, pi] is determined by its cosine and sine. *)
Lemma angle_unique (a b : R) :
  - PI < a <= PI -> - PI < b <= PI ->
  cos a = cos b -> sin a = sin b -> a = b.
Proof.
  intros Ha Hb Hc Hs.
  assert (H1 : cos (a - b) = 1).
  { rewrite cos_minus, Hc, Hs. pose proof (unit_circle b). lra. }
  assert (H2 : sin ((a - b) / 2) = 0).
  { replace (a - b) with (2 * ((a - b) / 2)) in H1 by field.
    rewrite cos_2a_sin in H1.
    assert (Hsq : sin ((a - b) / 2) * sin ((a - b) / 2) = 0) by lra.
    apply Rmult_integral in Hsq. destruct Hsq; assumption. }
  apply sin_zero_small in H2; lra.
Qed.

Lemma arctan2_of_angle (r theta : R) :
  0 < r -> - PI < theta <= PI ->
  Py.arctan2 (r * sin theta) (r * cos theta) = theta.
Proof.
  intros Hr Ht.
  destruct (arctan2_polar (r * cos theta) (r * sin theta)) as [Hc Hs].
  assert (E : sqrt (r * cos theta * (r * cos theta)
                    + r * sin theta * (r * sin theta)) = r).
  { replace (r * cos theta * (r * cos theta) + r * sin theta * (r * sin theta))
      with (r * r * (sin theta * sin theta + cos theta * cos theta)) by ring.
    rewrite unit_circle, Rmult_1_r. apply sqrt_square. lra. }
  rewrite E in Hc, Hs.
  apply angle_unique; try assumption.
  - apply arctan2_range.
  - apply (Rmult_eq_reg_l r); lra.
  - apply (Rmult_eq_reg_l r); lra.
Qed.

(** ** coordinate.py: the rotation of local vectors *)

Lemma rotateVector_radial (north east down lon lat rho : R) :
  Coordinate.row_dot
    (Coordinate.rotateVector (north, east, down) lon lat)
    (Coordinate.geocentric2cartesian lat lon rho)
  = - down * rho.
Proof.
  pose proof (unit_circle lon) as Ha. pose proof (unit_circle lat) as Hb.
  unfold Coordinate.rotateVector, Coordinate.spanMat, Coordinate.dot,
    Coordinate.row_dot, Coordinate.geocentric2cartesian.
  set (sa := sin lon) in *. set (ca := cos lon) in *.
  set (sb := sin lat) in *. set (cb := cos lat) in *.
  replace (_ + _ + _) with
    (- down * rho * (cb * cb * (sa * sa + ca * ca) + sb * sb)
     + north * rho * sb * cb * (1 - (sa * sa + ca * ca))) by ring.
  rewrite Ha. replace (cb * cb * 1 + sb * sb) with (sb * sb + cb * cb) by ring.
  rewrite Hb. ring.
Qed.

Lemma rotateVector_down (down lon lat : R) :
  Coordinate.rotateVector (0, 0, down) lon lat
  = Coordinate.geocentric2cartesian lat lon (- down).
Proof.
  unfold Coordinate.rotateVector, Coordinate.spanMat, Coordinate.dot,
    Coordinate.row_dot, Coordinate.geocentric2cartesian.
  f_equal; [f_equal |]; ring.
Qed.

(** ** coordinate.py and IGRF12.py: the WGS84 reduction *)

Lemma ellipse_identity (a b S C : R) :
  S + C = 1 ->
  (a * S + b * C) * (a * S + b * C) + (a - b) * (a - b) * C * S
  = a * a * S + b * b * C.
Proof. intros H. replace C with (1 - S) by lra. ring. Qed.

(** What the reduction computes, whichever of the two copies runs. *)
Lemma geodetic_reduction_spec (alt theta : R) :
  0 <= alt ->
  exists fr,
    IGRF12.geodetic_reduction alt (cos theta) (sin theta) = Py.Ok fr
    /\ Coordinate.geodetic2geocentric theta alt
       = (Py.arctan2 (IGRF12.st fr) (IGRF12.ct fr),
          Py.arctan2 (IGRF12.sd fr) (IGRF12.cd fr), IGRF12.r fr)
    /\ 0 < IGRF12.r fr
    /\ IGRF12.cd fr * IGRF12.cd fr + IGRF12.sd fr * IGRF12.sd fr = 1
    /\ IGRF12.ct fr = cos theta * IGRF12.cd fr - sin theta * IGRF12.sd fr
    /\ IGRF12.st fr = sin theta * IGRF12.cd fr + cos theta * IGRF12.sd fr
    /\ alt + sqrt 40408296.0 <= IGRF12.r fr <= alt + sqrt 40680631.6.
Proof.
  intros Halt. unfold IGRF12.geodetic_reduction, Coordinate.geodetic2geocentric.
  pose proof (unit_circle theta) as Hc.
  set (ct := cos theta) in *. set (st := sin theta) in *.
  assert (Hst : 0 <= st * st) by nra.
  assert (Hct : 0 <= ct * ct) by nra.
  set (three := 40680631.6 * st * st + 40408296.0 * ct * ct) in *.
  assert (H3 : 0 < three) by (unfold three; nra).
  assert (H3lo : 40408296.0 <= three) by (unfold three; nra).
  assert (H3hi : three <= 40680631.6) by (unfold three; nra).
  set (rho := sqrt three) in *.
  assert (Hrho : 0 < rho) by (apply sqrt_lt_R0; exact H3).
  assert (Hrho2 : rho * rho = three) by (apply sqrt_sqrt; lra).
  set (d := (40680631.6 * (40680631.6 * st * st)
             + 40408296.0 * (40408296.0 * ct * ct)) / three) in *.
  assert (Hd : d * three = 40680631.6 * (40680631.6 * st * st)
                           + 40408296.0 * (40408296.0 * ct * ct))
    by (unfold d; field; lra).
  assert (Hdlo : 40408296.0 <= d) by (unfold three in *; nra).
  assert (Hdhi : d <= 40680631.6) by (unfold three in *; nra).
  set (R2 := alt * (alt + 2.0 * rho) + d) in *.
  assert (HR2 : 0 < R2) by (unfold R2; nra).
  set (r := sqrt R2) in *.
  assert (Hr : 0 < r) by (apply sqrt_lt_R0; exact HR2).
  assert (Hr2 : r * r = R2) by (apply sqrt_sqrt; lra).
  rewrite (div_ok _ three) by lra. cbn [Py.bind]. fold d. fold R2. fold r.
  rewrite (div_ok _ r) by lra. cbn [Py.bind].
  rewrite (div_ok _ rho) by lra. cbn [Py.bind].
  rewrite (div_ok _ r) by lra. cbn [Py.bind].
  eexists. split; [reflexivity |].
  cbn [IGRF12.r IGRF12.cd IGRF12.sd IGRF12.ct IGRF12.st].
  split; [reflexivity |]. split; [exact Hr |].
  split; [| split; [reflexivity | split; [reflexivity |]]].
  - assert (Hid : three * three
                  + (40680631.6 - 40408296.0) * (40680631.6 - 40408296.0)
                    * (ct * ct) * (st * st)
                  = d * three).
    { rewrite Hd. unfold three.
      pose proof (ellipse_identity 40680631.6 40408296.0 (st * st) (ct * ct) Hc).
      lra. }
    assert (Hnum : (alt + rho) * (alt + rho)
                   + ((40680631.6 - 40408296.0) / rho * ct * st)
                     * ((40680631.6 - 40408296.0) / rho * ct * st)
                   = R2).
    { unfold R2.
      assert (E : ((40680631.6 - 40408296.0) / rho * ct * st)
                  * ((40680631.6 - 40408296.0) / rho * ct * st)
                  = d - three).
      { apply (Rmult_eq_reg_l three); [| lra].
        rewrite <- Hrho2 at 1.
        replace (rho * rho
                 * ((40680631.6 - 40408296.0) / rho * ct * st
                    * ((40680631.6 - 40408296.0) / rho * ct * st)))
          with ((40680631.6 - 40408296.0) * (40680631.6 - 40408296.0)
                * (ct * ct) * (st * st)) by (field; lra).
        lra. }
      rewrite E. nra. }
    replace ((alt + rho) / r * ((alt + rho) / r)
             + (40680631.6 - 40408296.0) / rho * ct * st / r
               * ((40680631.6 - 40408296.0) / rho * ct * st / r))
      with (((alt + rho) * (alt + rho)
             + ((40680631.6 - 40408296.0) / rho * ct * st)
               * ((40680631.6 - 40408296.0) / rho * ct * st)) / (r * r))
      by (field; lra).
    rewrite Hnum, Hr2. field. lra.
  - assert (Hb : 0 < sqrt 40408296.0) by (apply sqrt_lt_R0; lra).
    assert (Ha : 0 < sqrt 40680631.6) by (apply sqrt_lt_R0; lra).
    assert (Hb2 : sqrt 40408296.0 * sqrt 40408296.0 = 40408296.0)
      by (apply sqrt_sqrt; lra).
    assert (Ha2 : sqrt 40680631.6 * sqrt 40680631.6 = 40680631.6)
      by (apply sqrt_sqrt; lra).
    assert (Hrlo : sqrt 40408296.0 <= rho) by (apply sqrt_le_1_alt; lra).
    assert (Hrhi : rho <= sqrt 40680631.6) by (apply sqrt_le_1_alt; lra).
    split.
    + rewrite <- (sqrt_square (alt + sqrt 40408296.0)) by lra.
      apply sqrt_le_1_alt. unfold R2. nra.
    + rewrite <- (sqrt_square (alt + sqrt 40680631.6)) by lra.
      apply sqrt_le_1_alt. unfold R2. nra.
Qed.

(** ** IGRF12.py: degrees and minutes *)

Lemma int_floor (v : R) (z : Z) :
  (0 <= z)%Z -> IZR z <= v < IZR z + 1 -> Py.int v = z.
Proof.
  intros Hz [Hlo Hhi].
  assert (H0 : 0 <= IZR z) by (apply IZR_le; exact Hz).
  assert (H : (z <= Py.int v < z + 1)%Z).
  { apply int_range; [lra | exact Hlo | rewrite plus_IZR; lra]. }
  lia.
Qed.

Lemma int_neg_floor (v : R) (z : Z) :
  (0 <= z)%Z -> v < 0 -> IZR z <= - v < IZR z + 1 -> Py.int v = (- z)%Z.
Proof.
  intros Hz Hv [Hlo Hhi]. unfold Py.int.
  destruct (Rle_dec 0 v) as [H | _]; [lra |].
  f_equal. symmetry. apply Int_part_spec. lra.
Qed.

Lemma round_IZR (z : Z) : Py.round (IZR z) = z.
Proof.
  unfold Py.round.
  assert (E : Int_part (IZR z) = z) by (symmetry; apply Int_part_spec; lra).
  rewrite E. destruct (Rlt_dec (IZR z - IZR z) (1 / 2)); [reflexivity | lra].
Qed.

Lemma round_near (v : R) : Rabs (IZR (Py.round v) - v) <= 1 / 2.
Proof.
  unfold Py.round. destruct (base_Int_part v) as [H1 H2].
  destruct (Rlt_dec (v - IZR (Int_part v)) (1 / 2)) as [Ha | Ha].
  - apply Rabs_le. lra.
  - destruct (Rlt_dec (1 / 2) (v - IZR (Int_part v))) as [Hb | Hb].
    + rewrite plus_IZR. apply Rabs_le. lra.
    + destruct (Z.even (Int_part v)).
      * apply Rabs_le. lra.
      * rewrite plus_IZR. apply Rabs_le. lra.
Qed.

Lemma round_range (v : R) (a b : Z) :
  IZR a <= v <= IZR b -> (a <= Py.round v <= b)%Z.
Proof.
  intros [Hlo Hhi]. unfold Py.round. destruct (base_Int_part v) as [H1 H2].
  assert (Ha : (a <= Int_part v)%Z).
  { assert (H : IZR a < IZR (Int_part v + 1)) by (rewrite plus_IZR; lra).
    apply lt_IZR in H. lia. }
  assert (Hb : (Int_part v <= b)%Z) by (apply le_IZR; lra).
  destruct (Rlt_dec (v - IZR (Int_part v)) (1 / 2)); [lia |].
  assert (Hlt : (Int_part v < b)%Z).
  { apply lt_IZR. lra. }
  destruct (Rlt_dec (1 / 2) (v - IZR (Int_part v))); [lia |].
  destruct (Z.even (Int_part v)); lia.
Qed.

Lemma int_1_1 : Py.int (1 * 1.1) = 1%Z.
Proof. apply int_floor; [lia | lra]. Qed.

Lemma int_minus_1_1 : Py.int (-1 * 1.1) = (-1)%Z.
Proof. apply (int_neg_floor _ 1); [lia | lra | lra]. Qed.

Lemma int_0_1_1 : Py.int (0 * 1.1) = 0%Z.
Proof. replace (0 * 1.1) with (IZR 0) by lra. apply int_IZR. Qed.

Lemma sign_pos (v : R) : 0 < v -> Py.sign v = 1.
Proof. intros H. unfold Py.sign. destruct (Rlt_dec 0 v); [reflexivity | lra]. Qed.

Lemma sign_neg (v : R) : v < 0 -> Py.sign v = -1.
Proof.
  intros H. unfold Py.sign. destruct (Rlt_dec 0 v); [lra |].
  destruct (Rlt_dec v 0); [reflexivity | lra].
Qed.

Lemma sign_zero : Py.sign 0 = 0.
Proof.
  unfold Py.sign. destruct (Rlt_dec 0 0); [lra |]. destruct (Rlt_dec 0 0); lra.
Qed.

(** [DDECDM] on a non-negative angle whose minutes are a whole number. *)
Lemma DDECDM_magnitude (v : R) (d m : Z) :
  (0 <= d)%Z -> (0 <= m <= 59)%Z ->
  Rabs v = IZR d + IZR m / 60 ->
  IGRF12.DDECDM v
  = let ISIG := Py.int (Py.sign v * 1.1) in
    if negb (d =? 0)%Z then ((d * ISIG)%Z, m)
    else if negb (m =? 0)%Z then (d, (m * ISIG)%Z) else (d, m).
Proof.
  intros Hd Hm Hv. unfold IGRF12.DDECDM. rewrite Hv.
  assert (Hm' : 0 <= IZR m <= 59) by (split; apply IZR_le; lia).
  assert (Ei : Py.int (IZR d + IZR m / 60) = d) by (apply int_floor; [lia | lra]).
  rewrite Ei.
  replace (60.0 * (IZR d + IZR m / 60 - IZR d)) with (IZR m) by lra.
  rewrite round_IZR.
  assert (E60 : (m =? 60)%Z = false) by (apply Z.eqb_neq; lia).
  rewrite E60. reflexivity.
Qed.

Lemma DDECDM_DMDDEC (d m : Z) :
  (d <> 0%Z /\ (0 <= m <= 59)%Z) \/ (d = 0%Z /\ (-59 <= m <= 59)%Z) ->
  IGRF12.DDECDM (IGRF12.DMDDEC d m) = (d, m).
Proof.
  intros H. unfold IGRF12.DMDDEC.
  destruct H as [[Hd Hm] | [-> Hm]].
  - assert (Hm' : 0 <= IZR m <= 59) by (split; apply IZR_le; lia).
    destruct (Z.ltb_spec d 0) as [Hneg | Hpos].
    + assert (Hd' : IZR d <= -1) by (apply IZR_le; lia).
      rewrite (DDECDM_magnitude _ (- d) m); try lia.
      * rewrite sign_neg, int_minus_1_1 by (rewrite opp_IZR; lra).
        destruct (Z.eqb_spec (- d) 0); [lia |]. cbn [negb]. f_equal. lia.
      * rewrite Rabs_left by (rewrite opp_IZR; lra).
        rewrite !opp_IZR. lra.
    + assert (Hd' : 1 <= IZR d) by (apply IZR_le; lia).
      rewrite (DDECDM_magnitude _ d m); try lia.
      * rewrite sign_pos, int_1_1 by lra.
        destruct (Z.eqb_spec d 0); [lia |]. cbn [negb]. f_equal. lia.
      * rewrite Rabs_right by lra. lra.
  - change (0 <? 0)%Z with false. cbv iota.
    destruct (Z.lt_trichotomy m 0) as [Hneg | [-> | Hpos]].
    + assert (Hm' : -59 <= IZR m <= -1) by (split; apply IZR_le; lia).
      rewrite (DDECDM_magnitude _ 0 (- m)); try lia.
      * rewrite sign_neg, int_minus_1_1 by lra.
        destruct (Z.eqb_spec (- m) 0); [lia |]. cbn [negb Z.eqb]. f_equal. lia.
      * rewrite Rabs_left by lra. rewrite opp_IZR. lra.
    + rewrite (DDECDM_magnitude _ 0 0); try lia; [reflexivity |].
      replace (0 + 0 / 60.0) with 0 by lra. rewrite Rabs_R0. lra.
    + assert (Hm' : 1 <= IZR m <= 59) by (split; apply IZR_le; lia).
      rewrite (DDECDM_magnitude _ 0 m); try lia.
      * rewrite sign_pos, int_1_1 by lra.
        destruct (Z.eqb_spec m 0); [lia |]. cbn [negb Z.eqb]. f_equal. lia.
      * rewrite Rabs_right by lra. lra.
Qed.

Lemma abs_le_inv (a b : R) : Rabs a <= b -> - b <= a <= b.
Proof. unfold Rabs. destruct (Rcase_abs a); lra. Qed.

(** The degrees and minutes [DDECDM] finds for the magnitude of its
    argument, before the sign is put back. *)
Lemma DDECDM_unsigned (v : R) :
  exists d m : Z,
    (0 <= d)%Z /\ (0 <= m <= 59)%Z
    /\ Rabs (IZR d + IZR m / 60 - Rabs v) <= 1 / 120
    /\ IGRF12.DDECDM v
       = let ISIG := Py.int (Py.sign v * 1.1) in
         if negb (d =? 0)%Z then ((d * ISIG)%Z, m)
         else if negb (m =? 0)%Z then (d, (m * ISIG)%Z) else (d, m).
Proof.
  unfold IGRF12.DDECDM.
  pose proof (Rabs_pos v) as Hpos.
  set (DR := Rabs v) in *.
  assert (Ei : Py.int DR = Int_part DR).
  { unfold Py.int. destruct (Rle_dec 0 DR); [reflexivity | contradiction]. }
  rewrite Ei. destruct (base_Int_part DR) as [H1 H2].
  set (I0 := Int_part DR) in *.
  assert (HI0 : (0 <= I0)%Z).
  { assert (H : IZR (-1) < IZR I0) by lra. apply lt_IZR in H. lia. }
  pose proof (round_near (60.0 * (DR - IZR I0))) as Hnear.
  assert (Hrange : (0 <= Py.round (60.0 * (DR - IZR I0)) <= 60)%Z)
    by (apply round_range; lra).
  set (M0 := Py.round (60.0 * (DR - IZR I0))) in *.
  apply abs_le_inv in Hnear.
  destruct (Z.eqb_spec M0 60) as [E60 | N60].
  - exists (I0 + 1)%Z, 0%Z. rewrite E60 in Hnear.
    split; [lia |]. split; [lia |]. split; [| reflexivity].
    rewrite plus_IZR. apply Rabs_le. lra.
  - exists I0, M0. split; [lia |]. split; [lia |]. split; [| reflexivity].
    apply Rabs_le. lra.
Qed.

(** ** IGRF12.py: the layout of the coefficient table *)

Lemma flat_length_low (c i : nat) :
  (i + c <= 19)%nat -> Observed.flat_length i c = (120 * c)%nat.
Proof.
  revert i. induction c as [| c IH]; intros i H; [reflexivity |].
  cbn [Observed.flat_length].
  assert (E : (i <? 19)%nat = true) by (apply Nat.ltb_lt; lia).
  rewrite E, IH by lia. lia.
Qed.

Lemma flat_length_high (c i : nat) :
  (19 <= i)%nat -> Observed.flat_length i c = (195 * c)%nat.
Proof.
  revert i. induction c as [| c IH]; intros i H; [reflexivity |].
  cbn [Observed.flat_length].
  assert (E : (i <? 19)%nat = false) by (apply Nat.ltb_ge; lia).
  rewrite E, IH by lia. lia.
Qed.

Lemma flat_length_add (a b i : nat) :
  Observed.flat_length i (a + b)
  = (Observed.flat_length i a + Observed.flat_length (i + a) b)%nat.
Proof.
  revert i. induction a as [| a IH]; intros i.
  - cbn. rewrite Nat.add_0_r. reflexivity.
  - cbn [Nat.add Observed.flat_length]. rewrite IH.
    replace (S i + a)%nat with (i + S a)%nat by lia. lia.
Qed.

(** Where [flatten] puts entry [j] of column [c]. *)
Lemma flatten_nth (cols : list (list R)) :
  Forall (fun col => List.length col = 195%nat) cols ->
  forall (i : nat) (gh : list R),
    IGRF12.flatten i cols = Py.Ok gh ->
    forall c j : nat,
      (c < List.length cols)%nat ->
      (j < (if (i + c <? 19)%nat then 120 else 195))%nat ->
      nth (Observed.flat_length i c + j) gh 0 = nth j (nth c cols []) 0.
Proof.
  induction 1 as [| col rest Hcol Hrest IH]; intros i gh Hgh c j Hc Hj.
  - cbn in Hc. lia.
  - cbn [IGRF12.flatten] in Hgh.
    destruct (flatten_length rest Hrest (S i)) as (tail & Etail & Ltail).
    rewrite Etail in Hgh. unfold IGRF12.first120 in Hgh.
    assert (E120 : (120 <=? List.length col)%nat = true)
      by (apply Nat.leb_le; lia).
    rewrite E120 in Hgh.
    destruct c as [| c].
    + rewrite Nat.add_0_r in Hj. cbn [Observed.flat_length nth Nat.add].
      destruct (i <? 19)%nat; cbn [Py.bind] in Hgh.
      * assert (Eg : gh = firstn 120 col ++ tail) by congruence. subst gh.
        rewrite app_nth1 by (rewrite firstn_length_le; lia).
        rewrite nth_firstn.
        assert (E : (j <? 120)%nat = true) by (apply Nat.ltb_lt; lia).
        rewrite E. reflexivity.
      * assert (Eg : gh = col ++ tail) by congruence. subst gh.
        rewrite app_nth1 by lia. reflexivity.
    + cbn [Observed.flat_length nth]. cbn [List.length] in Hc.
      replace (i + S c)%nat with (S i + c)%nat in Hj by lia.
      rewrite <- (IH (S i) tail Etail c j) by (try lia; exact Hj).
      destruct (i <? 19)%nat; cbn [Py.bind] in Hgh.
      * assert (Eg : gh = firstn 120 col ++ tail) by congruence. subst gh.
        rewrite <- Nat.add_assoc.
        assert (Hf : List.length (firstn 120 col) = 120%nat)
          by (rewrite firstn_length_le; lia).
        rewrite <- Hf at 1. apply app_nth2_plus.
      * assert (Eg : gh = col ++ tail) by congruence. subst gh.
        rewrite <- Nat.add_assoc. rewrite <- Hcol at 1. apply app_nth2_plus.
Qed.

Lemma nth_nil_R (c : nat) : nth c (@nil R) 0 = 0.
Proof. destruct c; reflexivity. Qed.

Lemma column_nth (rows : list (list R)) (c j : nat) :
  nth j (IGRF12.column rows c) 0 = nth c (nth j rows []) 0.
Proof.
  unfold IGRF12.column. revert j.
  induction rows as [| row rest IH]; intros [| j]; cbn [map nth].
  - destruct c; reflexivity.
  - destruct c; reflexivity.
  - reflexivity.
  - apply IH.
Qed.

Lemma transpose_nth (rows : list (list R)) (c j : nat) :
  List.length rows = 195%nat ->
  Forall (fun row => List.length row = 25%nat) rows ->
  (c < 25)%nat ->
  nth j (nth c (IGRF12.transpose rows) []) 0 = nth c (nth j rows []) 0.
Proof.
  intros Hlen Hrows Hc. destruct rows as [| row rest]; [discriminate |].
  unfold IGRF12.transpose.
  assert (Hrow : List.length row = 25%nat) by (inversion Hrows; assumption).
  rewrite Hrow.
  rewrite (nth_indep _ [] (IGRF12.column (row :: rest) 0))
    by (rewrite length_map, length_seq; exact Hc).
  rewrite map_nth, seq_nth by exact Hc. cbn [Nat.add].
  apply column_nth.
Qed.

Lemma loadCoeffs_layout (w : IGRF12.world) (text : list IGRF12.line) :
  IGRF12.files w "igrf12coeffs.txt" = Some text ->
  Observed.published text ->
  let rows := map IGRF12.fields (filter IGRF12.is_coeff_line text) in
  exists gh,
    fst (IGRF12.loadCoeffs "igrf12coeffs.txt" w) = Py.Ok gh
    /\ List.length gh = 3451%nat
    /\ (forall i j : nat,
           (i < 19)%nat -> (j < 120)%nat ->
           nth (120 * i + j) gh 0 = nth i (nth j rows []) 0)
    /\ (forall i j : nat,
           (19 <= i < 25)%nat -> (j < 195)%nat ->
           nth (2280 + 195 * (i - 19) + j) gh 0 = nth i (nth j rows []) 0)
    /\ nth 3450 gh 0 = 0.
Proof.
  intros Hfile [Hcount Hrows]. cbv zeta. unfold IGRF12.loadCoeffs.
  rewrite Hfile.
  set (rows := map IGRF12.fields (filter IGRF12.is_coeff_line text)).
  assert (Hlen : List.length rows = 195%nat)
    by (unfold rows; rewrite length_map; exact Hcount).
  assert (Hall : Forall (fun row => List.length row = 25%nat) rows)
    by (unfold rows; apply Forall_map; exact Hrows).
  destruct (transpose_published rows Hlen Hall) as [Hn Hcols].
  destruct (flatten_length _ Hcols 0%nat) as (gh & Egh & Lgh).
  rewrite Egh. cbn [fst].
  rewrite Hn in Lgh. change (Observed.flat_length 0 25) with 3450%nat in Lgh.
  exists (gh ++ [0]). split; [reflexivity |].
  split; [rewrite length_app, Lgh; reflexivity |].
  split; [| split].
  - intros i j Hi Hj.
    rewrite app_nth1 by lia.
    rewrite <- (flat_length_low i 0) by lia.
    rewrite (flatten_nth _ Hcols 0%nat gh Egh i j).
    + apply transpose_nth; try assumption. lia.
    + lia.
    + cbn [Nat.add].
      assert (E : (i <? 19)%nat = true) by (apply Nat.ltb_lt; lia).
      rewrite E. exact Hj.
  - intros i j Hi Hj.
    rewrite app_nth1 by lia.
    assert (Eoff : Observed.flat_length 0 i = (2280 + 195 * (i - 19))%nat).
    { replace i with (19 + (i - 19))%nat at 1 by lia.
      rewrite flat_length_add, (flat_length_low 19 0) by lia.
      cbn [Nat.add]. rewrite flat_length_high by lia. lia. }
    rewrite <- Eoff.
    rewrite (flatten_nth _ Hcols 0%nat gh Egh i j).
    + apply transpose_nth; try assumption. lia.
    + lia.
    + cbn [Nat.add].
      assert (E : (i <? 19)%nat = false) by (apply Nat.ltb_ge; lia).
      rewrite E. exact Hj.
  - rewrite <- Lgh. apply nth_middle.
Qed.

(** ** IGRF12.py: a coefficient file that cannot be used *)

Lemma loadCoeffs_short_file (w : IGRF12.world) (text : list IGRF12.line) :
  IGRF12.files w "igrf12coeffs.txt" = Some text ->
  let rows := map IGRF12.fields (filter IGRF12.is_coeff_line text) in
  (0 < List.length rows < 120)%nat ->
  (0 < List.length (hd [] rows))%nat ->
  IGRF12.loadCoeffs "igrf12coeffs.txt" w
  = (Py.Raise Py.IndexError,
     IGRF12.emit (IGRF12.Opened "igrf12coeffs.txt") w).
Proof.
  intros Hfile rows Hlen Hhd. unfold IGRF12.loadCoeffs. rewrite Hfile.
  fold rows. destruct rows as [| row rest] eqn:E; [cbn in Hlen; lia |].
  cbn [hd] in Hhd. unfold IGRF12.transpose.
  destruct (List.length row) as [| n] eqn:En; [lia |].
  cbn [seq map IGRF12.flatten]. unfold IGRF12.first120 at 1.
  change (0 <? 19)%nat with true. cbv iota.
  assert (Hc : (120 <=? List.length (IGRF12.column (row :: rest) 0))%nat
               = false).
  { apply Nat.leb_gt. unfold IGRF12.column. rewrite length_map. lia. }
  rewrite Hc. reflexivity.
Qed.

Lemma igrf12syn_short_file (isv : Z) (date : R) (itype : Z)
      (alt colat elong : R) (w : IGRF12.world) (text : list IGRF12.line) :
  IGRF12.files w "igrf12coeffs.txt" = Some text ->
  let rows := map IGRF12.fields (filter IGRF12.is_coeff_line text) in
  (0 < List.length rows < 120)%nat ->
  (0 < List.length (hd [] rows))%nat ->
  IGRF12.igrf12syn isv date itype alt colat elong w
  = (Py.Raise Py.IndexError,
     IGRF12.emit (IGRF12.Opened "igrf12coeffs.txt") w).
Proof.
  intros Hfile rows Hlen Hhd. unfold IGRF12.igrf12syn.
  rewrite (loadCoeffs_short_file w text Hfile Hlen Hhd). reflexivity.
Qed.

Lemma loadCoeffs_no_rows (w : IGRF12.world) (text : list IGRF12.line) :
  IGRF12.files w "igrf12coeffs.txt" = Some text ->
  filter IGRF12.is_coeff_line text = [] ->
  IGRF12.loadCoeffs "igrf12coeffs.txt" w
  = (Py.Ok [0],
     IGRF12.emit (IGRF12.Printed (IGRF12.MsgLength 1))
       (IGRF12.emit (IGRF12.Opened "igrf12coeffs.txt") w)).
Proof.
  intros Hfile Hnone. unfold IGRF12.loadCoeffs. rewrite Hfile, Hnone.
  reflexivity.
Qed.

Lemma get_singleton_far (v : R) (i : Z) :
  (1 <= i)%Z -> Py.get [v] i = Py.Raise Py.IndexError.
Proof.
  intros H. unfold Py.get, Py.index. cbn [List.length].
  assert (E1 : ((0 <=? i)%Z && (i <? Z.of_nat 1)%Z)%bool = false).
  { apply andb_false_iff. right. apply Z.ltb_ge. lia. }
  assert (E2 : ((- Z.of_nat 1 <=? i)%Z && (i <? 0)%Z)%bool = false).
  { apply andb_false_iff. right. apply Z.ltb_ge. lia. }
  rewrite E1, E2. reflexivity.
Qed.

Lemma coefficient_singleton (v : R) (e : IGRF12.epoch) (l : Z) :
  0 <= IGRF12.ll e -> (1 <= IGRF12.nc e)%Z -> (1 <= l)%Z ->
  IGRF12.coefficient [v] e (IGRF12.ll e + IZR l) (-1)
  = Py.Raise Py.IndexError.
Proof.
  intros Hll Hnc Hl. unfold IGRF12.coefficient.
  assert (Hl' : 1 <= IZR l) by (apply IZR_le; lia).
  assert (Hn' : 1 <= IZR (IGRF12.nc e)) by (apply IZR_le; lia).
  destruct (get_cases [v] (Py.int (IGRF12.ll e + IZR l) + -1))
    as [[a ->] | ->]; [| reflexivity].
  cbn [Py.bind].
  assert (H2 : (2 <= Py.int (IGRF12.ll e + IZR l + IZR (IGRF12.nc e)))%Z).
  { destruct (base_Int_part (IGRF12.ll e + IZR l + IZR (IGRF12.nc e)))
      as [H1 H2].
    unfold Py.int. destruct (Rle_dec 0 _) as [_ | N]; [| lra].
    assert (H : IZR 1 < IZR (Int_part (IGRF12.ll e + IZR l
                                       + IZR (IGRF12.nc e)))) by lra.
    apply lt_IZR in H. lia. }
  rewrite get_singleton_far by lia. reflexivity.
Qed.

Lemma range_2_66 : Py.range 2 66 = 2%Z :: 3%Z :: Py.range 4 66.
Proof. vm_compute. reflexivity. Qed.

Lemma range_2_105 : Py.range 2 105 = 2%Z :: 3%Z :: Py.range 4 105.
Proof. vm_compute. reflexivity. Qed.

(** With a one-entry table the recurrence stops at its first coefficient. *)
Lemma synthesize_singleton (v : R) (isv : Z) (date : R) (itype : Z)
      (alt colat elong : R) (reduced : bool) (e : IGRF12.epoch) :
  1900 <= date <= 2025 ->
  IGRF12.resolve isv date = IGRF12.Resolved reduced e ->
  Observed.documented itype alt ->
  IGRF12.synthesize [v] e itype alt colat elong = Py.Raise Py.IndexError.
Proof.
  intros Hdate He Hdom.
  destruct (resolve_in_range isv date Hdate)
    as (reduced' & e' & He' & Hll & Hnc & Hnc0 & Hk).
  rewrite He in He'. injection He' as _ <-.
  assert (Hnc1 : (1 <= IGRF12.nc e)%Z).
  { unfold IGRF12.resolve in He.
    rewrite ltb_false, gtb_false in He by lra. cbn [orb] in He.
    destruct (Py.geb date 2015.0); [| destruct (Py.ltb date 1995.0)];
      destruct (isv =? 1)%Z; injection He as _ <-; cbn; lia. }
  unfold IGRF12.synthesize.
  destruct (prepare_ok itype alt colat Hdom) as (fr & -> & Hr).
  cbn [Py.bind]. rewrite (div_ok _ _ Hr). cbn [Py.bind].
  assert (Hloop : forall rest,
    IGRF12.for_each (2%Z :: 3%Z :: rest)
      (IGRF12.body [v] e (IGRF12.ct fr) (IGRF12.st fr) (6371.2 / IGRF12.r fr))
      (IGRF12.initial elong fr (6371.2 / IGRF12.r fr))
    = Py.Raise Py.IndexError).
  { intros rest. cbn [IGRF12.for_each].
    unfold IGRF12.body at 1.
    cbn [IGRF12.initial IGRF12.n IGRF12.m IGRF12.l IGRF12.p IGRF12.q
         IGRF12.cl IGRF12.sl IGRF12.x IGRF12.y IGRF12.z IGRF12.rr
         IGRF12.fn IGRF12.gn].
    change (0 >=? 1)%Z with false. cbv iota. cbn [Py.bind].
    unfold IGRF12.body at 1.
    cbn [IGRF12.n IGRF12.m IGRF12.l].
    change (0 + 1 >=? 0 + 1)%Z with true. cbv iota.
    change (negb (0 + 1 =? 0 + 1)%Z) with false. cbv iota.
    change (negb (3 =? 3)%Z) with false. cbv iota. cbn [Py.bind IGRF12.l].
    rewrite (coefficient_singleton v e 1 Hll Hnc1) by lia.
    reflexivity. }
  destruct Hk as [-> | ->].
  - rewrite range_2_66, Hloop. reflexivity.
  - rewrite range_2_105, Hloop. reflexivity.
Qed.

(** ** IGRF12.py: which coefficients an epoch resolves to *)

(** Reading the table at a whole position. *)
Lemma coefficient_at (gh : list R) (e : IGRF12.epoch) (base l off : Z) :
  IGRF12.ll e = IZR base ->
  (0 <= base + l + off)%Z ->
  (base + l + IGRF12.nc e + off < Z.of_nat (List.length gh))%Z ->
  (0 <= IGRF12.nc e)%Z ->
  IGRF12.coefficient gh e (IGRF12.ll e + IZR l) off
  = Py.Ok (IGRF12.tc e * nth (Z.to_nat (base + l + off)) gh 0
           + IGRF12.t e
             * nth (Z.to_nat (base + l + IGRF12.nc e + off)) gh 0).
Proof.
  intros Hll H0 H1 Hnc. unfold IGRF12.coefficient. rewrite Hll.
  rewrite <- !plus_IZR, !int_IZR.
  rewrite !get_ok by lia. reflexivity.
Qed.

Lemma resolve_from_2015 (isv : Z) (date : R) :
  2015 <= date <= 2025 ->
  exists reduced e,
    IGRF12.resolve isv date = IGRF12.Resolved reduced e
    /\ IGRF12.ll e = 3060 /\ IGRF12.nc e = 195%Z
    /\ IGRF12.nmx e = 13%Z /\ IGRF12.kmx e = 105
    /\ (isv = 1%Z -> IGRF12.tc e = 0 /\ IGRF12.t e = 1)
    /\ (isv <> 1%Z -> IGRF12.tc e = 1 /\ IGRF12.t e = date - 2015)
    /\ (reduced = true <-> 2020 < date).
Proof.
  intros [Hlo Hhi]. unfold IGRF12.resolve.
  rewrite ltb_false, gtb_false, geb_true by lra. cbn [orb].
  assert (Hred : Py.gtb date 2020.0 = true <-> 2020 < date).
  { unfold Py.gtb. destruct (Rgt_dec date 2020.0); split; intros;
      try reflexivity; try discriminate; lra. }
  destruct (Z.eqb_spec isv 1) as [-> | N]; do 2 eexists;
    (split; [reflexivity |]);
    cbn [IGRF12.ll IGRF12.nc IGRF12.nmx IGRF12.kmx IGRF12.tc IGRF12.t];
    change (IZR ((13 + 1) * (13 + 2))) with 210;
    repeat split; try reflexivity; try lra; try apply Hred; try lia;
    try contradiction.
Qed.

Lemma resolve_tabulated_120 (isv i : Z) :
  (0 <= i < 19)%Z ->
  exists e,
    IGRF12.resolve isv (1900 + 5 * IZR i) = IGRF12.Resolved false e
    /\ IGRF12.ll e = IZR (120 * i) /\ IGRF12.nc e = 120%Z
    /\ IGRF12.nmx e = 10%Z /\ IGRF12.kmx e = 66
    /\ (isv = 1%Z -> IGRF12.tc e = - 0.2 /\ IGRF12.t e = 0.2)
    /\ (isv <> 1%Z -> IGRF12.tc e = 1 /\ IGRF12.t e = 0).
Proof.
  intros [Hlo Hhi].
  assert (H0 : 0 <= IZR i) by (apply IZR_le; lia).
  assert (H18 : IZR i <= 18) by (apply IZR_le; lia).
  unfold IGRF12.resolve.
  rewrite ltb_false, gtb_false, geb_false, ltb_true by lra. cbn [orb].
  destruct (Z.eqb_spec isv 1) as [-> | N]; eexists;
    (split; [reflexivity |]);
    cbn [IGRF12.ll IGRF12.nc IGRF12.nmx IGRF12.kmx IGRF12.tc IGRF12.t];
    change (IZR (10 * (10 + 2))) with 120;
    change (IZR ((10 + 1) * (10 + 2))) with 132;
    rewrite mult_IZR;
    repeat split; try reflexivity; try lra; try lia; try contradiction.
Qed.

Lemma resolve_tabulated_195 (isv i : Z) :
  (0 <= i < 4)%Z ->
  exists e,
    IGRF12.resolve isv (1995 + 5 * IZR i) = IGRF12.Resolved false e
    /\ IGRF12.ll e = IZR (2280 + 195 * i) /\ IGRF12.nc e = 195%Z
    /\ IGRF12.nmx e = 13%Z /\ IGRF12.kmx e = 105
    /\ (isv = 1%Z -> IGRF12.tc e = - 0.2 /\ IGRF12.t e = 0.2)
    /\ (isv <> 1%Z -> IGRF12.tc e = 1 /\ IGRF12.t e = 0).
Proof.
  intros [Hlo Hhi].
  assert (H0 : 0 <= IZR i) by (apply IZR_le; lia).
  assert (H3 : IZR i <= 3) by (apply IZR_le; lia).
  unfold IGRF12.resolve.
  rewrite ltb_false, gtb_false, geb_false, ltb_false by lra. cbn [orb].
  destruct (Z.eqb_spec isv 1) as [-> | N]; eexists;
    (split; [reflexivity |]);
    cbn [IGRF12.ll IGRF12.nc IGRF12.nmx IGRF12.kmx IGRF12.tc IGRF12.t];
    change (IZR (13 * (13 + 2))) with 195;
    change (IZR ((13 + 1) * (13 + 2))) with 210;
    change (IZR (120 * 19)) with 2280;
    rewrite plus_IZR, mult_IZR;
    repeat split; try reflexivity; try lra; try lia; try contradiction.
Qed.

Lemma resolve_sv_from_2015 (date : R) :
  2015 <= date <= 2025 ->
  exists reduced,
    IGRF12.resolve 1 date
    = IGRF12.Resolved reduced
        (IGRF12.mkEpoch 1.0 0.0 3060 13 (13 * (13 + 2))
           (IZR ((13 + 1) * (13 + 2)) / 2)).
Proof.
  intros [Hlo Hhi]. unfold IGRF12.resolve.
  rewrite ltb_false, gtb_false, geb_true by lra. cbn [orb Z.eqb Pos.eqb].
  eexists. reflexivity.
Qed.

Lemma resolve_reduced (isv : Z) (date : R) (reduced : bool)
      (e : IGRF12.epoch) :
  IGRF12.resolve isv date = IGRF12.Resolved reduced e ->
  (reduced = true <-> 2020 < date).
Proof.
  unfold IGRF12.resolve.
  destruct (Py.ltb date 1900.0 || Py.gtb date 2025.0)%bool; [discriminate |].
  destruct (Py.geb date 2015.0) eqn:G.
  - destruct (isv =? 1)%Z; intros H; injection H as <- _;
      unfold Py.gtb; destruct (Rgt_dec date 2020.0); split; intros;
        try reflexivity; try discriminate; lra.
  - unfold Py.geb in G. destruct (Rge_dec date 2015.0); [discriminate |].
    destruct (Py.ltb date 1995.0); destruct (isv =? 1)%Z;
      intros H; injection H as <- _; split; intros; try discriminate; lra.
Qed.

(** ** IGRF12.py: the frame restoration *)

Lemma prepare_spec (itype : Z) (alt colat : R) :
  Observed.documented itype alt ->
  exists fr,
    IGRF12.prepare itype alt colat = Py.Ok fr
    /\ 0 < IGRF12.r fr
    /\ IGRF12.cd fr * IGRF12.cd fr + IGRF12.sd fr * IGRF12.sd fr = 1
    /\ IGRF12.ct fr * IGRF12.ct fr + IGRF12.st fr * IGRF12.st fr = 1.
Proof.
  intros [[-> Halt] | [-> Halt]]; unfold IGRF12.prepare; cbn [Z.eqb Pos.eqb].
  - destruct (geodetic_reduction_spec alt (colat / IGRF12.FACT) Halt)
      as (fr & E & _ & Hr & Hu & Ect & Est & _).
    exists fr. split; [exact E |]. split; [exact Hr |]. split; [exact Hu |].
    rewrite Ect, Est.
    pose proof (unit_circle (colat / IGRF12.FACT)) as Hc.
    set (c := cos (colat / IGRF12.FACT)) in *.
    set (s := sin (colat / IGRF12.FACT)) in *.
    replace ((c * IGRF12.cd fr - s * IGRF12.sd fr)
             * (c * IGRF12.cd fr - s * IGRF12.sd fr)
             + (s * IGRF12.cd fr + c * IGRF12.sd fr)
               * (s * IGRF12.cd fr + c * IGRF12.sd fr))
      with ((s * s + c * c)
            * (IGRF12.cd fr * IGRF12.cd fr + IGRF12.sd fr * IGRF12.sd fr))
      by ring.
    rewrite Hc, Hu. ring.
  - eexists. split; [reflexivity |].
    cbn [IGRF12.r IGRF12.cd IGRF12.sd IGRF12.ct IGRF12.st].
    split; [lra |]. split; [lra |].
    pose proof (unit_circle (colat / IGRF12.FACT)). lra.
Qed.

Lemma synthesize_frame (gh : list R) (isv : Z) (date : R) (itype : Z)
      (alt colat elong : R) (reduced : bool) (e : IGRF12.epoch) :
  List.length gh = 3451%nat ->
  1900 <= date <= 2025 ->
  IGRF12.resolve isv date = IGRF12.Resolved reduced e ->
  Observed.documented itype alt ->
  exists fr s x z,
    IGRF12.prepare itype alt colat = Py.Ok fr
    /\ IGRF12.for_each (Py.range 2 (Py.int (IGRF12.kmx e)))
         (IGRF12.body gh e (IGRF12.ct fr) (IGRF12.st fr)
            (6371.2 / IGRF12.r fr))
         (IGRF12.initial elong fr (6371.2 / IGRF12.r fr))
       = Py.Ok s
    /\ IGRF12.synthesize gh e itype alt colat elong
       = Py.Ok (x, IGRF12.y s, z,
                sqrt (IGRF12.x s * IGRF12.x s + IGRF12.y s * IGRF12.y s
                      + IGRF12.z s * IGRF12.z s))
    /\ x * x + z * z = IGRF12.x s * IGRF12.x s + IGRF12.z s * IGRF12.z s
    /\ (itype = 2%Z -> x = IGRF12.x s /\ z = IGRF12.z s).
Proof.
  intros Hgh Hdate He Hdom.
  destruct (resolve_in_range isv date Hdate)
    as (reduced' & e' & He' & Hll & Hnc & Hnc0 & Hk).
  rewrite He in He'. injection He' as _ <-.
  unfold IGRF12.synthesize.
  destruct (prepare_spec itype alt colat Hdom) as (fr & Efr & Hr & Hu & _).
  rewrite Efr. cbn [Py.bind].
  assert (Nr : IGRF12.r fr <> 0) by lra.
  rewrite (div_ok _ _ Nr). cbn [Py.bind].
  destruct (for_each_ok gh e (IGRF12.ct fr) (IGRF12.st fr)
              (6371.2 / IGRF12.r fr) (Py.range 2 (Py.int (IGRF12.kmx e)))
              Hgh Hll Hnc Hnc0
              (IGRF12.initial elong fr (6371.2 / IGRF12.r fr))
              (initial_shaped _ _ _)) as [s Es].
  - change (Skeleton.of_state (IGRF12.initial elong fr (6371.2 / IGRF12.r fr)))
      with (1, 1, 0)%Z.
    destruct Hk as [-> | ->]; [apply skeleton_safe_66 | apply skeleton_safe_105].
  - rewrite Es. cbn [Py.bind].
    set (x' := IGRF12.x s * IGRF12.cd fr + IGRF12.z s * IGRF12.sd fr).
    set (z' := IGRF12.z s * IGRF12.cd fr - IGRF12.x s * IGRF12.sd fr).
    assert (Hrot : x' * x' + z' * z'
                   = IGRF12.x s * IGRF12.x s + IGRF12.z s * IGRF12.z s).
    { unfold x', z'.
      replace (_ + _) with
        ((IGRF12.x s * IGRF12.x s + IGRF12.z s * IGRF12.z s)
         * (IGRF12.cd fr * IGRF12.cd fr + IGRF12.sd fr * IGRF12.sd fr))
        by ring.
      rewrite Hu. ring. }
    exists fr, s, x', z'. split; [reflexivity |]. split; [exact Es |].
    split; [| split; [exact Hrot |]].
    + f_equal. f_equal. f_equal. lra.
    + intros ->. unfold IGRF12.prepare in Efr. cbn [Z.eqb Pos.eqb] in Efr.
      injection Efr as <-. unfold x', z'. cbn [IGRF12.cd IGRF12.sd].
      split; lra.
Qed.

(** ** IGRF12.py: the order [m] in the recurrence *)

(** Taking a successful sequence of steps apart, one step at a time. *)
Ltac bind_inv H :=
  repeat
    match type of H with
    | Py.bind ?c _ = Py.Ok _ =>
        let v := fresh "v" in
        let E := fresh "E" in
        destruct c as [v |] eqn:E; cbn [Py.bind] in H; [| discriminate H]
    end.

Lemma legendre_off_diagonal_ctl (ct st : R) (k : Z) (s s1 : IGRF12.state) :
  IGRF12.legendre_off_diagonal ct st k s = Py.Ok s1 ->
  Skeleton.of_state s1 = Skeleton.of_state s.
Proof.
  unfold IGRF12.legendre_off_diagonal. intros H. bind_inv H.
  injection H as <-. reflexivity.
Qed.

Lemma legendre_diagonal_ctl (ct st : R) (k fm : Z) (s s1 : IGRF12.state) :
  IGRF12.legendre_diagonal ct st k fm s = Py.Ok s1 ->
  Skeleton.of_state s1 = Skeleton.of_state s.
Proof.
  unfold IGRF12.legendre_diagonal. intros H. bind_inv H.
  injection H as <-. reflexivity.
Qed.

(** A pass entered with [m >= 1] skips the zonal statements and moves
    [(l, m, n)] to [(l + 2, m + 1, n)] or to [(l, 1, n + 1)]. *)
Lemma body_ctl (gh : list R) (e : IGRF12.epoch) (ct st ratio : R)
      (k : Z) (s s' : IGRF12.state) :
  (1 <= IGRF12.m s)%Z ->
  IGRF12.body gh e ct st ratio k s = Py.Ok s' ->
  Skeleton.of_state s'
  = (if (IGRF12.n s >=? IGRF12.m s)%Z
     then (IGRF12.l s + 2, IGRF12.m s + 1, IGRF12.n s)%Z
     else (IGRF12.l s, 1, IGRF12.n s + 1)%Z).
Proof.
  intros Hm H. unfold IGRF12.body in H.
  destruct (IGRF12.n s >=? IGRF12.m s)%Z.
  - destruct (if negb (IGRF12.m s =? IGRF12.n s)%Z
              then IGRF12.legendre_off_diagonal ct st k s
              else if negb (k =? 3)%Z
                   then IGRF12.legendre_diagonal ct st k (IGRF12.m s) s
                   else Py.Ok s) as [s1 |] eqn:Estage;
      cbn [Py.bind] in H; [| discriminate H].
    assert (Hctl : Skeleton.of_state s1 = Skeleton.of_state s).
    { destruct (negb (IGRF12.m s =? IGRF12.n s)%Z).
      - exact (legendre_off_diagonal_ctl _ _ _ _ _ Estage).
      - destruct (negb (k =? 3)%Z).
        + exact (legendre_diagonal_ctl _ _ _ _ _ _ Estage).
        + injection Estage as <-. reflexivity. }
    unfold Skeleton.of_state in Hctl. injection Hctl as El Em En.
    destruct (IGRF12.coefficient gh e (IGRF12.ll e + IZR (IGRF12.l s1)) (-1))
      as [g |]; cbn [Py.bind] in H; [| discriminate H].
    assert (E0 : (IGRF12.m s1 =? 0)%Z = false) by (apply Z.eqb_neq; lia).
    rewrite E0 in H. cbn [Py.bind] in H.
    bind_inv H. injection H as <-.
    unfold Skeleton.of_state. cbn [IGRF12.l IGRF12.m IGRF12.n].
    rewrite El, Em, En. reflexivity.
  - injection H as <-. unfold Skeleton.of_state.
    cbn [IGRF12.l IGRF12.m IGRF12.n]. f_equal. 
Qed.

Lemma for_each_order (gh : list R) (e : IGRF12.epoch) (ct st ratio : R)
      (ks : list Z) :
  forall s s',
    (1 <= IGRF12.m s)%Z ->
    IGRF12.for_each ks (IGRF12.body gh e ct st ratio) s = Py.Ok s' ->
    (1 <= IGRF12.m s')%Z.
Proof.
  induction ks as [| k rest IH]; intros s s' Hm H.
  - injection H as <-. exact Hm.
  - cbn [IGRF12.for_each] in H.
    destruct (IGRF12.body gh e ct st ratio k s) as [s1 |] eqn:E;
      cbn [Py.bind] in H; [| discriminate H].
    apply (IH s1 s'); [| exact H].
    pose proof (body_ctl gh e ct st ratio k s s1 Hm E) as Hctl.
    unfold Skeleton.of_state in Hctl.
    destruct (IGRF12.n s >=? IGRF12.m s)%Z; injection Hctl as _ Em _; lia.
Qed.

(** ** apex.py: more on one call of itrace *)

Ltac shaped_goal :=
  unfold Tracer.shaped;
  cbn [Apex.Y Apex.YOLD Apex.YAPX Apex.YP List.length];
  repeat split; repeat constructor.

Ltac explicit_arrays a Hs :=
  destruct (shaped_explicit a Hs) as
    (?y0 & ?y1 & ?y2 & ?o0 & ?o1 & ?o2 & ?a00 & ?a01 & ?a02 & ?a10 & ?a11
     & ?a12 & ?a20 & ?a21 & ?a22 & ?p00 & ?p01 & ?p02 & ?p03 & ?p10 & ?p11
     & ?p12 & ?p13 & ?p20 & ?p21 & ?p22 & ?p23 & ->).

(** The step counters that select a branch of the bootstrap. *)
Lemma step_cases (NSTP : Z) :
  (NSTP = 1 \/ NSTP = 2 \/ NSTP = 3 \/ NSTP = 4 \/ NSTP = 5 \/ NSTP = 6
   \/ NSTP = 7 \/ (NSTP <= 0) \/ 8 <= NSTP)%Z.
Proof. lia. Qed.

Ltac no_branch NSTP H :=
  repeat match goal with
    | |- context [(NSTP =? ?c)%Z] =>
        let E' := fresh "E" in
        assert (E' : (NSTP =? c)%Z = false) by (apply Z.eqb_neq; lia);
        rewrite E'; clear E'
    end.

Lemma itrace_shaped (a : Apex.arrays) (BX BY BZ BB SGN DS : R) (NSTP : Z) :
  Tracer.shaped a ->
  Tracer.shaped (snd (Apex.itrace a BX BY BZ BB SGN DS NSTP)).
Proof.
  intros Hs. explicit_arrays a Hs. unfold Apex.itrace.
  destruct (step_cases NSTP)
    as [-> | [-> | [-> | [-> | [-> | [-> | [-> | [H0 | H8]]]]]]]].
  - trace_compute. shaped_goal.
  - trace_compute. shaped_goal.
  - trace_compute. shaped_goal.
  - trace_compute. shaped_goal.
  - trace_compute. shaped_goal.
  - trace_compute. split_on_flag; trace_compute; shaped_goal.
  - trace_compute. split_on_flag; trace_compute; shaped_goal.
  - assert (E : (NSTP <=? 7)%Z = true) by (apply Z.leb_le; lia).
    rewrite E. unfold Apex.for_I, Apex.bootstrap.
    no_branch NSTP H0. trace_compute. shaped_goal.
  - assert (E : (NSTP <=? 7)%Z = false) by (apply Z.leb_gt; lia).
    rewrite E. trace_compute. split_on_flag; trace_compute; shaped_goal.
Qed.

(** The steady state, [NSTP > 7]. *)
Lemma itrace_adams (a : Apex.arrays) (BX BY BZ BB SGN DS : R) (NSTP : Z) :
  Tracer.shaped a ->
  (7 < NSTP)%Z ->
  let r := Apex.itrace a BX BY BZ BB SGN DS NSTP in
  let d := [SGN * BX / BB; SGN * BY / BB; SGN * BZ / BB] in
  (fst r = true <-> Apex.radius (Apex.Y (snd r)) < Apex.radius (Apex.Y a))
  /\ Apex.YOLD (snd r) = Apex.Y a
  /\ (forall I : nat,
         (I < 3)%nat ->
         Apex.at1 (Apex.Y (snd r)) I
         = Apex.at1 (Apex.Y a) I
           + DS / 24.0
             * (55.0 * Apex.at1 d I - 59.0 * Apex.at2 (Apex.YP a) I 2
                + 37.0 * Apex.at2 (Apex.YP a) I 1
                - 9.0 * Apex.at2 (Apex.YP a) I 0)
         /\ nth I (Apex.YP (snd r)) []
            = [Apex.at2 (Apex.YP a) I 1; Apex.at2 (Apex.YP a) I 2;
               Apex.at1 d I; Apex.at1 d I])
  /\ Tracer.column (Apex.YAPX (snd r)) 0 = Tracer.column (Apex.YAPX a) 1
  /\ Tracer.column (Apex.YAPX (snd r)) 1 = Apex.Y a
  /\ Tracer.column (Apex.YAPX (snd r)) 2 = Apex.Y (snd r).
Proof.
  intros Hs H7. explicit_arrays a Hs. cbv zeta. unfold Apex.itrace.
  assert (E : (NSTP <=? 7)%Z = false) by (apply Z.leb_gt; lia).
  rewrite E. trace_compute.
  match goal with
  | |- context [Py.ltb ?u ?v] => destruct (Py.ltb u v) eqn:L
  end; trace_compute.
  - apply ltb_spec in L. split; [split; auto |].
    split; [reflexivity |]. split; [| repeat split].
    intros [| [| [| I]]] HI; try lia; split; reflexivity.
  - split.
    + split; [discriminate |]. intros C. apply ltb_spec in C. congruence.
    + split; [reflexivity |]. split; [| repeat split].
      intros [| [| [| I]]] HI; try lia; split; reflexivity.
Qed.

(** ** apex.py: the adaptive step length *)

Lemma step_length_bounds (ctp stp nlon : R) (s : Apex.loop) :
  0 <= Apex.gcrho s ->
  0.06 * Apex.gcrho s - 370 <= Tracer.step_length ctp stp nlon s
  <= 0.24 * Apex.gcrho s - 370.
Proof.
  intros Hr. unfold Tracer.step_length.
  set (stngml := ctp * sin (Apex.gclat s)
                 + stp * cos (Apex.gclat s) * cos (Apex.gclon s - nlon)).
  cbv zeta.
  assert (Hc : 0.25 <= Py.max (1 - stngml ^ 2) 0.25 <= 1).
  { unfold Py.max. assert (H := pow2_ge_0 stngml).
    destruct (Rlt_dec (1 - stngml ^ 2) 0.25); lra. }
  set (c := Py.max (1 - stngml ^ 2) 0.25) in *.
  assert (Hc0 : 0 < c) by lra.
  assert (Hi : 1 <= / c <= 4).
  { split.
    - rewrite <- Rinv_1. apply Rinv_le_contravar; lra.
    - replace 4 with (/ 0.25) by lra. apply Rinv_le_contravar; lra. }
  unfold Rdiv. nra.
Qed.

Section LoopFacts.

Variable igrf12syn : Z -> R -> Z -> R -> R -> R -> R * R * R * R.
Variable getCoeffs : R -> (nat -> nat -> R) * (nat -> nat -> R).

(** One pass of the loop body, with the step length and the spherical
    coordinates it leaves. *)
Lemma iteration_full (date ctp stp nlon sgn : R) (s : Apex.loop) :
  exists BX BY BZ BB,
    let r := Apex.itrace (Apex.arr s) BX BY BZ BB sgn
               (Tracer.step_length ctp stp nlon s) (Apex.step s) in
    let s' := Apex.iteration igrf12syn date ctp stp nlon sgn s in
    Apex.arr s' = snd r
    /\ Apex.arrive s' = fst r
    /\ Apex.step s' = (Apex.step s + 1)%Z
    /\ Apex.trace s' = Apex.trace s ++ [Apex.Y (snd r)]
    /\ (Apex.gclat s', Apex.gclon s', Apex.gcrho s')
       = Coordinate.cartesian2geocentric
           (Apex.at1 (Apex.Y (snd r)) 0) (Apex.at1 (Apex.Y (snd r)) 1)
           (Apex.at1 (Apex.Y (snd r)) 2)
    /\ (BX, BY, BZ, BB)
       = (let '(bx, by_, bz, bb) :=
            igrf12syn 0%Z date 2%Z (Apex.gcrho s)
                      (Apex.gclat s * Apex.FACT) (Apex.gclon s * Apex.FACT) in
          let '(Bx, By, Bz) :=
            Coordinate.rotateVector (bx, by_, bz) (Apex.gclon s)
                                    (Apex.gclat s) in
          (Bx, By, Bz, bb)).
Proof.
  unfold Apex.iteration, Tracer.step_length.
  destruct (igrf12syn 0%Z date 2%Z (Apex.gcrho s) (Apex.gclat s * Apex.FACT)
              (Apex.gclon s * Apex.FACT)) as [[[bx by_] bz] bb].
  destruct (Coordinate.rotateVector (bx, by_, bz) (Apex.gclon s) (Apex.gclat s))
    as [[Bx By] Bz].
  exists Bx, By, Bz, bb. cbv zeta.
  match goal with
  | |- context [Apex.itrace ?a ?x ?y ?z ?b ?g ?d ?n] =>
      destruct (Apex.itrace a x y z b g d n) as [flag a']
  end.
  unfold Coordinate.cartesian2geocentric.
  cbn [Apex.arr Apex.arrive Apex.step Apex.trace Apex.gclat Apex.gclon
       Apex.gcrho fst snd].
  repeat split.
Qed.

Lemma passes_0_arrays (lat lon alt date : R) :
  Tracer.shaped
    (Apex.arr (Tracer.passes igrf12syn getCoeffs lat lon alt date 0))
  /\ 0 <= Apex.gcrho (Tracer.passes igrf12syn getCoeffs lat lon alt date 0).
Proof.
  unfold Tracer.passes, Apex.launch.
  destruct (Apex.northPole getCoeffs date) as [nlat nlon].
  unfold Coordinate.geodetic2geocentric, Coordinate.geocentric2cartesian.
  match goal with
  | |- context [igrf12syn ?a ?b ?c ?d ?e ?f] =>
      destruct (igrf12syn a b c d e f) as [[[bx by_] bz] bb]
  end.
  cbn [Nat.iter nat_rect Apex.arr Apex.gcrho]. split.
  - unfold Tracer.shaped. cbn [Apex.Y Apex.YOLD Apex.YAPX Apex.YP
                                List.length repeat].
    repeat split; repeat constructor.
  - apply sqrt_pos.
Qed.

Lemma passes_shaped (lat lon alt date : R) (j : nat) :
  Tracer.shaped
    (Apex.arr (Tracer.passes igrf12syn getCoeffs lat lon alt date j)).
Proof.
  induction j as [| j IH].
  - apply passes_0_arrays.
  - destruct (passes_succ igrf12syn getCoeffs lat lon alt date j)
      as (ctp & stp & nlon & sgn & E).
    rewrite E.
    destruct (iteration_full date ctp stp nlon sgn
                (Tracer.passes igrf12syn getCoeffs lat lon alt date j))
      as (BX & BY & BZ & BB & Ea & _).
    cbv zeta in Ea. rewrite Ea. apply itrace_shaped. exact IH.
Qed.

Lemma passes_gcrho (lat lon alt date : R) (j : nat) :
  0 <= Apex.gcrho (Tracer.passes igrf12syn getCoeffs lat lon alt date j).
Proof.
  destruct j as [| j].
  - apply passes_0_arrays.
  - destruct (passes_succ igrf12syn getCoeffs lat lon alt date j)
      as (ctp & stp & nlon & sgn & E).
    rewrite E.
    destruct (iteration_full date ctp stp nlon sgn
                (Tracer.passes igrf12syn getCoeffs lat lon alt date j))
      as (BX & BY & BZ & BB & _ & _ & _ & _ & Eg & _).
    cbv zeta in Eg. unfold Coordinate.cartesian2geocentric in Eg.
    injection Eg as _ _ ->. apply sqrt_pos.
Qed.

(** The position after each pass is what the pass appends to the path. *)
Lemma passes_trace (lat lon alt date : R) (j : nat) :
  Apex.trace (Tracer.passes igrf12syn getCoeffs lat lon alt date j)
  = map (fun i =>
           Apex.Y (Apex.arr (Tracer.passes igrf12syn getCoeffs
                               lat lon alt date i)))
        (seq 0 (S j)).
Proof.
  induction j as [| j IH].
  - destruct (passes_0 igrf12syn getCoeffs lat lon alt date)
      as (start & _ & _ & EY & Et).
    rewrite Et. cbn [seq map]. rewrite EY. reflexivity.
  - destruct (passes_succ igrf12syn getCoeffs lat lon alt date j)
      as (ctp & stp & nlon & sgn & E).
    rewrite seq_S, map_app, <- IH. cbn [map Nat.add].
    rewrite E.
    destruct (iteration_full date ctp stp nlon sgn
                (Tracer.passes igrf12syn getCoeffs lat lon alt date j))
      as (BX & BY & BZ & BB & Ea & _ & _ & Et & _).
    cbv zeta in Ea, Et. rewrite Et, Ea. reflexivity.
Qed.

Lemma passes_nth (lat lon alt date : R) (j i : nat) :
  (i <= j)%nat ->
  nth i (Apex.trace (Tracer.passes igrf12syn getCoeffs lat lon alt date j)) []
  = Apex.Y (Apex.arr (Tracer.passes igrf12syn getCoeffs lat lon alt date i)).
Proof.
  intros Hi. rewrite passes_trace.
  rewrite (nth_indep _ []
             (Apex.Y (Apex.arr (Tracer.passes igrf12syn getCoeffs
                                  lat lon alt date 0))))
    by (rewrite length_map, length_seq; lia).
  rewrite (map_nth (fun i =>
             Apex.Y (Apex.arr (Tracer.passes igrf12syn getCoeffs
                                 lat lon alt date i)))).
  rewrite seq_nth by lia. reflexivity.
Qed.

(** From the ninth pass on, a pass signals exactly when it has moved the
    point to a smaller radius. *)
Lemma passes_descent (lat lon alt date : R) (j : nat) :
  (8 <= j)%nat ->
  Apex.arrive (Tracer.passes igrf12syn getCoeffs lat lon alt date (S j))
  = true
  <-> Apex.radius
        (Apex.Y (Apex.arr (Tracer.passes igrf12syn getCoeffs
                             lat lon alt date (S j))))
      < Apex.radius
          (Apex.Y (Apex.arr (Tracer.passes igrf12syn getCoeffs
                               lat lon alt date j))).
Proof.
  intros Hj.
  destruct (passes_succ igrf12syn getCoeffs lat lon alt date j)
    as (ctp & stp & nlon & sgn & E).
  rewrite E.
  destruct (iteration_full date ctp stp nlon sgn
              (Tracer.passes igrf12syn getCoeffs lat lon alt date j))
    as (BX & BY & BZ & BB & Ea & Ef & _).
  cbv zeta in Ea, Ef. rewrite Ea, Ef, passes_step.
  apply itrace_adams; [apply passes_shaped | lia].
Qed.

(** The points the bootstrap keeps about the apex. *)
Lemma itrace_step_4 (a : Apex.arrays) (BX BY BZ BB SGN DS : R) :
  Tracer.shaped a ->
  let a' := snd (Apex.itrace a BX BY BZ BB SGN DS 4) in
  Tracer.column (Apex.YAPX a') 1 = Apex.Y a.
Proof.
  intros Hs. explicit_arrays a Hs. trace_compute. reflexivity.
Qed.

Lemma itrace_step_5 (a : Apex.arrays) (BX BY BZ BB SGN DS : R) :
  Tracer.shaped a ->
  let a' := snd (Apex.itrace a BX BY BZ BB SGN DS 5) in
  Apex.YAPX a' = Apex.YAPX a.
Proof.
  intros Hs. explicit_arrays a Hs. trace_compute. reflexivity.
Qed.

Lemma radius_column (M : list (list R)) (j : nat) :
  Apex.apex_radius M j = Apex.radius (Tracer.column M j).
Proof. reflexivity. Qed.

Lemma passes_itrace (lat lon alt date : R) (j : nat) :
  exists BX BY BZ BB sgn DS,
    let r := Apex.itrace
               (Apex.arr (Tracer.passes igrf12syn getCoeffs lat lon alt date j))
               BX BY BZ BB sgn DS (Z.of_nat j) in
    Apex.arr (Tracer.passes igrf12syn getCoeffs lat lon alt date (S j))
    = snd r
    /\ Apex.arrive (Tracer.passes igrf12syn getCoeffs lat lon alt date (S j))
       = fst r.
Proof.
  destruct (passes_succ igrf12syn getCoeffs lat lon alt date j)
    as (ctp & stp & nlon & sgn & E).
  rewrite E.
  destruct (iteration_full date ctp stp nlon sgn
              (Tracer.passes igrf12syn getCoeffs lat lon alt date j))
    as (BX & BY & BZ & BB & Ea & Ef & _).
  cbv zeta in Ea, Ef. rewrite passes_step in Ea, Ef.
  exists BX, BY, BZ, BB, sgn, (Tracer.step_length ctp stp nlon
    (Tracer.passes igrf12syn getCoeffs lat lon alt date j)).
  cbv zeta. split; assumption.
Qed.

Lemma passes_bootstrap_checks (lat lon alt date : R) :
  let Yat := fun i =>
    Apex.Y (Apex.arr (Tracer.passes igrf12syn getCoeffs lat lon alt date i)) in
  (Apex.arrive (Tracer.passes igrf12syn getCoeffs lat lon alt date 7) = true
   <-> Apex.radius (Yat 6%nat) < Apex.radius (Yat 4%nat))
  /\ (Apex.arrive (Tracer.passes igrf12syn getCoeffs lat lon alt date 8) = true
      <-> Apex.radius (Yat 8%nat) < Apex.radius (Yat 6%nat)).
Proof.
  cbv zeta.
  destruct (passes_itrace lat lon alt date 4)
    as (X4 & Y4 & Z4 & B4 & s4 & D4 & E4 & _).
  destruct (passes_itrace lat lon alt date 5)
    as (X5 & Y5 & Z5 & B5 & s5 & D5 & E5 & _).
  destruct (passes_itrace lat lon alt date 6)
    as (X6 & Y6 & Z6 & B6 & s6 & D6 & E6 & F6).
  destruct (passes_itrace lat lon alt date 7)
    as (X7 & Y7 & Z7 & B7 & s7 & D7 & E7 & F7).
  cbv zeta in E4, E5, E6, F6, E7, F7.
  change (Z.of_nat 4) with 4%Z in E4. change (Z.of_nat 5) with 5%Z in E5.
  change (Z.of_nat 6) with 6%Z in E6, F6.
  change (Z.of_nat 7) with 7%Z in E7, F7.
  assert (S4 := passes_shaped lat lon alt date 4).
  assert (S5 := passes_shaped lat lon alt date 5).
  assert (S6 := passes_shaped lat lon alt date 6).
  assert (S7 := passes_shaped lat lon alt date 7).
  assert (C5 : Tracer.column
                 (Apex.YAPX (Apex.arr (Tracer.passes igrf12syn getCoeffs
                                         lat lon alt date 5))) 1
               = Apex.Y (Apex.arr (Tracer.passes igrf12syn getCoeffs
                                     lat lon alt date 4))).
  { rewrite E4. apply itrace_step_4. exact S4. }
  assert (C6 : Tracer.column
                 (Apex.YAPX (Apex.arr (Tracer.passes igrf12syn getCoeffs
                                         lat lon alt date 6))) 1
               = Apex.Y (Apex.arr (Tracer.passes igrf12syn getCoeffs
                                     lat lon alt date 4))).
  { rewrite E5, (itrace_step_5 _ X5 Y5 Z5 B5 s5 D5 S5). exact C5. }
  destruct (itrace_step_6 _ X6 Y6 Z6 B6 s6 D6 S6) as [C72 C71].
  cbv zeta in C72, C71. rewrite <- E6 in C72, C71. rewrite C6 in C71.
  destruct (itrace_step_7 _ X7 Y7 Z7 B7 s7 D7 S7) as [C82 C81].
  cbv zeta in C82, C81. rewrite <- E7 in C82, C81. rewrite C72 in C81.
  split.
  - rewrite F6. rewrite itrace_flag by lia. cbv zeta. rewrite <- E6.
    rewrite !radius_column, C72, C71. intuition.
  - rewrite F7. rewrite itrace_flag by lia. cbv zeta. rewrite <- E7.
    rewrite !radius_column, C82, C81. intuition.
Qed.

(** The loop stops at the first state whose test fails. *)
Lemma while_first (body : Apex.loop -> Apex.loop) (fuel : nat) :
  forall s,
    exists j,
      (j <= fuel)%nat
      /\ Apex.while fuel body s = Nat.iter j body s
      /\ (forall i, (i < j)%nat -> Apex.continue (Nat.iter i body s) = true).
Proof.
  induction fuel as [| fuel IH]; intros s.
  - exists 0%nat. cbn [Apex.while Nat.iter nat_rect].
    split; [lia |]. split; [reflexivity |]. intros i Hi. lia.
  - cbn [Apex.while]. destruct (Apex.continue s) eqn:Hc.
    + destruct (IH (body s)) as (j & Hj & Ew & Hi).
      exists (S j). rewrite Nat.iter_succ_r.
      split; [lia |]. split; [exact Ew |].
      intros [| i] Hlt; [exact Hc |].
      rewrite Nat.iter_succ_r. apply Hi. lia.
    + exists 0%nat. cbn [Nat.iter nat_rect].
      split; [lia |]. split; [reflexivity |]. intros i Hi. lia.
Qed.

End LoopFacts.

Section StopFacts.

Variable igrf12syn : Z -> R -> Z -> R -> R -> R -> R * R * R * R.
Variable getCoeffs : R -> (nat -> nat -> R) * (nat -> nat -> R).

Lemma continue_cases (s : Apex.loop) :
  Apex.continue s = false ->
  Apex.arrive s = true \/ (100 <= Apex.step s)%Z.
Proof.
  unfold Apex.continue. intros H. apply andb_false_iff in H as [H | H].
  - left. destruct (Apex.arrive s); [reflexivity | discriminate].
  - right. apply Z.ltb_ge in H. exact H.
Qed.

Lemma continue_running (s : Apex.loop) :
  Apex.continue s = true -> Apex.arrive s = false.
Proof.
  unfold Apex.continue. intros H. apply andb_true_iff in H as [H _].
  destruct (Apex.arrive s); [discriminate | reflexivity].
Qed.

(** The loop of [findApex] ends in the first state, counted in passes,
    whose test fails. *)
Lemma findApex_first (lat lon alt date : R) :
  exists J,
    (7 <= J <= 100)%nat
    /\ Apex.findApex_loop igrf12syn getCoeffs lat lon alt date
       = Tracer.passes igrf12syn getCoeffs lat lon alt date J
    /\ (forall i,
           (i < J)%nat ->
           Apex.arrive (Tracer.passes igrf12syn getCoeffs lat lon alt date i)
           = false)
    /\ (Apex.arrive (Tracer.passes igrf12syn getCoeffs lat lon alt date J)
        = true \/ J = 100%nat).
Proof.
  destruct (findApex_loop_passes igrf12syn getCoeffs lat lon alt date)
    as (J & HJ & EJ & SJ & LJ & CJ).
  assert (Hmin : forall i, (i < J)%nat ->
            Apex.continue (Tracer.passes igrf12syn getCoeffs lat lon alt date i)
            = true).
  { revert EJ. unfold Apex.findApex_loop, Tracer.passes.
    destruct (Apex.launch igrf12syn getCoeffs lat lon alt date)
      as [[[[[date' ctp] stp] nlon] sgn] s0] eqn:El.
    intros EJ i Hi.
    destruct (while_first (Apex.iteration igrf12syn date' ctp stp nlon sgn)
                100 s0) as (j & Hj & Ew & Hc).
    assert (Ej : j = J).
    { assert (Es : Apex.step (Tracer.passes igrf12syn getCoeffs
                                lat lon alt date j) = Z.of_nat j)
        by apply passes_step.
      unfold Tracer.passes in Es, SJ. rewrite El in Es, SJ.
      rewrite <- Ew, EJ, SJ in Es. lia. }
    subst j. apply Hc. exact Hi. }
  exists J.
  assert (H7 : (7 <= J)%nat).
  { destruct (Nat.le_gt_cases 7 J) as [H | H]; [exact H |].
    apply continue_cases in CJ as [C | C].
    - rewrite passes_arrive in C by lia. discriminate.
    - rewrite passes_step in C. lia. }
  split; [lia |]. split; [exact EJ |]. split.
  - intros i Hi. apply continue_running, Hmin, Hi.
  - apply continue_cases in CJ as [C | C]; [left; exact C |].
    right. rewrite passes_step in C. lia.
Qed.

Lemma findApex_stop_rule (lat lon alt date : R) :
  let path := Apex.findApex igrf12syn getCoeffs lat lon alt date in
  let n := List.length path in
  (8 <= n <= 101)%nat
  /\ (n = 8%nat
      <-> Apex.radius (nth 6 path []) < Apex.radius (nth 4 path []))
  /\ ((9 <= n)%nat ->
      (n = 9%nat
       <-> Apex.radius (nth 8 path []) < Apex.radius (nth 6 path [])))
  /\ (forall i : nat,
         (9 <= i < n)%nat ->
         (Apex.radius (nth i path []) < Apex.radius (nth (i - 1) path [])
          -> S i = n)
         /\ (S i = n -> (n < 101)%nat ->
             Apex.radius (nth i path [])
             < Apex.radius (nth (i - 1) path []))).
Proof.
  cbv zeta. unfold Apex.findApex.
  destruct (findApex_first lat lon alt date)
    as (J & HJ & EJ & Hbefore & Hlast).
  rewrite EJ.
  assert (Hn : List.length
                 (Apex.trace (Tracer.passes igrf12syn getCoeffs
                                lat lon alt date J)) = S J).
  { rewrite (passes_trace igrf12syn getCoeffs), length_map, length_seq.
    reflexivity. }
  rewrite Hn.
  destruct (passes_bootstrap_checks igrf12syn getCoeffs lat lon alt date)
    as [B7 B8].
  cbv zeta in B7, B8.
  split; [lia |]. split; [| split].
  - rewrite !(passes_nth igrf12syn getCoeffs) by lia. rewrite <- B7. split.
    + intros E. assert (J = 7%nat) by lia. subst J.
      destruct Hlast as [C | C]; [exact C | lia].
    + intros C. destruct (Nat.eq_dec J 7) as [-> | N]; [reflexivity |].
      rewrite Hbefore in C by lia. discriminate.
  - intros H9. rewrite !(passes_nth igrf12syn getCoeffs) by lia.
    rewrite <- B8. split.
    + intros E. assert (J = 8%nat) by lia. subst J.
      destruct Hlast as [C | C]; [exact C | lia].
    + intros C. destruct (Nat.eq_dec J 8) as [-> | N]; [reflexivity |].
      rewrite Hbefore in C by lia. discriminate.
  - intros i Hi. rewrite !(passes_nth igrf12syn getCoeffs) by lia.
    destruct i as [| i]; [lia |].
    replace (S i - 1)%nat with i by lia.
    rewrite <- (passes_descent igrf12syn getCoeffs) by lia. split.
    + intros C. destruct (Nat.eq_dec J (S i)) as [-> | N]; [reflexivity |].
      rewrite Hbefore in C by lia. discriminate.
    + intros E Hlt. assert (J = S i) by lia. subst J.
      destruct Hlast as [C | C]; [exact C | lia].
Qed.

(** The step length of every pass. *)
Lemma passes_step_length (lat lon alt date : R) (j : nat) :
  exists BX BY BZ BB sgn DS,
    let s := Tracer.passes igrf12syn getCoeffs lat lon alt date j in
    let r := Apex.itrace (Apex.arr s) BX BY BZ BB sgn DS (Z.of_nat j) in
    Apex.arr (Tracer.passes igrf12syn getCoeffs lat lon alt date (S j))
    = snd r
    /\ 0 <= Apex.gcrho s
    /\ 0.06 * Apex.gcrho s - 370 <= DS <= 0.24 * Apex.gcrho s - 370
    /\ ((1 <= j)%nat -> Apex.gcrho s = Apex.radius (Apex.Y (Apex.arr s))).
Proof.
  destruct (passes_succ igrf12syn getCoeffs lat lon alt date j)
    as (ctp & stp & nlon & sgn & E).
  rewrite E.
  destruct (iteration_full igrf12syn date ctp stp nlon sgn
              (Tracer.passes igrf12syn getCoeffs lat lon alt date j))
    as (BX & BY & BZ & BB & Ea & _).
  cbv zeta in Ea. rewrite passes_step in Ea.
  exists BX, BY, BZ, BB, sgn,
    (Tracer.step_length ctp stp nlon
       (Tracer.passes igrf12syn getCoeffs lat lon alt date j)).
  cbv zeta. split; [exact Ea |].
  split; [apply passes_gcrho |].
  split; [apply step_length_bounds, passes_gcrho |].
  intros Hj. destruct j as [| j]; [lia |].
  destruct (passes_succ igrf12syn getCoeffs lat lon alt date j)
    as (ctp' & stp' & nlon' & sgn' & E').
  rewrite E'.
  destruct (iteration_full igrf12syn date ctp' stp' nlon' sgn'
              (Tracer.passes igrf12syn getCoeffs lat lon alt date j))
    as (BX' & BY' & BZ' & BB' & Ea' & _ & _ & _ & Eg & _).
  cbv zeta in Ea', Eg. unfold Coordinate.cartesian2geocentric in Eg.
  injection Eg as _ _ ->. rewrite Ea'. unfold Apex.radius.
  f_equal. ring.
Qed.

End StopFacts.

(** ** apex.py: the range of northPole *)

Lemma FACT_pos : 0 < Apex.FACT.
Proof.
  unfold Apex.FACT. apply Rdiv_lt_0_compat; [lra | apply PI_RGT_0].
Qed.

Lemma northPole_range
      (getCoeffs : R -> (nat -> nat -> R) * (nat -> nat -> R)) (date : R) :
  let '(lat, lon) := Apex.northPole getCoeffs date in
  -90 <= lat <= 90 /\ -360 < lon <= 0.
Proof.
  unfold Apex.northPole. destruct (getCoeffs date) as [g h]. cbv zeta.
  set (x := g 1%nat 0%nat / _).
  destruct (acos_bound x) as [A0 A1].
  destruct (arctan2_range (h 1%nat 1%nat) (g 1%nat 1%nat)) as [T0 T1].
  assert (F := FACT_pos). assert (P := FACT_PI).
  split; split; nra.
Qed.

(** ** apex.py: a trace where the evaluator answers no field *)

Section VanishingField.

Variable igrf12syn : Z -> R -> Z -> R -> R -> R -> R * R * R * R.
Variable getCoeffs : R -> (nat -> nat -> R) * (nat -> nat -> R).

Hypothesis no_field :
  forall (isv : Z) (date : R) (itype : Z) (alt colat elong : R),
    exists bb, bb <> 0 /\ igrf12syn isv date itype alt colat elong
                          = (0, 0, 0, bb).

Lemma vanishing_pass (y : list R) (date ctp stp nlon sgn : R)
      (s : Apex.loop) :
  (0 <= Apex.step s)%Z ->
  Tracer.still y (Apex.step s) (Apex.arr s) ->
  let s' := Apex.iteration igrf12syn date ctp stp nlon sgn s in
  Tracer.still y (Apex.step s') (Apex.arr s')
  /\ Apex.arrive s' = false
  /\ Apex.step s' = (Apex.step s + 1)%Z
  /\ Apex.trace s' = Apex.trace s ++ [y].
Proof.
  intros Hk Hstill. cbv zeta.
  destruct (iteration_spec igrf12syn date ctp stp nlon sgn s)
    as (BX & BY & BZ & BB & DS & Ea & Ef & Es & Et & EB & EBB).
  cbv zeta in Ea, Ef, Et.
  destruct (no_field 0%Z date 2%Z (Apex.gcrho s) (Apex.gclat s * Apex.FACT)
              (Apex.gclon s * Apex.FACT)) as (bb & Hbb & E).
  rewrite E in EB, EBB.
  unfold Coordinate.rotateVector, Coordinate.spanMat, Coordinate.dot,
    Coordinate.row_dot in EB.
  injection EB as -> -> ->. cbn [snd] in EBB. subst BB.
  destruct (itrace_still y (Apex.step s) (Apex.arr s)
              (- sin (Apex.gclat s) * cos (Apex.gclon s) * 0
               + - sin (Apex.gclon s) * 0
               + - cos (Apex.gclat s) * cos (Apex.gclon s) * 0)
              (- sin (Apex.gclat s) * sin (Apex.gclon s) * 0
               + cos (Apex.gclon s) * 0
               + - cos (Apex.gclat s) * sin (Apex.gclon s) * 0)
              (cos (Apex.gclat s) * 0 + 0 * 0 + - sin (Apex.gclat s) * 0)
              bb sgn DS Hk)
    as [Hflag Hnext]; try (unfold Rdiv; ring); [exact Hstill |].
  rewrite Ea, Ef, Es, Et. repeat split; try assumption.
  rewrite (still_Y _ _ _ Hnext). reflexivity.
Qed.

Lemma vanishing_run (y : list R) (date ctp stp nlon sgn : R) (fuel : nat) :
  forall s,
    (0 <= Apex.step s)%Z ->
    (Apex.step s + Z.of_nat fuel = 100)%Z ->
    Apex.arrive s = false ->
    Tracer.still y (Apex.step s) (Apex.arr s) ->
    let s' := Apex.while fuel
                (Apex.iteration igrf12syn date ctp stp nlon sgn) s in
    Apex.step s' = 100%Z
    /\ Apex.arrive s' = false
    /\ Apex.trace s' = Apex.trace s ++ repeat y fuel.
Proof.
  induction fuel as [| fuel IH]; intros s H0 H100 Harr Hstill; cbv zeta.
  - cbn [Apex.while repeat]. rewrite app_nil_r. repeat split; [lia | exact Harr].
  - assert (Hc : Apex.continue s = true).
    { unfold Apex.continue. rewrite Harr.
      assert (E : (Apex.step s <? 100)%Z = true) by (apply Z.ltb_lt; lia).
      rewrite E. reflexivity. }
    cbn [Apex.while]. rewrite Hc.
    destruct (vanishing_pass y date ctp stp nlon sgn s H0 Hstill)
      as (Hstill' & Harr' & Hstep' & Htrace').
    destruct (IH (Apex.iteration igrf12syn date ctp stp nlon sgn s))
      as (R1 & R2 & R3); try assumption; try (rewrite Hstep'; lia).
    split; [exact R1 |]. split; [exact R2 |].
    rewrite R3, Htrace', <- app_assoc. reflexivity.
Qed.

Lemma vanishing_trace (lat lon alt date : R) :
  let s := Apex.findApex_loop igrf12syn getCoeffs lat lon alt date in
  Apex.step s = 100%Z
  /\ Apex.arrive s = false
  /\ exists y,
       Apex.trace (Tracer.passes igrf12syn getCoeffs lat lon alt date 0)
       = [y]
       /\ Apex.trace s = repeat y 101.
Proof.
  cbv zeta. unfold Apex.findApex_loop, Tracer.passes.
  destruct (launch_spec igrf12syn getCoeffs lat lon alt date)
    as (ctp & stp & nlon & sgn & x0 & y0 & z0 & gclat & gclon & gcrho & E & _).
  rewrite E. cbn [Nat.iter nat_rect Apex.trace].
  destruct (vanishing_run [x0; y0; z0] date ctp stp nlon sgn 100
              (Apex.mkLoop
                 (Apex.mkArrays [x0; y0; z0] [0; 0; 0]
                    (repeat (repeat 0.0 3) 3) (repeat (repeat 0.0 4) 3))
                 0%Z false gclat gclon gcrho [[x0; y0; z0]]))
    as (R1 & R2 & R3); cbn [Apex.step Apex.arrive Apex.arr]; try lia;
    try reflexivity.
  - rewrite zeros_3x4. unfold Tracer.still. cbn [repeat].
    do 15 eexists. split; [reflexivity |]. split; [reflexivity |].
    repeat split; intros; lia.
  - repeat split; try assumption. exists [x0; y0; z0].
    split; [reflexivity |]. rewrite R3. reflexivity.
Qed.

End VanishingField.

Lemma sentinel_no_field :
  forall (isv : Z) (date : R) (itype : Z) (alt colat elong : R),
    exists bb, bb <> 0 /\ Inputs.sentinel isv date itype alt colat elong
                          = (0, 0, 0, bb).
Proof.
  intros. exists 1. split; [lra |]. unfold Inputs.sentinel.
  f_equal; [f_equal; [f_equal |] |]; lra.
Qed.

(** ** IGRF12.py: which file entries a coefficient is made of *)

Lemma loadCoeffs_entry (w : IGRF12.world) (text : list IGRF12.line) :
  IGRF12.files w "igrf12coeffs.txt" = Some text ->
  Observed.published text ->
  let rows := map IGRF12.fields (filter IGRF12.is_coeff_line text) in
  exists gh,
    fst (IGRF12.loadCoeffs "igrf12coeffs.txt" w) = Py.Ok gh
    /\ List.length gh = 3451%nat
    /\ (forall i j : Z,
           (0 <= i < 25)%Z ->
           (0 <= j < (if (i <? 19)%Z then 120 else 195))%Z ->
           nth (Z.to_nat ((if (i <? 19)%Z then 120 * i
                           else 2280 + 195 * (i - 19)) + j)) gh 0
           = nth (Z.to_nat i) (nth (Z.to_nat j) rows []) 0).
Proof.
  intros Hfile Hshape rows.
  destruct (loadCoeffs_layout w text Hfile Hshape)
    as (gh & Egh & Lgh & Hlow & Hhigh & _).
  fold rows in Hlow, Hhigh.
  exists gh. split; [exact Egh |]. split; [exact Lgh |].
  intros i j Hi Hj. destruct (Z.ltb_spec i 19) as [H | H].
  - rewrite <- (Hlow (Z.to_nat i) (Z.to_nat j)) by lia. f_equal. lia.
  - rewrite <- (Hhigh (Z.to_nat i) (Z.to_nat j)) by lia. f_equal. lia.
Qed.

(** ** IGRF12.py: what igrf12syn reads of its arguments *)

Lemma full_turn (a : R) : (a + 360) / IGRF12.FACT = a / IGRF12.FACT + 2 * PI.
Proof.
  unfold IGRF12.FACT. assert (H := PI_RGT_0). field. lra.
Qed.

Lemma cos_full_turn (a : R) :
  cos ((a + 360) / IGRF12.FACT) = cos (a / IGRF12.FACT).
Proof. rewrite full_turn, cos_plus, cos_2PI, sin_2PI. ring. Qed.

Lemma sin_full_turn (a : R) :
  sin ((a + 360) / IGRF12.FACT) = sin (a / IGRF12.FACT).
Proof. rewrite full_turn, sin_plus, cos_2PI, sin_2PI. ring. Qed.

Lemma resolve_flag (isv isv' : Z) (date : R) :
  (isv =? 1)%Z = (isv' =? 1)%Z ->
  IGRF12.resolve isv date = IGRF12.resolve isv' date.
Proof. intros H. unfold IGRF12.resolve. rewrite H. reflexivity. Qed.

(** ** IGRF12.py: the field is linear in the coefficients *)

Lemma blend_length (a b : R) (gh1 gh2 : list R) :
  List.length gh1 = List.length gh2 ->
  List.length (Linear.blend a b gh1 gh2) = List.length gh1.
Proof.
  intros H. unfold Linear.blend.
  rewrite length_map, length_combine, <- H. apply Nat.min_id.
Qed.

Lemma blend_nth (a b : R) (gh1 gh2 : list R) (i : nat) :
  List.length gh1 = List.length gh2 ->
  nth i (Linear.blend a b gh1 gh2) 0 = a * nth i gh1 0 + b * nth i gh2 0.
Proof.
  unfold Linear.blend. revert gh2 i.
  induction gh1 as [| u gh1 IH]; intros [| v gh2] i H;
    try discriminate H.
  - destruct i; cbn [combine map nth]; ring.
  - destruct i as [| i]; cbn [combine map nth fst snd]; [reflexivity |].
    apply IH. injection H as H. exact H.
Qed.

Lemma get_blend (a b : R) (gh1 gh2 : list R) (i : Z) (u v : R) :
  List.length gh1 = List.length gh2 ->
  Py.get gh1 i = Py.Ok u ->
  Py.get gh2 i = Py.Ok v ->
  Py.get (Linear.blend a b gh1 gh2) i = Py.Ok (a * u + b * v).
Proof.
  intros H H1 H2. unfold Py.get in *.
  rewrite (blend_length a b gh1 gh2 H). rewrite <- H in H2.
  destruct (Py.index (List.length gh1) i) as [r |]; cbn [Py.bind] in *;
    [| discriminate].
  injection H1 as <-. injection H2 as <-.
  rewrite (blend_nth a b gh1 gh2 r H). reflexivity.
Qed.

Lemma coefficient_blend (a b : R) (gh1 gh2 : list R) (e : IGRF12.epoch)
      (lm : R) (off : Z) (u v : R) :
  List.length gh1 = List.length gh2 ->
  IGRF12.coefficient gh1 e lm off = Py.Ok u ->
  IGRF12.coefficient gh2 e lm off = Py.Ok v ->
  IGRF12.coefficient (Linear.blend a b gh1 gh2) e lm off
  = Py.Ok (a * u + b * v).
Proof.
  intros H H1 H2. unfold IGRF12.coefficient in *.
  bind_inv H1. bind_inv H2.
  rewrite (get_blend a b gh1 gh2 _ _ _ H E E1).
  rewrite (get_blend a b gh1 gh2 _ _ _ H E0 E2).
  cbn [Py.bind]. injection H1 as <-. injection H2 as <-. f_equal. ring.
Qed.

Lemma legendre_off_diagonal_sums (ct st : R) (k : Z) (s : IGRF12.state)
      (x y z : R) :
  IGRF12.legendre_off_diagonal ct st k (Linear.with_sums s x y z)
  = Py.bind (IGRF12.legendre_off_diagonal ct st k s)
            (fun t => Py.Ok (Linear.with_sums t x y z)).
Proof.
  unfold IGRF12.legendre_off_diagonal, Linear.with_sums.
  cbn [IGRF12.p IGRF12.q IGRF12.cl IGRF12.sl IGRF12.x IGRF12.y IGRF12.z
       IGRF12.rr IGRF12.l IGRF12.m IGRF12.n IGRF12.fn IGRF12.gn].
  repeat match goal with
    | |- Py.bind ?c _ = Py.bind (Py.bind ?c _) _ =>
        destruct c; cbn [Py.bind]; [| reflexivity]
    end.
  reflexivity.
Qed.

Lemma legendre_diagonal_sums (ct st : R) (k fm : Z) (s : IGRF12.state)
      (x y z : R) :
  IGRF12.legendre_diagonal ct st k fm (Linear.with_sums s x y z)
  = Py.bind (IGRF12.legendre_diagonal ct st k fm s)
            (fun t => Py.Ok (Linear.with_sums t x y z)).
Proof.
  unfold IGRF12.legendre_diagonal, Linear.with_sums.
  cbn [IGRF12.p IGRF12.q IGRF12.cl IGRF12.sl IGRF12.x IGRF12.y IGRF12.z
       IGRF12.rr IGRF12.l IGRF12.m IGRF12.n IGRF12.fn IGRF12.gn].
  repeat match goal with
    | |- Py.bind ?c _ = Py.bind (Py.bind ?c _) _ =>
        destruct c; cbn [Py.bind]; [| reflexivity]
    end.
  reflexivity.
Qed.

Lemma east_term_blend (a b ct st : R) (k fm : Z) (s : IGRF12.state)
      (one1 two1 one2 two2 one3 two3 x1 y1 z1 x2 y2 z2 x3 z3 u v : R) :
  one3 = a * one1 + b * one2 ->
  two3 = a * two1 + b * two2 ->
  IGRF12.east_term ct st k fm one1 two1 (Linear.with_sums s x1 y1 z1)
  = Py.Ok u ->
  IGRF12.east_term ct st k fm one2 two2 (Linear.with_sums s x2 y2 z2)
  = Py.Ok v ->
  IGRF12.east_term ct st k fm one3 two3
    (Linear.with_sums s x3 (a * y1 + b * y2) z3)
  = Py.Ok (a * u + b * v).
Proof.
  intros -> -> H1 H2. unfold IGRF12.east_term, Linear.with_sums in *.
  cbn [IGRF12.p IGRF12.q IGRF12.cl IGRF12.sl IGRF12.x IGRF12.y IGRF12.z
       IGRF12.rr IGRF12.l IGRF12.m IGRF12.n IGRF12.fn IGRF12.gn] in *.
  destruct (Py.eqb st 0.0).
  - bind_inv H1. cbn [Py.bind] in *.
    injection H1 as <-. injection H2 as <-. f_equal. ring.
  - bind_inv H1. cbn [Py.bind] in *.
    unfold Py.div in *. destruct (Req_dec_T st 0) as [Z0 | N0];
      [discriminate |].
    cbn [Py.bind] in *. injection E2 as <-.
    injection H1 as <-. injection H2 as <-. f_equal. field. exact N0.
Qed.

Ltac sums_proj :=
  cbn [Linear.with_sums IGRF12.p IGRF12.q IGRF12.cl IGRF12.sl IGRF12.x
       IGRF12.y IGRF12.z IGRF12.rr IGRF12.l IGRF12.m IGRF12.n IGRF12.fn
       IGRF12.gn Py.bind] in *.

Lemma legendre_sums (ct st : R) (k : Z) (c1 c2 : bool) (fm : Z)
      (s : IGRF12.state) (x y z : R) :
  (if c1 then IGRF12.legendre_off_diagonal ct st k (Linear.with_sums s x y z)
   else if c2
        then IGRF12.legendre_diagonal ct st k fm (Linear.with_sums s x y z)
        else Py.Ok (Linear.with_sums s x y z))
  = Py.bind (if c1 then IGRF12.legendre_off_diagonal ct st k s
             else if c2 then IGRF12.legendre_diagonal ct st k fm s
                  else Py.Ok s)
            (fun t => Py.Ok (Linear.with_sums t x y z)).
Proof.
  destruct c1; [apply legendre_off_diagonal_sums |].
  destruct c2; [apply legendre_diagonal_sums | reflexivity].
Qed.

Lemma legendre_order (ct st : R) (k : Z) (c1 c2 : bool) (fm : Z)
      (s t : IGRF12.state) :
  (if c1 then IGRF12.legendre_off_diagonal ct st k s
   else if c2 then IGRF12.legendre_diagonal ct st k fm s else Py.Ok s)
  = Py.Ok t ->
  IGRF12.m t = IGRF12.m s /\ IGRF12.l t = IGRF12.l s
  /\ IGRF12.n t = IGRF12.n s.
Proof.
  intros H.
  assert (E : Skeleton.of_state t = Skeleton.of_state s).
  { destruct c1; [exact (legendre_off_diagonal_ctl ct st k s t H) |].
    destruct c2; [exact (legendre_diagonal_ctl ct st k fm s t H) |].
    injection H as <-. reflexivity. }
  unfold Skeleton.of_state in E. injection E as -> -> ->. auto.
Qed.

Lemma body_blend (a b : R) (gh1 gh2 : list R) (e : IGRF12.epoch)
      (ct st ratio : R) (k : Z) (s t1 t2 : IGRF12.state)
      (x1 y1 z1 x2 y2 z2 : R) :
  List.length gh1 = List.length gh2 ->
  (1 <= IGRF12.m s)%Z ->
  IGRF12.body gh1 e ct st ratio k (Linear.with_sums s x1 y1 z1) = Py.Ok t1 ->
  IGRF12.body gh2 e ct st ratio k (Linear.with_sums s x2 y2 z2) = Py.Ok t2 ->
  t2 = Linear.with_sums t1 (IGRF12.x t2) (IGRF12.y t2) (IGRF12.z t2)
  /\ IGRF12.body (Linear.blend a b gh1 gh2) e ct st ratio k
       (Linear.with_sums s (a * x1 + b * x2) (a * y1 + b * y2)
          (a * z1 + b * z2))
     = Py.Ok (Linear.with_sums t1
                (a * IGRF12.x t1 + b * IGRF12.x t2)
                (a * IGRF12.y t1 + b * IGRF12.y t2)
                (a * IGRF12.z t1 + b * IGRF12.z t2)).
Proof.
  intros Hlen Hm H1 H2. unfold IGRF12.body in *.
  cbn [Linear.with_sums IGRF12.m IGRF12.n] in *.
  destruct (IGRF12.n s >=? IGRF12.m s)%Z eqn:Enm.
  - fold (Linear.with_sums s x1 y1 z1) in H1.
    fold (Linear.with_sums s x2 y2 z2) in H2.
    fold (Linear.with_sums s (a * x1 + b * x2) (a * y1 + b * y2)
            (a * z1 + b * z2)).
    rewrite legendre_sums in H1, H2 |- *.
    destruct (if negb (IGRF12.m s =? IGRF12.n s)%Z
              then IGRF12.legendre_off_diagonal ct st k s
              else if negb (k =? 3)%Z
                   then IGRF12.legendre_diagonal ct st k (IGRF12.m s) s
                   else Py.Ok s) as [s' |] eqn:EL;
      cbn [Py.bind] in *; [| discriminate].
    destruct (legendre_order _ _ _ _ _ _ _ _ EL) as (Em & El & En).
    assert (E0 : (IGRF12.m s' =? 0)%Z = false) by (apply Z.eqb_neq; lia).
    sums_proj. rewrite E0 in H1, H2 |- *. sums_proj.
    bind_inv H1.
    destruct (IGRF12.coefficient gh2 e (IGRF12.ll e + IZR (IGRF12.l s'))
                (-1)) as [g2 |] eqn:G2; cbn [Py.bind] in H2;
      [| discriminate].
    destruct (IGRF12.coefficient gh2 e (IGRF12.ll e + IZR (IGRF12.l s')) 0)
      as [h2 |] eqn:K2; cbn [Py.bind] in H2; [| discriminate].
    destruct (IGRF12.east_term ct st k (IGRF12.m s) (g2 * IGRF12.rr s')
                (h2 * IGRF12.rr s') (Linear.with_sums s' x2 y2 z2))
      as [u2 |] eqn:U2; cbn [Py.bind] in H2; [| discriminate].
    injection H1 as <-. injection H2 as <-. sums_proj.
    rewrite (coefficient_blend a b gh1 gh2 e _ _ v g2 Hlen E G2).
    rewrite (coefficient_blend a b gh1 gh2 e _ _ v0 h2 Hlen E1 K2).
    cbn [Py.bind].
    rewrite (east_term_blend a b ct st k (IGRF12.m s) s'
               (v * IGRF12.rr s') (v0 * IGRF12.rr s')
               (g2 * IGRF12.rr s') (h2 * IGRF12.rr s')
               ((a * v + b * g2) * IGRF12.rr s')
               ((a * v0 + b * h2) * IGRF12.rr s')
               x1 y1 z1 x2 y2 z2 (a * x1 + b * x2) (a * z1 + b * z2) v6 u2);
      [| ring | ring | exact E7 | exact U2].
    cbn [Py.bind]. split; [reflexivity |].
    unfold Linear.with_sums. sums_proj. f_equal. f_equal; ring.
  - sums_proj. injection H1 as <-. injection H2 as <-. sums_proj.
    split; reflexivity.
Qed.

Lemma with_sums_eta (s : IGRF12.state) :
  Linear.with_sums s (IGRF12.x s) (IGRF12.y s) (IGRF12.z s) = s.
Proof. destruct s. reflexivity. Qed.

Lemma for_each_blend (a b : R) (gh1 gh2 : list R) (e : IGRF12.epoch)
      (ct st ratio : R) (ks : list Z) :
  List.length gh1 = List.length gh2 ->
  forall (s t1 t2 : IGRF12.state) (x1 y1 z1 x2 y2 z2 : R),
    (1 <= IGRF12.m s)%Z ->
    IGRF12.for_each ks (IGRF12.body gh1 e ct st ratio)
      (Linear.with_sums s x1 y1 z1) = Py.Ok t1 ->
    IGRF12.for_each ks (IGRF12.body gh2 e ct st ratio)
      (Linear.with_sums s x2 y2 z2) = Py.Ok t2 ->
    IGRF12.for_each ks (IGRF12.body (Linear.blend a b gh1 gh2) e ct st ratio)
      (Linear.with_sums s (a * x1 + b * x2) (a * y1 + b * y2)
         (a * z1 + b * z2))
    = Py.Ok (Linear.with_sums t1
               (a * IGRF12.x t1 + b * IGRF12.x t2)
               (a * IGRF12.y t1 + b * IGRF12.y t2)
               (a * IGRF12.z t1 + b * IGRF12.z t2)).
Proof.
  intros Hlen. induction ks as [| k ks IH];
    intros s t1 t2 x1 y1 z1 x2 y2 z2 Hm H1 H2; cbn [IGRF12.for_each] in *.
  - injection H1 as <-. injection H2 as <-. reflexivity.
  - destruct (IGRF12.body gh1 e ct st ratio k (Linear.with_sums s x1 y1 z1))
      as [u1 |] eqn:B1; cbn [Py.bind] in H1; [| discriminate].
    destruct (IGRF12.body gh2 e ct st ratio k (Linear.with_sums s x2 y2 z2))
      as [u2 |] eqn:B2; cbn [Py.bind] in H2; [| discriminate].
    destruct (body_blend a b gh1 gh2 e ct st ratio k s u1 u2
                x1 y1 z1 x2 y2 z2 Hlen Hm B1 B2) as [E2 E3].
    rewrite E3. cbn [Py.bind].
    assert (Hm1 : (1 <= IGRF12.m u1)%Z).
    { assert (C := body_ctl gh1 e ct st ratio k
                     (Linear.with_sums s x1 y1 z1) u1 Hm B1).
      unfold Skeleton.of_state in C.
      destruct (IGRF12.n (Linear.with_sums s x1 y1 z1)
                >=? IGRF12.m (Linear.with_sums s x1 y1 z1))%Z;
        injection C as _ C _; cbn [Linear.with_sums IGRF12.m] in C; lia. }
    rewrite <- (with_sums_eta u1) in H1. rewrite E2 in H2.
    exact (IH u1 t1 t2 _ _ _ _ _ _ Hm1 H1 H2).
Qed.

Lemma synthesize_blend (a b : R) (gh1 gh2 : list R) (e : IGRF12.epoch)
      (itype : Z) (alt colat elong : R)
      (x1 y1 z1 f1 x2 y2 z2 f2 : R) :
  List.length gh1 = List.length gh2 ->
  IGRF12.synthesize gh1 e itype alt colat elong = Py.Ok (x1, y1, z1, f1) ->
  IGRF12.synthesize gh2 e itype alt colat elong = Py.Ok (x2, y2, z2, f2) ->
  let x := a * x1 + b * x2 in
  let y := a * y1 + b * y2 in
  let z := a * z1 + b * z2 in
  IGRF12.synthesize (Linear.blend a b gh1 gh2) e itype alt colat elong
  = Py.Ok (x, y, z, sqrt (x * x + y * y + z * z)).
Proof.
  intros Hlen H1 H2. cbv zeta. unfold IGRF12.synthesize in *.
  destruct (IGRF12.prepare itype alt colat) as [fr |]; cbn [Py.bind] in *;
    [| discriminate].
  destruct (Py.div 6371.2 (IGRF12.r fr)) as [ratio |]; cbn [Py.bind] in *;
    [| discriminate].
  destruct (IGRF12.for_each (Py.range 2 (Py.int (IGRF12.kmx e)))
              (IGRF12.body gh1 e (IGRF12.ct fr) (IGRF12.st fr) ratio)
              (IGRF12.initial elong fr ratio)) as [t1 |] eqn:F1;
    cbn [Py.bind] in H1; [| discriminate].
  destruct (IGRF12.for_each (Py.range 2 (Py.int (IGRF12.kmx e)))
              (IGRF12.body gh2 e (IGRF12.ct fr) (IGRF12.st fr) ratio)
              (IGRF12.initial elong fr ratio)) as [t2 |] eqn:F2;
    cbn [Py.bind] in H2; [| discriminate].
  assert (F3 := for_each_blend a b gh1 gh2 e (IGRF12.ct fr) (IGRF12.st fr)
                  ratio (Py.range 2 (Py.int (IGRF12.kmx e))) Hlen
                  (IGRF12.initial elong fr ratio) t1 t2 0 0 0 0 0 0).
  replace (a * 0 + b * 0) with 0 in F3 by ring.
  change (Linear.with_sums (IGRF12.initial elong fr ratio) 0 0 0)
    with (IGRF12.initial elong fr ratio) in F3.
  rewrite F3; [| cbn; lia | exact F1 | exact F2].
  cbn [Py.bind Linear.with_sums IGRF12.x IGRF12.y IGRF12.z].
  injection H1 as <- <- <- _. injection H2 as <- <- <- _.
  f_equal. f_equal; [f_equal; [f_equal |] |]; try ring.
  f_equal. ring.
Qed.

(** ** coordinate.py: the geocentric colatitude *)

(** The rotation [(cd, sd)] of the WGS84 reduction turns towards the
    equator. *)
Lemma geodetic_rotation_sign (alt theta : R) :
  0 <= alt ->
  exists fr,
    IGRF12.geodetic_reduction alt (cos theta) (sin theta) = Py.Ok fr
    /\ 0 < IGRF12.cd fr
    /\ (0 <= cos theta * sin theta -> 0 <= IGRF12.sd fr)
    /\ (cos theta * sin theta <= 0 -> IGRF12.sd fr <= 0).
Proof.
  intros Halt. unfold IGRF12.geodetic_reduction.
  pose proof (unit_circle theta) as Hc.
  set (ct := cos theta) in *. set (st := sin theta) in *.
  assert (Hst : 0 <= st * st) by nra.
  assert (Hct : 0 <= ct * ct) by nra.
  set (three := 40680631.6 * st * st + 40408296.0 * ct * ct) in *.
  assert (H3 : 0 < three) by (unfold three; nra).
  set (rho := sqrt three) in *.
  assert (Hrho : 0 < rho) by (apply sqrt_lt_R0; exact H3).
  set (d := (40680631.6 * (40680631.6 * st * st)
             + 40408296.0 * (40408296.0 * ct * ct)) / three) in *.
  assert (Hd : 0 < d).
  { unfold d. apply Rdiv_lt_0_compat; [nra | exact H3]. }
  set (R2 := alt * (alt + 2.0 * rho) + d) in *.
  assert (HR2 : 0 < R2) by (unfold R2; nra).
  set (r := sqrt R2) in *.
  assert (Hr : 0 < r) by (apply sqrt_lt_R0; exact HR2).
  rewrite (div_ok _ three) by lra. cbn [Py.bind]. fold d. fold R2. fold r.
  rewrite (div_ok _ r) by lra. cbn [Py.bind].
  rewrite (div_ok _ rho) by lra. cbn [Py.bind].
  rewrite (div_ok _ r) by lra. cbn [Py.bind].
  eexists. split; [reflexivity |]. cbn [IGRF12.cd IGRF12.sd].
  assert (Hir : 0 < / r) by (apply Rinv_0_lt_compat; exact Hr).
  assert (Hirho : 0 < / rho) by (apply Rinv_0_lt_compat; exact Hrho).
  assert (Hk : 0 < (40680631.6 - 40408296.0) * / rho * / r).
  { apply Rmult_lt_0_compat; [apply Rmult_lt_0_compat; [lra | exact Hirho]
                             | exact Hir]. }
  split; [apply Rdiv_lt_0_compat; lra |].
  replace ((40680631.6 - 40408296.0) / rho * ct * st / r)
    with ((40680631.6 - 40408296.0) * / rho * / r * (ct * st))
    by (unfold Rdiv; ring).
  split; intros H; nra.
Qed.

(** ** apex.py: where a trace is launched *)

Lemma radius_geocentric2cartesian (lat lon rho : R) :
  0 <= rho ->
  let '(x, y, z) := Coordinate.geocentric2cartesian lat lon rho in
  Apex.radius [x; y; z] = rho.
Proof.
  intros H. unfold Coordinate.geocentric2cartesian, Apex.radius, Apex.at1.
  cbn [nth].
  assert (Ha := unit_circle lat). assert (Hb := unit_circle lon).
  replace ((rho * cos lat * cos lon) ^ 2 + (rho * cos lat * sin lon) ^ 2
           + (rho * sin lat) ^ 2)
    with (rho * rho
          * (sin lat * sin lat
             + cos lat * cos lat * (sin lon * sin lon + cos lon * cos lon)))
    by ring.
  rewrite Hb, Rmult_1_r, Ha, Rmult_1_r. apply sqrt_square. exact H.
Qed.

Section LaunchFacts.

Variable igrf12syn : Z -> R -> Z -> R -> R -> R -> R * R * R * R.
Variable getCoeffs : R -> (nat -> nat -> R) * (nat -> nat -> R).

Lemma launch_position (lat lon alt date : R) :
  0 <= alt ->
  exists start rest,
    Apex.findApex igrf12syn getCoeffs lat lon alt date = start :: rest
    /\ (let '(gccolat, _, gcrho) :=
          Coordinate.geodetic2geocentric (PI / 2 - lat / Apex.FACT) alt in
        let '(x0, y0, z0) :=
          Coordinate.geocentric2cartesian (PI / 2 - gccolat)
            (lon / Apex.FACT) gcrho in
        start = [x0; y0; z0] /\ Apex.radius start = gcrho)
    /\ alt + sqrt 40408296.0 <= Apex.radius start <= alt + sqrt 40680631.6.
Proof.
  intros Halt.
  destruct (findApex_starts_twice igrf12syn getCoeffs lat lon alt date)
    as (start & rest & E0 & Ef).
  exists start, (start :: rest). split; [exact Ef |].
  destruct (geodetic_reduction_spec alt (PI / 2 - lat / Apex.FACT) Halt)
    as (fr & _ & E & Hr & _ & _ & _ & Hbounds).
  revert E0. unfold Tracer.passes, Apex.launch.
  destruct (Apex.northPole getCoeffs date) as [nlat nlon].
  rewrite E.
  pose proof (radius_geocentric2cartesian
                (PI / 2 - Py.arctan2 (IGRF12.st fr) (IGRF12.ct fr))
                (lon / Apex.FACT) (IGRF12.r fr) (Rlt_le _ _ Hr)) as Hrad.
  destruct (Coordinate.geocentric2cartesian
              (PI / 2 - Py.arctan2 (IGRF12.st fr) (IGRF12.ct fr))
              (lon / Apex.FACT) (IGRF12.r fr)) as [[x0 y0] z0].
  match goal with
  | |- context [igrf12syn ?a ?b ?c ?d ?e ?f] =>
      destruct (igrf12syn a b c d e f) as [[[bx by_] bz] bb]
  end.
  cbn [Nat.iter nat_rect Apex.trace]. intros E0. injection E0 as <-.
  split; [split; [reflexivity | exact Hrad] |].
  rewrite Hrad. exact Hbounds.
Qed.

End LaunchFacts.

(** * The bootstrap apex check *)

(** Column [j] of a matrix of three rows, read entry by entry. *)
Lemma column_explicit (M : list (list R)) (j : nat) :
  List.length M = 3%nat ->
  map (fun row => nth j row 0) M = Tracer.column M j.
Proof.
  intros H. destruct M as [| r0 [| r1 [| r2 [| r3 M]]]]; try discriminate H.
  reflexivity.
Qed.

Lemma itrace_step_7_first (a : Apex.arrays) (BX BY BZ BB SGN DS : R) :
  Tracer.shaped a ->
  let a' := snd (Apex.itrace a BX BY BZ BB SGN DS 7) in
  Tracer.column (Apex.YAPX a') 0 = Tracer.column (Apex.YAPX a) 1.
Proof.
  intros Hs. explicit_arrays a Hs.
  trace_compute. split_on_flag; trace_compute; reflexivity.
Qed.

Section ApexPoints.

Variable igrf12syn : Z -> R -> Z -> R -> R -> R -> R * R * R * R.
Variable getCoeffs : R -> (nat -> nat -> R) * (nat -> nat -> R).

(** The three points about the apex after the passes that run steps 6
    and 7, as positions of the trace. *)
Lemma passes_apex_points (lat lon alt date : R) :
  let arr := fun i =>
    Apex.arr (Tracer.passes igrf12syn getCoeffs lat lon alt date i) in
  Tracer.column (Apex.YAPX (arr 7%nat)) 1 = Apex.Y (arr 4%nat)
  /\ Tracer.column (Apex.YAPX (arr 7%nat)) 2 = Apex.Y (arr 6%nat)
  /\ Tracer.column (Apex.YAPX (arr 8%nat)) 0 = Apex.Y (arr 4%nat)
  /\ Tracer.column (Apex.YAPX (arr 8%nat)) 1 = Apex.Y (arr 6%nat)
  /\ Tracer.column (Apex.YAPX (arr 8%nat)) 2 = Apex.Y (arr 8%nat).
Proof.
  cbv zeta.
  destruct (passes_itrace igrf12syn getCoeffs lat lon alt date 4)
    as (X4 & Y4 & Z4 & B4 & s4 & D4 & E4 & _).
  destruct (passes_itrace igrf12syn getCoeffs lat lon alt date 5)
    as (X5 & Y5 & Z5 & B5 & s5 & D5 & E5 & _).
  destruct (passes_itrace igrf12syn getCoeffs lat lon alt date 6)
    as (X6 & Y6 & Z6 & B6 & s6 & D6 & E6 & _).
  destruct (passes_itrace igrf12syn getCoeffs lat lon alt date 7)
    as (X7 & Y7 & Z7 & B7 & s7 & D7 & E7 & _).
  cbv zeta in E4, E5, E6, E7.
  change (Z.of_nat 4) with 4%Z in E4. change (Z.of_nat 5) with 5%Z in E5.
  change (Z.of_nat 6) with 6%Z in E6. change (Z.of_nat 7) with 7%Z in E7.
  assert (S4 := passes_shaped igrf12syn getCoeffs lat lon alt date 4).
  assert (S5 := passes_shaped igrf12syn getCoeffs lat lon alt date 5).
  assert (S6 := passes_shaped igrf12syn getCoeffs lat lon alt date 6).
  assert (S7 := passes_shaped igrf12syn getCoeffs lat lon alt date 7).
  assert (C5 : Tracer.column
                 (Apex.YAPX (Apex.arr (Tracer.passes igrf12syn getCoeffs
                                         lat lon alt date 5))) 1
               = Apex.Y (Apex.arr (Tracer.passes igrf12syn getCoeffs
                                     lat lon alt date 4))).
  { rewrite E4. apply itrace_step_4. exact S4. }
  assert (C6 : Tracer.column
                 (Apex.YAPX (Apex.arr (Tracer.passes igrf12syn getCoeffs
                                         lat lon alt date 6))) 1
               = Apex.Y (Apex.arr (Tracer.passes igrf12syn getCoeffs
                                     lat lon alt date 4))).
  { rewrite E5, (itrace_step_5 _ X5 Y5 Z5 B5 s5 D5 S5). exact C5. }
  destruct (itrace_step_6 _ X6 Y6 Z6 B6 s6 D6 S6) as [C72 C71].
  cbv zeta in C72, C71. rewrite <- E6 in C72, C71. rewrite C6 in C71.
  destruct (itrace_step_7 _ X7 Y7 Z7 B7 s7 D7 S7) as [C82 C81].
  cbv zeta in C82, C81. rewrite <- E7 in C82, C81. rewrite C72 in C81.
  assert (C80 := itrace_step_7_first _ X7 Y7 Z7 B7 s7 D7 S7).
  cbv zeta in C80. rewrite <- E7 in C80. rewrite C71 in C80.
  repeat split; assumption.
Qed.

(** What the bootstrap check means for the call of [findApex]. *)
Lemma findApex_bootstrap_check (lat lon alt date : R) :
  let path := Apex.findApex igrf12syn getCoeffs lat lon alt date in
  let stop := Apex.findApex_loop igrf12syn getCoeffs lat lon alt date in
  let apex := Apex.YAPX (Apex.arr stop) in
  (8 <= List.length path)%nat
  /\ (List.length path = 8%nat
      <-> Apex.radius (nth 6 path []) < Apex.radius (nth 4 path []))
  /\ (List.length path = 8%nat ->
      Apex.arrive stop = true /\ Apex.step stop = 7%Z
      /\ Tracer.column apex 1 = nth 4 path []
      /\ Tracer.column apex 2 = nth 6 path [])
  /\ ((9 <= List.length path)%nat ->
      (List.length path = 9%nat
       <-> Apex.radius (nth 8 path []) < Apex.radius (nth 6 path [])))
  /\ (List.length path = 9%nat ->
      Apex.arrive stop = true /\ Apex.step stop = 8%Z
      /\ Tracer.column apex 0 = nth 4 path []
      /\ Tracer.column apex 1 = nth 6 path []
      /\ Tracer.column apex 2 = nth 8 path []
      /\ Apex.radius (nth 4 path []) <= Apex.radius (nth 6 path [])
      /\ Apex.radius (nth 8 path []) < Apex.radius (nth 6 path [])).
Proof.
  cbv zeta.
  destruct (findApex_stop_rule igrf12syn getCoeffs lat lon alt date)
    as (Hn & H8 & H9 & _).
  cbv zeta in Hn, H8, H9.
  split; [lia |]. split; [exact H8 |].
  revert Hn H8 H9. unfold Apex.findApex.
  destruct (findApex_first igrf12syn getCoeffs lat lon alt date)
    as (J & HJ & EJ & Hbefore & Hlast).
  rewrite EJ.
  assert (Hlen : List.length
                   (Apex.trace (Tracer.passes igrf12syn getCoeffs
                                  lat lon alt date J)) = S J).
  { rewrite (passes_trace igrf12syn getCoeffs), length_map, length_seq.
    reflexivity. }
  rewrite Hlen. intros Hn H8 H9.
  destruct (passes_apex_points lat lon alt date)
    as (A71 & A72 & A80 & A81 & A82).
  cbv zeta in A71, A72, A80, A81, A82.
  destruct (passes_bootstrap_checks igrf12syn getCoeffs lat lon alt date)
    as [B7 B8].
  cbv zeta in B7, B8.
  split; [| split].
  - intros E. assert (J = 7%nat) by lia. subst J.
    rewrite !(passes_nth igrf12syn getCoeffs) by lia.
    split; [destruct Hlast as [C | C]; [exact C | lia] |].
    split; [apply (passes_step igrf12syn getCoeffs) |].
    split; assumption.
  - exact H9.
  - intros E. assert (J = 8%nat) by lia. subst J.
    rewrite !(passes_nth igrf12syn getCoeffs) by lia.
    assert (Harr : Apex.arrive (Tracer.passes igrf12syn getCoeffs
                                  lat lon alt date 8) = true)
      by (destruct Hlast as [C | C]; [exact C | lia]).
    split; [exact Harr |].
    split; [apply (passes_step igrf12syn getCoeffs) |].
    split; [exact A80 |]. split; [exact A81 |]. split; [exact A82 |].
    split.
    + apply Rnot_lt_le. intros C. apply B7 in C.
      rewrite Hbefore in C by lia. discriminate.
    + apply B8. exact Harr.
Qed.

End ApexPoints.

(** * Further properties *)

(** X1. cartesian2geocentric returns spherical coordinates of the point
    it is given: geocentric2cartesian maps the returned (lat, lon, rho)
    back to (x, y, z), for every point, the origin and the axis included.
    rho is the distance from the origin, lat lies in [-pi/2, pi/2] and lon
    in (-pi, pi]. *)
Theorem X1_cartesian2geocentric_is_inverted_by_geocentric2cartesian :
  forall x y z : R,
    let '(lat, lon, rho) := Coordinate.cartesian2geocentric x y z in
    Coordinate.geocentric2cartesian lat lon rho = (x, y, z)
    /\ 0 <= rho
    /\ rho * rho = x * x + y * y + z * z
    /\ - (PI / 2) <= lat <= PI / 2
    /\ - PI < lon <= PI.
Proof.
  intros x y z.
  generalize (cartesian_roundtrip x y z) (cartesian2geocentric_range x y z).
  destruct (Coordinate.cartesian2geocentric x y z) as [[lat lon] rho].
  intros H1 (H2 & H3 & H4 & H5). repeat split; try assumption; apply H3
    || apply H4.
Qed.

(** X2. For a point off the axis given by spherical coordinates in their
    canonical range (rho > 0, -pi/2 < lat < pi/2, -pi < lon <= pi),
    cartesian2geocentric recovers the coordinates geocentric2cartesian was
    given. *)
Theorem X2_geocentric2cartesian_is_inverted_by_cartesian2geocentric :
  forall lat lon rho : R,
    0 < rho -> - (PI / 2) < lat < PI / 2 -> - PI < lon <= PI ->
    let '(x, y, z) := Coordinate.geocentric2cartesian lat lon rho in
    Coordinate.cartesian2geocentric x y z = (lat, lon, rho).
Proof.
  intros lat lon rho.
  intros Hrho Hlat Hlon. pose proof PI_RGT_0 as Hpi.
  unfold Coordinate.geocentric2cartesian, Coordinate.cartesian2geocentric.
  assert (Hcl : 0 < cos lat) by (apply cos_gt_0; lra).
  assert (Hxy : rho * cos lat * cos lon * (rho * cos lat * cos lon)
                + rho * cos lat * sin lon * (rho * cos lat * sin lon)
                = (rho * cos lat) * (rho * cos lat)).
  { replace (rho * cos lat * cos lon * (rho * cos lat * cos lon)
             + rho * cos lat * sin lon * (rho * cos lat * sin lon))
      with (rho * cos lat * (rho * cos lat)
            * (sin lon * sin lon + cos lon * cos lon)) by ring.
    rewrite unit_circle. ring. }
  rewrite Hxy.
  assert (Hh : sqrt (rho * cos lat * (rho * cos lat)) = rho * cos lat)
    by (apply sqrt_square; nra).
  rewrite Hh.
  assert (Hr : sqrt (rho * cos lat * (rho * cos lat)
                     + rho * sin lat * (rho * sin lat)) = rho).
  { replace (rho * cos lat * (rho * cos lat) + rho * sin lat * (rho * sin lat))
      with (rho * rho * (sin lat * sin lat + cos lat * cos lat)) by ring.
    rewrite unit_circle, Rmult_1_r. apply sqrt_square. lra. }
  rewrite Hr.
  rewrite (arctan2_of_angle rho lat) by lra.
  rewrite (arctan2_of_angle (rho * cos lat) lon) by (try nra; lra).
  reflexivity.
Qed.

Lemma X2_geocentric2cartesian_is_inverted_by_cartesian2geocentric_witness :
  let '(x, y, z) := Coordinate.geocentric2cartesian 0 0 1 in
  Coordinate.cartesian2geocentric x y z = (0, 0, 1).
Proof.
  apply (X2_geocentric2cartesian_is_inverted_by_cartesian2geocentric 0 0 1);
    assert (H := PI_RGT_0); lra.
Defined.

(** X3. rotateVector(vec, lon, lat) turns the local components
    [north, east, down] at latitude lat and longitude lon into Cartesian
    ones: the result has component north along the local north direction
    (-sin lat cos lon, -sin lat sin lon, cos lat), component east along
    the local east direction (-sin lon, cos lon, 0), and component -down
    along the outward radial direction
    (cos lat cos lon, cos lat sin lon, sin lat). *)
Theorem X3_rotateVector_local_frame :
  forall north east down lon lat : R,
    let v := Coordinate.rotateVector (north, east, down) lon lat in
    Coordinate.row_dot v
      (- sin lat * cos lon, - sin lat * sin lon, cos lat) = north
    /\ Coordinate.row_dot v (- sin lon, cos lon, 0) = east
    /\ Coordinate.row_dot v
         (cos lat * cos lon, cos lat * sin lon, sin lat) = - down.
Proof.
  intros north east down lon lat.
  cbv zeta.
  unfold Coordinate.rotateVector, Coordinate.spanMat, Coordinate.dot,
    Coordinate.row_dot.
  assert (Ha := unit_circle lon). assert (Hb := unit_circle lat).
  repeat split.
  - transitivity
      (north * (sin lat * sin lat * (sin lon * sin lon + cos lon * cos lon)
                + cos lat * cos lat)
       + down * (cos lat * sin lat)
         * (sin lon * sin lon + cos lon * cos lon - 1)); [ring |].
    rewrite Ha, Rmult_1_r, Hb. ring.
  - transitivity (east * (sin lon * sin lon + cos lon * cos lon)); [ring |].
    rewrite Ha. ring.
  - transitivity
      (- down * (sin lat * sin lat
                 + cos lat * cos lat
                   * (sin lon * sin lon + cos lon * cos lon))
       + north * (cos lat * sin lat)
         * (1 - (sin lon * sin lon + cos lon * cos lon))); [ring |].
    rewrite Ha, Rmult_1_r, Hb. ring.
Qed.

(** X4. At a non-negative altitude the geodetic-to-geocentric block of
    igrf12syn (itype = 1) raises no division fault and computes what
    geodetic2geocentric of coordinate.py computes: the same radius r, the
    geocentric colatitude arctan2(st, ct) and the angle arctan2(sd, cd).
    (cd, sd) is a unit vector, the new (ct, st) is (cos theta, sin theta)
    rotated by it, and r lies between alt + b and alt + a for the
    semi-axes b = sqrt(40408296.0), a = sqrt(40680631.6). *)
Theorem X4_geodetic_block_agrees_with_geodetic2geocentric :
  forall alt theta : R,
    0 <= alt ->
    exists fr,
      IGRF12.geodetic_reduction alt (cos theta) (sin theta) = Py.Ok fr
      /\ Coordinate.geodetic2geocentric theta alt
         = (Py.arctan2 (IGRF12.st fr) (IGRF12.ct fr),
            Py.arctan2 (IGRF12.sd fr) (IGRF12.cd fr), IGRF12.r fr)
      /\ 0 < IGRF12.r fr
      /\ IGRF12.cd fr * IGRF12.cd fr + IGRF12.sd fr * IGRF12.sd fr = 1
      /\ IGRF12.ct fr = cos theta * IGRF12.cd fr - sin theta * IGRF12.sd fr
      /\ IGRF12.st fr = sin theta * IGRF12.cd fr + cos theta * IGRF12.sd fr
      /\ alt + sqrt 40408296.0 <= IGRF12.r fr <= alt + sqrt 40680631.6.
Proof. exact geodetic_reduction_spec. Qed.

Lemma X4_geodetic_block_agrees_with_geodetic2geocentric_witness :
  exists fr,
    IGRF12.geodetic_reduction 300 (cos 1) (sin 1) = Py.Ok fr
    /\ 0 < IGRF12.r fr.
Proof.
  destruct (X4_geodetic_block_agrees_with_geodetic2geocentric 300 1)
    as (fr & H1 & _ & H3 & _); [lra |].
  exists fr. split; assumption.
Defined.

(** X5. DDECDM undoes DMDDEC on angles of at most 360 degrees, the
    doubles of the code being read as reals: for whole degrees d with
    -360 <= d <= 360 and minutes m, with 0 <= m <= 59 when d is not 0 and
    -59 <= m <= 59 when d is 0 (the sign of an angle between -1 and 0
    degrees is carried by the minutes), DDECDM(DMDDEC(d, m)) = (d, m).
    For such d the double d + m/60.0 carries the minutes; larger
    integers, for which it need not, are left out. *)
Theorem X5_DDECDM_undoes_DMDDEC :
  forall d m : Z,
    (-360 <= d <= 360)%Z ->
    (d <> 0%Z /\ (0 <= m <= 59)%Z) \/ (d = 0%Z /\ (-59 <= m <= 59)%Z) ->
    IGRF12.DDECDM (IGRF12.DMDDEC d m) = (d, m).
Proof.
  intros d m _ H. apply DDECDM_DMDDEC. exact H.
Qed.

Lemma X5_DDECDM_undoes_DMDDEC_witness :
  IGRF12.DDECDM (IGRF12.DMDDEC (-12) 30) = ((-12)%Z, 30%Z).
Proof.
  apply (X5_DDECDM_undoes_DMDDEC (-12) 30); [lia |]. left. split; lia.
Defined.

(** X6. For every angle X in decimal degrees, DDECDM(X) = (d, m) has
    -59 <= m <= 59, with m >= 0 unless d = 0, and DMDDEC(d, m) differs
    from X by at most half a minute (1/120 degree). *)
Theorem X6_DMDDEC_of_DDECDM_is_within_half_a_minute :
  forall X : R,
    let '(d, m) := IGRF12.DDECDM X in
    (-59 <= m <= 59)%Z
    /\ (d <> 0%Z -> (0 <= m)%Z)
    /\ Rabs (IGRF12.DMDDEC d m - X) <= 1 / 120.
Proof.
  intros v.
  destruct (DDECDM_unsigned v) as (d & m & Hd & Hm & Herr & ->).
  cbv zeta. apply abs_le_inv in Herr.
  assert (Hd' : 0 <= IZR d) by (apply IZR_le; lia).
  assert (Hm' : 0 <= IZR m <= 59) by (split; apply IZR_le; lia).
  unfold IGRF12.DMDDEC.
  destruct (Rtotal_order v 0) as [Hv | [-> | Hv]].
  - rewrite sign_neg, int_minus_1_1 by exact Hv.
    rewrite Rabs_left in Herr by exact Hv.
    destruct (Z.eqb_spec d 0) as [-> | Nd]; cbn [negb].
    + destruct (Z.eqb_spec m 0) as [-> | Nm]; cbn [negb].
      * change (0 <? 0)%Z with false. cbv iota.
        split; [lia |]. split; [lia |]. apply Rabs_le. lra.
      * change (0 <? 0)%Z with false. cbv iota.
        split; [lia |]. split; [lia |].
        replace (m * -1)%Z with (- m)%Z by lia. rewrite opp_IZR.
        apply Rabs_le. lra.
    + assert (E : (d * -1 <? 0)%Z = true) by (apply Z.ltb_lt; lia).
      rewrite E. split; [lia |]. split; [lia |].
      replace (d * -1)%Z with (- d)%Z by lia. rewrite !opp_IZR.
      apply Rabs_le. lra.
  - rewrite sign_zero, int_0_1_1. rewrite Rabs_R0 in Herr.
    destruct (Z.eqb_spec d 0) as [-> | Nd]; cbn [negb].
    + destruct (Z.eqb_spec m 0) as [-> | Nm]; cbn [negb].
      * change (0 <? 0)%Z with false. cbv iota.
        split; [lia |]. split; [lia |]. apply Rabs_le. lra.
      * change (0 <? 0)%Z with false. cbv iota.
        split; [lia |]. split; [lia |].
        replace (m * 0)%Z with 0%Z by lia. apply Rabs_le. lra.
    + assert (Hd1 : 1 <= IZR d) by (apply IZR_le; lia). lra.
  - rewrite sign_pos, int_1_1 by exact Hv.
    rewrite Rabs_right in Herr by lra.
    destruct (Z.eqb_spec d 0) as [-> | Nd]; cbn [negb].
    + destruct (Z.eqb_spec m 0) as [-> | Nm]; cbn [negb].
      * change (0 <? 0)%Z with false. cbv iota.
        split; [lia |]. split; [lia |]. apply Rabs_le. lra.
      * change (0 <? 0)%Z with false. cbv iota.
        split; [lia |]. split; [lia |].
        replace (m * 1)%Z with m by lia. apply Rabs_le. lra.
    + assert (E : (d * 1 <? 0)%Z = false) by (apply Z.ltb_ge; lia).
      rewrite E. split; [lia |]. split; [lia |].
      replace (d * 1)%Z with d by lia. apply Rabs_le. lra.
Qed.

(** X7. From a coefficient file of the published shape (195 coefficient
    rows of 25 values) loadCoeffs builds a list of 3451 numbers, epoch by
    epoch: entry 120 i + j is value i of row j for the 19 degree-10 epochs
    (i < 19, j < 120), entry 2280 + 195 (i - 19) + j is value i of row j
    for the later columns (19 <= i < 25, j < 195), and the last entry,
    number 3450, is the appended 0. *)
Theorem X7_loadCoeffs_layout :
  forall (w : IGRF12.world) (text : list IGRF12.line),
    IGRF12.files w "igrf12coeffs.txt" = Some text ->
    Observed.published text ->
    let rows := map IGRF12.fields (filter IGRF12.is_coeff_line text) in
    exists gh,
      fst (IGRF12.loadCoeffs "igrf12coeffs.txt" w) = Py.Ok gh
      /\ List.length gh = 3451%nat
      /\ (forall i j : nat,
             (i < 19)%nat -> (j < 120)%nat ->
             nth (120 * i + j) gh 0 = nth i (nth j rows []) 0)
      /\ (forall i j : nat,
             (19 <= i < 25)%nat -> (j < 195)%nat ->
             nth (2280 + 195 * (i - 19) + j) gh 0 = nth i (nth j rows []) 0)
      /\ nth 3450 gh 0 = 0.
Proof. exact loadCoeffs_layout. Qed.

Lemma X7_loadCoeffs_layout_witness :
  exists gh,
    fst (IGRF12.loadCoeffs "igrf12coeffs.txt" Inputs.fresh) = Py.Ok gh
    /\ List.length gh = 3451%nat.
Proof.
  destruct (X7_loadCoeffs_layout Inputs.fresh Inputs.zero_file fresh_file
              zero_file_published) as (gh & H1 & H2 & _).
  exists gh. split; assumption.
Defined.

(** X8. When the file igrf12coeffs.txt does not exist, every igrf12syn
    call raises FileNotFoundError, whatever its arguments, and has printed
    nothing. *)
Theorem X8_igrf12syn_without_the_coefficient_file :
  forall (isv : Z) (date : R) (itype : Z) (alt colat elong : R)
         (w : IGRF12.world),
    IGRF12.files w "igrf12coeffs.txt" = None ->
    IGRF12.igrf12syn isv date itype alt colat elong w
    = (Py.Raise Py.FileNotFoundError, w).
Proof.
  intros isv date itype alt colat elong w.
  intros H. unfold IGRF12.igrf12syn, IGRF12.loadCoeffs. rewrite H.
  reflexivity.
Qed.

Lemma X8_igrf12syn_without_the_coefficient_file_witness :
  IGRF12.igrf12syn 0 2005 1 300 40 116 (IGRF12.mkWorld (fun _ => None) [])
  = (Py.Raise Py.FileNotFoundError, IGRF12.mkWorld (fun _ => None) []).
Proof.
  apply (X8_igrf12syn_without_the_coefficient_file 0 2005 1 300 40 116
           (IGRF12.mkWorld (fun _ => None) [])).
  reflexivity.
Defined.

(** X9. When the coefficient file has at least one and fewer than 120
    coefficient rows, all with the same positive number of values, every
    igrf12syn call raises IndexError while loadCoeffs copies the first
    column, before anything is printed and whatever the epoch. *)
Theorem X9_igrf12syn_with_a_short_coefficient_file :
  forall (isv : Z) (date : R) (itype : Z) (alt colat elong : R)
         (w : IGRF12.world) (text : list IGRF12.line),
    IGRF12.files w "igrf12coeffs.txt" = Some text ->
    let rows := map IGRF12.fields (filter IGRF12.is_coeff_line text) in
    (0 < List.length rows < 120)%nat ->
    (0 < List.length (hd [] rows))%nat ->
    Forall (fun row => List.length row = List.length (hd [] rows)) rows ->
    IGRF12.igrf12syn isv date itype alt colat elong w
    = (Py.Raise Py.IndexError,
       IGRF12.emit (IGRF12.Opened "igrf12coeffs.txt") w).
Proof.
  intros isv date itype alt colat elong w text Hfile rows Hrows Hfirst _.
  exact (igrf12syn_short_file isv date itype alt colat elong w text
           Hfile Hrows Hfirst).
Qed.

Lemma X9_igrf12syn_with_a_short_coefficient_file_witness :
  IGRF12.igrf12syn 0 2005 1 300 40 116
    (IGRF12.mkWorld (fun _ => Some [IGRF12.mkLine "g " [1; 2]]) [])
  = (Py.Raise Py.IndexError,
     IGRF12.emit (IGRF12.Opened "igrf12coeffs.txt")
       (IGRF12.mkWorld (fun _ => Some [IGRF12.mkLine "g " [1; 2]]) [])).
Proof.
  apply (X9_igrf12syn_with_a_short_coefficient_file 0 2005 1 300 40 116
           (IGRF12.mkWorld (fun _ => Some [IGRF12.mkLine "g " [1; 2]]) [])
           [IGRF12.mkLine "g " [1; 2]]).
  - reflexivity.
  - simpl. lia.
  - simpl. lia.
  - simpl. repeat constructor.
Defined.

(** X10. When the coefficient file has no coefficient row, loadCoeffs
    builds the one-entry table [0]: a call with an epoch outside
    [1900.0, 2025.0] still returns (0, 0, 0, 1.0), and a call on the
    documented domain with an epoch inside that range raises IndexError
    at its first coefficient read. *)
Theorem X10_igrf12syn_with_no_coefficient_rows :
  forall (isv : Z) (date : R) (itype : Z) (alt colat elong : R)
         (w : IGRF12.world) (text : list IGRF12.line),
    IGRF12.files w "igrf12coeffs.txt" = Some text ->
    filter IGRF12.is_coeff_line text = [] ->
    (date < 1900 \/ date > 2025 ->
     fst (IGRF12.igrf12syn isv date itype alt colat elong w)
     = Py.Ok (0, 0, 0, 1))
    /\ (1900 <= date <= 2025 ->
        Observed.documented itype alt ->
        fst (IGRF12.igrf12syn isv date itype alt colat elong w)
        = Py.Raise Py.IndexError).
Proof.
  intros isv date itype alt colat elong w text.
  intros Hfile Hnone. unfold IGRF12.igrf12syn.
  rewrite (loadCoeffs_no_rows w text Hfile Hnone). split.
  - intros Hdate. rewrite (resolve_out_of_range isv date Hdate). cbn [fst].
    f_equal. f_equal; [f_equal; [f_equal |] |]; lra.
  - intros Hdate Hdom.
    destruct (resolve_in_range isv date Hdate) as (reduced & e & He & _).
    rewrite He. cbn [fst].
    exact (synthesize_singleton 0 isv date itype alt colat elong reduced e
             Hdate He Hdom).
Qed.

Lemma X10_igrf12syn_with_no_coefficient_rows_witness :
  fst (IGRF12.igrf12syn 0 2005 1 300 40 116
         (IGRF12.mkWorld (fun _ => Some []) []))
  = Py.Raise Py.IndexError.
Proof.
  apply (X10_igrf12syn_with_no_coefficient_rows 0 2005 1 300 40 116
           (IGRF12.mkWorld (fun _ => Some []) []) []).
  - reflexivity.
  - reflexivity.
  - lra.
  - left. split; [reflexivity | lra].
Defined.

(** X11. For an epoch in [2015.0, 2025.0] and a file of the published
    shape, the coefficient igrf12syn forms for position l (1 <= l <= 195)
    is made of row l of the file: in field mode the 2015 value (column 23)
    plus (date - 2015) times the secular-variation value (column 24), in
    secular-variation mode the secular-variation value alone. *)
Theorem X11_coefficient_from_2015_is_extrapolated :
  forall (w : IGRF12.world) (text : list IGRF12.line)
         (isv : Z) (date : R) (l : Z),
    IGRF12.files w "igrf12coeffs.txt" = Some text ->
    Observed.published text ->
    2015 <= date <= 2025 ->
    (1 <= l <= 195)%Z ->
    let rows := map IGRF12.fields (filter IGRF12.is_coeff_line text) in
    let main := nth 23 (nth (Z.to_nat (l - 1)) rows []) 0 in
    let rate := nth 24 (nth (Z.to_nat (l - 1)) rows []) 0 in
    exists gh reduced e,
      fst (IGRF12.loadCoeffs "igrf12coeffs.txt" w) = Py.Ok gh
      /\ IGRF12.resolve isv date = IGRF12.Resolved reduced e
      /\ IGRF12.coefficient gh e (IGRF12.ll e + IZR l) (-1)
         = Py.Ok (if (isv =? 1)%Z then rate
                  else main + (date - 2015) * rate).
Proof.
  intros w text isv date l.
  intros Hfile Hshape Hdate Hl rows main rate.
  destruct (loadCoeffs_entry w text Hfile Hshape) as (gh & Egh & Lgh & Hent).
  fold rows in Hent.
  assert (Hmain : nth (Z.to_nat (3060 + (l - 1))) gh 0 = main).
  { apply (Hent 23%Z (l - 1)%Z); [lia |]. cbn. lia. }
  assert (Hrate : nth (Z.to_nat (3255 + (l - 1))) gh 0 = rate).
  { apply (Hent 24%Z (l - 1)%Z); [lia |]. cbn. lia. }
  destruct (resolve_from_2015 isv date Hdate)
    as (reduced & e & Er & Ell & Enc & _ & _ & Hsv & Hmf & _).
  exists gh, reduced, e. split; [exact Egh |]. split; [exact Er |].
  rewrite (coefficient_at gh e 3060 l (-1) Ell) by (rewrite ?Enc, ?Lgh; lia).
  rewrite Enc.
  replace (3060 + l + -1)%Z with (3060 + (l - 1))%Z by lia.
  replace (3060 + l + 195 + -1)%Z with (3255 + (l - 1))%Z by lia.
  rewrite Hmain, Hrate.
  destruct (Z.eqb_spec isv 1) as [E1 | N1].
  - destruct (Hsv E1) as [-> ->]. f_equal. lra.
  - destruct (Hmf N1) as [-> ->]. f_equal. lra.
Qed.

Lemma X11_coefficient_from_2015_is_extrapolated_witness :
  exists gh reduced e,
    fst (IGRF12.loadCoeffs "igrf12coeffs.txt" Inputs.fresh) = Py.Ok gh
    /\ IGRF12.resolve 0 2017 = IGRF12.Resolved reduced e.
Proof.
  destruct (X11_coefficient_from_2015_is_extrapolated Inputs.fresh
              Inputs.zero_file 0 2017 1 fresh_file zero_file_published)
    as (gh & reduced & e & H1 & H2 & _); [lra | lia |].
  exists gh, reduced, e. split; assumption.
Defined.

(** X12. At a tabulated epoch 1900 + 5 i (i = 0 .. 22, that is 1900.0 to
    2010.0) and with a file of the published shape, the coefficient
    igrf12syn forms for position l (up to 120 before 1995, up to 195
    from 1995 on) is, in field mode, value i of row l of the file, and in
    secular-variation mode 0.2 times the difference between value i + 1
    and value i of that row. *)
Theorem X12_coefficient_at_a_tabulated_epoch :
  forall (w : IGRF12.world) (text : list IGRF12.line) (isv i l : Z),
    IGRF12.files w "igrf12coeffs.txt" = Some text ->
    Observed.published text ->
    (0 <= i < 23)%Z ->
    (1 <= l <= (if (i <? 19)%Z then 120 else 195))%Z ->
    let rows := map IGRF12.fields (filter IGRF12.is_coeff_line text) in
    let this := nth (Z.to_nat i) (nth (Z.to_nat (l - 1)) rows []) 0 in
    let next := nth (Z.to_nat (i + 1)) (nth (Z.to_nat (l - 1)) rows []) 0 in
    exists gh e,
      fst (IGRF12.loadCoeffs "igrf12coeffs.txt" w) = Py.Ok gh
      /\ IGRF12.resolve isv (1900 + 5 * IZR i) = IGRF12.Resolved false e
      /\ IGRF12.coefficient gh e (IGRF12.ll e + IZR l) (-1)
         = Py.Ok (if (isv =? 1)%Z then 0.2 * (next - this) else this).
Proof.
  intros w text isv i l.
  intros Hfile Hshape Hi Hl rows this next.
  destruct (loadCoeffs_entry w text Hfile Hshape) as (gh & Egh & Lgh & Hent).
  fold rows in Hent.
  assert (Hthis : nth (Z.to_nat ((if (i <? 19)%Z then 120 * i
                                  else 2280 + 195 * (i - 19)) + (l - 1))) gh 0
                  = this).
  { apply Hent; [lia |]. destruct (i <? 19)%Z; lia. }
  assert (Hnext : nth (Z.to_nat ((if (i + 1 <? 19)%Z then 120 * (i + 1)
                                  else 2280 + 195 * (i + 1 - 19)) + (l - 1)))
                      gh 0
                  = next).
  { apply Hent; [lia |].
    destruct (Z.ltb_spec i 19), (Z.ltb_spec (i + 1) 19); lia. }
  destruct (Z.ltb_spec i 19) as [H | H].
  - destruct (resolve_tabulated_120 isv i) as
      (e & Er & Ell & Enc & _ & _ & Hsv & Hmf); [lia |].
    exists gh, e. split; [exact Egh |]. split; [exact Er |].
    rewrite (coefficient_at gh e (120 * i) l (-1) Ell)
      by (rewrite ?Enc, ?Lgh; lia).
    rewrite Enc.
    replace (120 * i + l + -1)%Z with (120 * i + (l - 1))%Z by lia.
    rewrite Hthis.
    replace (120 * i + l + 120 + -1)%Z
      with ((if (i + 1 <? 19)%Z then 120 * (i + 1)
             else 2280 + 195 * (i + 1 - 19)) + (l - 1))%Z
      by (destruct (Z.ltb_spec (i + 1) 19); lia).
    rewrite Hnext.
    destruct (Z.eqb_spec isv 1) as [E1 | N1].
    + destruct (Hsv E1) as [-> ->]. f_equal. lra.
    + destruct (Hmf N1) as [-> ->]. f_equal. lra.
  - destruct (resolve_tabulated_195 isv (i - 19)) as
      (e & Er & Ell & Enc & _ & _ & Hsv & Hmf); [lia |].
    replace (1995 + 5 * IZR (i - 19)) with (1900 + 5 * IZR i) in Er
      by (rewrite minus_IZR; lra).
    exists gh, e. split; [exact Egh |]. split; [exact Er |].
    rewrite (coefficient_at gh e (2280 + 195 * (i - 19)) l (-1) Ell)
      by (rewrite ?Enc, ?Lgh; lia).
    rewrite Enc.
    replace (2280 + 195 * (i - 19) + l + -1)%Z
      with (2280 + 195 * (i - 19) + (l - 1))%Z by lia.
    rewrite Hthis.
    replace (2280 + 195 * (i - 19) + l + 195 + -1)%Z
      with ((if (i + 1 <? 19)%Z then 120 * (i + 1)
             else 2280 + 195 * (i + 1 - 19)) + (l - 1))%Z
      by (destruct (Z.ltb_spec (i + 1) 19); lia).
    rewrite Hnext.
    destruct (Z.eqb_spec isv 1) as [E1 | N1].
    + destruct (Hsv E1) as [-> ->]. f_equal. lra.
    + destruct (Hmf N1) as [-> ->]. f_equal. lra.
Qed.

Lemma X12_coefficient_at_a_tabulated_epoch_witness :
  exists gh e,
    fst (IGRF12.loadCoeffs "igrf12coeffs.txt" Inputs.fresh) = Py.Ok gh
    /\ IGRF12.resolve 0 (1900 + 5 * IZR 21) = IGRF12.Resolved false e.
Proof.
  destruct (X12_coefficient_at_a_tabulated_epoch Inputs.fresh
              Inputs.zero_file 0 21 1 fresh_file zero_file_published)
    as (gh & e & H1 & H2 & _); [lia | simpl; lia |].
  exists gh, e. split; assumption.
Defined.

(** X13. In secular-variation mode (isv = 1) the result of igrf12syn does
    not depend on the epoch within [2015.0, 2025.0]: two calls that differ
    only in the date return the same value or raise the same exception. *)
Theorem X13_secular_variation_is_constant_from_2015 :
  forall (date1 date2 : R) (itype : Z) (alt colat elong : R)
         (w : IGRF12.world),
    2015 <= date1 <= 2025 -> 2015 <= date2 <= 2025 ->
    fst (IGRF12.igrf12syn 1 date1 itype alt colat elong w)
    = fst (IGRF12.igrf12syn 1 date2 itype alt colat elong w).
Proof.
  intros date1 date2 itype alt colat elong w.
  intros H1 H2. unfold IGRF12.igrf12syn.
  destruct (IGRF12.loadCoeffs "igrf12coeffs.txt" w) as [[gh | err] w1];
    [| reflexivity].
  destruct (resolve_sv_from_2015 date1 H1) as [r1 ->].
  destruct (resolve_sv_from_2015 date2 H2) as [r2 ->].
  reflexivity.
Qed.

Lemma X13_secular_variation_is_constant_from_2015_witness :
  fst (IGRF12.igrf12syn 1 2015 1 300 40 116 Inputs.fresh)
  = fst (IGRF12.igrf12syn 1 2020 1 300 40 116 Inputs.fresh).
Proof.
  apply (X13_secular_variation_is_constant_from_2015 2015 2020 1 300 40 116
           Inputs.fresh); lra.
Defined.

(** X14. What a call with an epoch in [1900.0, 2025.0] writes to the
    console, given a file of the published shape: the table length 3451
    (printed by loadCoeffs) and nothing else when date <= 2020.0; for
    date > 2020.0 the two lines of the reduced-accuracy warning follow. *)
Theorem X14_console_output_of_igrf12syn :
  forall (isv : Z) (date : R) (itype : Z) (alt colat elong : R)
         (w : IGRF12.world) (text : list IGRF12.line),
    IGRF12.files w "igrf12coeffs.txt" = Some text ->
    Observed.published text ->
    1900 <= date <= 2025 ->
    let w' := snd (IGRF12.igrf12syn isv date itype alt colat elong w) in
    (date <= 2020 ->
     IGRF12.events w'
     = IGRF12.events w
       ++ [IGRF12.Opened "igrf12coeffs.txt";
           IGRF12.Printed (IGRF12.MsgLength 3451)])
    /\ (2020 < date ->
        IGRF12.events w'
        = IGRF12.events w
          ++ [IGRF12.Opened "igrf12coeffs.txt";
              IGRF12.Printed (IGRF12.MsgLength 3451);
              IGRF12.Printed IGRF12.MsgIntendedUpTo2020;
              IGRF12.Printed (IGRF12.MsgReducedAccuracy date)]).
Proof.
  intros isv date itype alt colat elong w text.
  intros Hfile Hshape Hdate. cbv zeta.
  destruct (igrf12syn_loaded isv date itype alt colat elong w text Hfile Hshape)
    as (gh & _ & _ & E).
  cbv zeta in E. rewrite E.
  destruct (resolve_in_range isv date Hdate) as (reduced & e & He & _).
  rewrite He. pose proof (resolve_reduced isv date reduced e He) as Hred.
  cbn [snd]. split; intros Hd.
  - destruct reduced.
    + assert (2020 < date) by (apply Hred; reflexivity). lra.
    + reflexivity.
  - assert (Er : reduced = true) by (apply Hred; exact Hd). subst reduced.
    unfold IGRF12.print, IGRF12.emit. cbn [IGRF12.events IGRF12.files].
    rewrite <- !app_assoc. reflexivity.
Qed.

Lemma X14_console_output_of_igrf12syn_witness :
  IGRF12.events
    (snd (IGRF12.igrf12syn 0 2022 1 300 40 116 Inputs.fresh))
  = IGRF12.events Inputs.fresh
    ++ [IGRF12.Opened "igrf12coeffs.txt";
        IGRF12.Printed (IGRF12.MsgLength 3451);
        IGRF12.Printed IGRF12.MsgIntendedUpTo2020;
        IGRF12.Printed (IGRF12.MsgReducedAccuracy 2022)].
Proof.
  apply (X14_console_output_of_igrf12syn 0 2022 1 300 40 116 Inputs.fresh
           Inputs.zero_file fresh_file zero_file_published); lra.
Defined.

(** X15. On the documented domain and for an epoch in [1900.0, 2025.0],
    the final frame conversion of igrf12syn is a rotation in the x-z
    plane: the returned y is the east sum of the harmonic loop, the
    returned x and z have the same x^2 + z^2 as the loop's sums, so the
    returned f is also the norm of the loop's sums, and for itype = 2 the
    loop's x and z are returned unchanged. *)
Theorem X15_frame_conversion_is_a_rotation :
  forall (isv : Z) (date : R) (itype : Z) (alt colat elong : R)
         (w : IGRF12.world) (text : list IGRF12.line),
    IGRF12.files w "igrf12coeffs.txt" = Some text ->
    Observed.published text ->
    1900 <= date <= 2025 ->
    Observed.documented itype alt ->
    exists gh reduced e fr s x z,
      fst (IGRF12.loadCoeffs "igrf12coeffs.txt" w) = Py.Ok gh
      /\ IGRF12.resolve isv date = IGRF12.Resolved reduced e
      /\ IGRF12.prepare itype alt colat = Py.Ok fr
      /\ IGRF12.for_each (Py.range 2 (Py.int (IGRF12.kmx e)))
           (IGRF12.body gh e (IGRF12.ct fr) (IGRF12.st fr)
              (6371.2 / IGRF12.r fr))
           (IGRF12.initial elong fr (6371.2 / IGRF12.r fr))
         = Py.Ok s
      /\ fst (IGRF12.igrf12syn isv date itype alt colat elong w)
         = Py.Ok (x, IGRF12.y s, z,
                  sqrt (IGRF12.x s * IGRF12.x s + IGRF12.y s * IGRF12.y s
                        + IGRF12.z s * IGRF12.z s))
      /\ x * x + z * z = IGRF12.x s * IGRF12.x s + IGRF12.z s * IGRF12.z s
      /\ (itype = 2%Z -> x = IGRF12.x s /\ z = IGRF12.z s).
Proof.
  intros isv date itype alt colat elong w text.
  intros Hfile Hshape Hdate Hdom.
  destruct (igrf12syn_in_range isv date itype alt colat elong w text
              Hfile Hshape Hdate)
    as (reduced & e & gh & He & Hgh & Hload & Hout & _).
  destruct (synthesize_frame gh isv date itype alt colat elong reduced e
              Hgh Hdate He Hdom)
    as (fr & s & x & z & Hp & Hf & Hs & Hn & H2).
  exists gh, reduced, e, fr, s, x, z. rewrite Hout. repeat split; auto;
    apply H2; assumption.
Qed.

Lemma X15_frame_conversion_is_a_rotation_witness :
  exists x y z f,
    fst (IGRF12.igrf12syn 0 2005 1 300 40 116 Inputs.fresh)
    = Py.Ok (x, y, z, f).
Proof.
  destruct (X15_frame_conversion_is_a_rotation 0 2005 1 300 40 116
              Inputs.fresh Inputs.zero_file fresh_file zero_file_published)
    as (gh & reduced & e & fr & s & x & z & _ & _ & _ & _ & H & _).
  - lra.
  - left. split; [reflexivity | lra].
  - eexists _, _, _, _. exact H.
Defined.

(** X16. The loop of igrf12syn never meets m = 0: started from the
    locals igrf12syn sets up (l = 1, m = 1, n = 0), after any number of
    passes that raise nothing m is at least 1, so the statements under
    [if m == 0] are never executed, and a pass either handles one order
    (l grows by 2, m by 1) or moves to the next degree (m = 1, n grows
    by 1, l stays). *)
Theorem X16_zonal_block_is_never_entered :
  forall (gh : list R) (e : IGRF12.epoch) (ct st ratio elong : R)
         (fr : IGRF12.frame) (ks : list Z) (s : IGRF12.state),
    IGRF12.for_each ks (IGRF12.body gh e ct st ratio)
      (IGRF12.initial elong fr ratio) = Py.Ok s ->
    (1 <= IGRF12.m s)%Z
    /\ (IGRF12.m s =? 0)%Z = false
    /\ (forall (k : Z) (s' : IGRF12.state),
           IGRF12.body gh e ct st ratio k s = Py.Ok s' ->
           (IGRF12.l s', IGRF12.m s', IGRF12.n s')
           = (if (IGRF12.n s >=? IGRF12.m s)%Z
              then (IGRF12.l s + 2, IGRF12.m s + 1, IGRF12.n s)%Z
              else (IGRF12.l s, 1, IGRF12.n s + 1)%Z)).
Proof.
  intros gh e ct st ratio elong fr ks s H.
  assert (Hm : (1 <= IGRF12.m s)%Z).
  { apply (for_each_order gh e ct st ratio ks
             (IGRF12.initial elong fr ratio) s); [| exact H].
    cbn. lia. }
  split; [exact Hm |]. split; [apply Z.eqb_neq; lia |].
  intros k s' Hb. apply (body_ctl gh e ct st ratio k s s' Hm Hb).
Qed.

Lemma X16_zonal_block_is_never_entered_witness :
  exists s,
    IGRF12.for_each [2%Z] (IGRF12.body Inputs.spike60
                             (IGRF12.mkEpoch 0 1 0 10 120 66) 0 1 1)
      (IGRF12.initial 0 (IGRF12.mkFrame 6371.2 1 0 0 1) 1) = Py.Ok s
    /\ (1 <= IGRF12.m s)%Z.
Proof.
  eexists. split; [reflexivity |].
  eapply (X16_zonal_block_is_never_entered Inputs.spike60
            (IGRF12.mkEpoch 0 1 0 10 120 66) 0 1 1 0
            (IGRF12.mkFrame 6371.2 1 0 0 1) [2%Z]).
  reflexivity.
Defined.

(** X17. The steady state of itrace (NSTP > 7), on arrays of the sizes
    findApex gives them: the point moves by the four-point Adams-Bashforth
    formula, Y[I] + DS/24 (55 d[I] - 59 YP[I][2] + 37 YP[I][1]
    - 9 YP[I][0]) with d = SGN (BX, BY, BZ) / BB; YOLD becomes the point
    the step started from; the derivative history shifts by one place;
    the three points about the apex become (the former middle point, the
    start point, the new point); and True is returned exactly when the
    new point is closer to the origin than the start point. *)
Theorem X17_itrace_steady_state_step :
  forall (a : Apex.arrays) (BX BY BZ BB SGN DS : R) (NSTP : Z),
    Tracer.shaped a ->
    (7 < NSTP)%Z ->
    let r := Apex.itrace a BX BY BZ BB SGN DS NSTP in
    let d := [SGN * BX / BB; SGN * BY / BB; SGN * BZ / BB] in
    (fst r = true <-> Apex.radius (Apex.Y (snd r)) < Apex.radius (Apex.Y a))
    /\ Apex.YOLD (snd r) = Apex.Y a
    /\ (forall I : nat,
           (I < 3)%nat ->
           Apex.at1 (Apex.Y (snd r)) I
           = Apex.at1 (Apex.Y a) I
             + DS / 24.0
               * (55.0 * Apex.at1 d I - 59.0 * Apex.at2 (Apex.YP a) I 2
                  + 37.0 * Apex.at2 (Apex.YP a) I 1
                  - 9.0 * Apex.at2 (Apex.YP a) I 0)
           /\ nth I (Apex.YP (snd r)) []
              = [Apex.at2 (Apex.YP a) I 1; Apex.at2 (Apex.YP a) I 2;
                 Apex.at1 d I; Apex.at1 d I])
    /\ Tracer.column (Apex.YAPX (snd r)) 0 = Tracer.column (Apex.YAPX a) 1
    /\ Tracer.column (Apex.YAPX (snd r)) 1 = Apex.Y a
    /\ Tracer.column (Apex.YAPX (snd r)) 2 = Apex.Y (snd r).
Proof. exact itrace_adams. Qed.

Lemma X17_itrace_steady_state_step_witness :
  Apex.YOLD (snd (Apex.itrace Inputs.past_apex 0 0 1 1 1 100 8))
  = Apex.Y Inputs.past_apex.
Proof.
  apply (X17_itrace_steady_state_step Inputs.past_apex 0 0 1 1 1 100 8
           past_apex_shaped).
  lia.
Defined.

(** X18. Every integration formula of itrace is exact along a constant
    direction: when the derivatives stored in YP[I][0..2] all equal the
    current direction d[I] = SGN B[I] / BB, then for every step number
    NSTP >= 1 the new point is the base point plus the full step,
    Y[I] = YOLD[I] + DS d[I]. *)
Theorem X18_itrace_is_exact_along_a_constant_direction :
  forall (a : Apex.arrays) (BX BY BZ BB SGN DS : R) (NSTP : Z),
    Tracer.shaped a ->
    (1 <= NSTP)%Z ->
    (forall J : nat,
        (J < 3)%nat ->
        Apex.at2 (Apex.YP a) 0 J = SGN * BX / BB
        /\ Apex.at2 (Apex.YP a) 1 J = SGN * BY / BB
        /\ Apex.at2 (Apex.YP a) 2 J = SGN * BZ / BB) ->
    let a' := snd (Apex.itrace a BX BY BZ BB SGN DS NSTP) in
    forall I : nat,
      (I < 3)%nat ->
      Apex.at1 (Apex.Y a') I
      = Apex.at1 (Apex.YOLD a') I
        + DS * Apex.at1 [SGN * BX / BB; SGN * BY / BB; SGN * BZ / BB] I.
Proof.
  intros a BX BY BZ BB SGN DS NSTP.
  intros Hs H1 Hd. explicit_arrays a Hs.
  destruct (Hd 0%nat) as (E00 & E10 & E20); [lia |].
  destruct (Hd 1%nat) as (E01 & E11 & E21); [lia |].
  destruct (Hd 2%nat) as (E02 & E12 & E22); [lia |].
  cbv [Apex.at2 Apex.YP nth] in E00, E10, E20, E01, E11, E21, E02, E12, E22.
  clear Hd. subst.
  set (d0 := SGN * BX / BB). set (d1 := SGN * BY / BB).
  set (d2 := SGN * BZ / BB).
  cbv zeta. unfold Apex.itrace. fold d0 d1 d2.
  destruct (step_cases NSTP)
    as [-> | [-> | [-> | [-> | [-> | [-> | [-> | [H0 | H8]]]]]]]].
  - trace_compute. intros [| [| [| I]]] HI; try lia; lra.
  - trace_compute. intros [| [| [| I]]] HI; try lia; lra.
  - trace_compute. intros [| [| [| I]]] HI; try lia; lra.
  - trace_compute. intros [| [| [| I]]] HI; try lia; lra.
  - trace_compute. intros [| [| [| I]]] HI; try lia; lra.
  - trace_compute. split_on_flag; trace_compute;
      intros [| [| [| I]]] HI; try lia; lra.
  - trace_compute. split_on_flag; trace_compute;
      intros [| [| [| I]]] HI; try lia; lra.
  - lia.
  - assert (E : (NSTP <=? 7)%Z = false) by (apply Z.leb_gt; lia).
    rewrite E. trace_compute. split_on_flag; trace_compute;
      intros [| [| [| I]]] HI; try lia; lra.
Qed.

Lemma X18_itrace_is_exact_along_a_constant_direction_witness :
  Apex.at1 (Apex.Y (snd (Apex.itrace Inputs.past_apex 0 0 0 1 1 100 5))) 0
  = Apex.at1
      (Apex.YOLD (snd (Apex.itrace Inputs.past_apex 0 0 0 1 1 100 5))) 0
    + 100 * Apex.at1 [1 * 0 / 1; 1 * 0 / 1; 1 * 0 / 1] 0.
Proof.
  apply (X18_itrace_is_exact_along_a_constant_direction Inputs.past_apex
           0 0 0 1 1 100 5 past_apex_shaped).
  - lia.
  - intros [| [| [| J]]] HJ; try lia;
      cbv [Inputs.past_apex Apex.YP Apex.at2 nth]; repeat split; lra.
  - lia.
Defined.

(** X19. How the path findApex returns ends.  It has between 8 and 101
    entries.  It has 8 exactly when entry 6 is closer to the origin than
    entry 4; otherwise it has 9 exactly when entry 8 is closer than
    entry 6.  From entry 9 on, an entry closer to the origin than the one
    before it is the last entry, and the last entry of a path with fewer
    than 101 entries is closer to the origin than the one before it. *)
Theorem X19_where_the_path_of_findApex_ends :
  forall (igrf12syn : Z -> R -> Z -> R -> R -> R -> R * R * R * R)
         (getCoeffs : R -> (nat -> nat -> R) * (nat -> nat -> R))
         (lat lon alt date : R),
    let path := Apex.findApex igrf12syn getCoeffs lat lon alt date in
    let n := List.length path in
    (8 <= n <= 101)%nat
    /\ (n = 8%nat
        <-> Apex.radius (nth 6 path []) < Apex.radius (nth 4 path []))
    /\ ((9 <= n)%nat ->
        (n = 9%nat
         <-> Apex.radius (nth 8 path []) < Apex.radius (nth 6 path [])))
    /\ (forall i : nat,
           (9 <= i < n)%nat ->
           (Apex.radius (nth i path []) < Apex.radius (nth (i - 1) path [])
            -> S i = n)
           /\ (S i = n -> (n < 101)%nat ->
               Apex.radius (nth i path [])
               < Apex.radius (nth (i - 1) path []))).
Proof. exact findApex_stop_rule. Qed.

(** X20. The step length of every pass of findApex.  Pass j + 1 calls
    itrace with step counter j and an arc length DS between
    0.06 rho - 370 and 0.24 rho - 370, where rho >= 0 is the geocentric
    distance the pass starts from; after the first pass rho is the
    distance of the current point Y from the origin. *)
Theorem X20_step_length_of_findApex :
  forall (igrf12syn : Z -> R -> Z -> R -> R -> R -> R * R * R * R)
         (getCoeffs : R -> (nat -> nat -> R) * (nat -> nat -> R))
         (lat lon alt date : R) (j : nat),
  exists BX BY BZ BB sgn DS,
    let s := Tracer.passes igrf12syn getCoeffs lat lon alt date j in
    let r := Apex.itrace (Apex.arr s) BX BY BZ BB sgn DS (Z.of_nat j) in
    Apex.arr (Tracer.passes igrf12syn getCoeffs lat lon alt date (S j))
    = snd r
    /\ 0 <= Apex.gcrho s
    /\ 0.06 * Apex.gcrho s - 370 <= DS <= 0.24 * Apex.gcrho s - 370
    /\ ((1 <= j)%nat -> Apex.gcrho s = Apex.radius (Apex.Y (Apex.arr s))).
Proof. exact passes_step_length. Qed.

(** X21. When the three degree-1 coefficients are not all zero, the pair
    northPole returns lies in [-90, 90] x (-360, 0] degrees. *)
Theorem X21_northPole_range :
  forall (getCoeffs : R -> (nat -> nat -> R) * (nat -> nat -> R))
         (date : R),
    0 < fst (getCoeffs date) 1%nat 0%nat ^ 2
        + fst (getCoeffs date) 1%nat 1%nat ^ 2
        + snd (getCoeffs date) 1%nat 1%nat ^ 2 ->
    let '(lat, lon) := Apex.northPole getCoeffs date in
    -90 <= lat <= 90 /\ -360 < lon <= 0.
Proof. intros getCoeffs date _. apply northPole_range. Qed.

Lemma X21_northPole_range_witness :
  let '(lat, lon) := Apex.northPole Inputs.axial 2005 in
  -90 <= lat <= 90 /\ -360 < lon <= 0.
Proof.
  apply (X21_northPole_range Inputs.axial 2005).
  cbv [Inputs.axial fst snd]. lra.
Defined.

(** X22. When the field evaluator answers x = y = z = 0 with a non-zero
    f at every point, as igrf12syn does for an epoch outside
    [1900.0, 2025.0], findApex never signals an apex: the loop runs its
    100 passes and the returned path is 101 copies of the launch
    position. *)
Theorem X22_findApex_in_a_vanishing_field :
  forall (igrf12syn : Z -> R -> Z -> R -> R -> R -> R * R * R * R)
         (getCoeffs : R -> (nat -> nat -> R) * (nat -> nat -> R))
         (lat lon alt date : R),
    (forall (isv : Z) (date : R) (itype : Z) (alt colat elong : R),
        exists bb, bb <> 0 /\ igrf12syn isv date itype alt colat elong
                              = (0, 0, 0, bb)) ->
    let s := Apex.findApex_loop igrf12syn getCoeffs lat lon alt date in
    Apex.step s = 100%Z
    /\ Apex.arrive s = false
    /\ exists y,
         Apex.trace (Tracer.passes igrf12syn getCoeffs lat lon alt date 0)
         = [y]
         /\ Apex.findApex igrf12syn getCoeffs lat lon alt date
            = repeat y 101.
Proof.
  intros igrf12syn getCoeffs lat lon alt date H.
  exact (vanishing_trace igrf12syn getCoeffs H lat lon alt date).
Qed.

Lemma X22_findApex_in_a_vanishing_field_witness :
  Apex.arrive
    (Apex.findApex_loop Inputs.sentinel Inputs.axial 0 0 0 1800) = false.
Proof.
  apply (X22_findApex_in_a_vanishing_field Inputs.sentinel Inputs.axial
           0 0 0 1800 sentinel_no_field).
Defined.

(** X23. igrf12syn is periodic in its two angles (in exact arithmetic):
    adding 360 degrees to the colatitude or to the east longitude changes
    neither the result nor what is printed. *)
Theorem X23_igrf12syn_is_periodic_in_its_angles :
  forall (isv : Z) (date : R) (itype : Z) (alt colat elong : R)
         (w : IGRF12.world),
    IGRF12.igrf12syn isv date itype alt (colat + 360) elong w
    = IGRF12.igrf12syn isv date itype alt colat elong w
    /\ IGRF12.igrf12syn isv date itype alt colat (elong + 360) w
       = IGRF12.igrf12syn isv date itype alt colat elong w.
Proof.
  intros isv date itype alt colat elong w.
  unfold IGRF12.igrf12syn, IGRF12.synthesize, IGRF12.prepare, IGRF12.initial.
  rewrite !cos_full_turn, !sin_full_turn. split; reflexivity.
Qed.

(** X24. igrf12syn reads its two flags only through the tests isv == 1
    and itype == 1: every isv other than 1 asks for main-field values
    and every itype other than 1 is taken as geocentric, so two calls
    whose flags agree on these two tests behave alike. *)
Theorem X24_igrf12syn_flags :
  forall (isv isv' : Z) (date : R) (itype itype' : Z)
         (alt colat elong : R) (w : IGRF12.world),
    (isv =? 1)%Z = (isv' =? 1)%Z ->
    (itype =? 1)%Z = (itype' =? 1)%Z ->
    IGRF12.igrf12syn isv date itype alt colat elong w
    = IGRF12.igrf12syn isv' date itype' alt colat elong w.
Proof.
  intros isv isv' date itype itype' alt colat elong w.
  intros H1 H2.
  unfold IGRF12.igrf12syn, IGRF12.synthesize, IGRF12.prepare.
  rewrite (resolve_flag isv isv' date H1), H2. reflexivity.
Qed.

Lemma X24_igrf12syn_flags_witness :
  IGRF12.igrf12syn 0 2005 2 6500 40 116 Inputs.fresh
  = IGRF12.igrf12syn 3 2005 0 6500 40 116 Inputs.fresh.
Proof.
  apply (X24_igrf12syn_flags 0 3 2005 2 0 6500 40 116 Inputs.fresh);
    reflexivity.
Defined.

(** X25. The field igrf12syn synthesises is linear in the coefficient
    table.  For two tables of the length loadCoeffs produces, an epoch in
    [1900.0, 2025.0] and a point of the documented domain, the synthesis
    returns for both tables, and for the table a gh1 + b gh2 it returns
    the components a x1 + b x2, a y1 + b y2, a z1 + b z2, with f their
    norm. *)
Theorem X25_field_is_linear_in_the_coefficients :
  forall (a b : R) (gh1 gh2 : list R) (isv : Z) (date : R) (itype : Z)
         (alt colat elong : R) (reduced : bool) (e : IGRF12.epoch),
    List.length gh1 = 3451%nat ->
    List.length gh2 = 3451%nat ->
    1900 <= date <= 2025 ->
    IGRF12.resolve isv date = IGRF12.Resolved reduced e ->
    Observed.documented itype alt ->
    exists x1 y1 z1 f1 x2 y2 z2 f2,
      IGRF12.synthesize gh1 e itype alt colat elong
      = Py.Ok (x1, y1, z1, f1)
      /\ IGRF12.synthesize gh2 e itype alt colat elong
         = Py.Ok (x2, y2, z2, f2)
      /\ let x := a * x1 + b * x2 in
         let y := a * y1 + b * y2 in
         let z := a * z1 + b * z2 in
         IGRF12.synthesize (Linear.blend a b gh1 gh2) e itype alt colat elong
         = Py.Ok (x, y, z, sqrt (x * x + y * y + z * z)).
Proof.
  intros a b gh1 gh2 isv date itype alt colat elong reduced e
         L1 L2 Hdate He Hdom.
  destruct (synthesize_ok gh1 isv date itype alt colat elong reduced e
              L1 Hdate He Hdom) as (x1 & y1 & z1 & E1).
  destruct (synthesize_ok gh2 isv date itype alt colat elong reduced e
              L2 Hdate He Hdom) as (x2 & y2 & z2 & E2).
  exists x1, y1, z1, (sqrt (x1 * x1 + y1 * y1 + z1 * z1)),
         x2, y2, z2, (sqrt (x2 * x2 + y2 * y2 + z2 * z2)).
  split; [exact E1 |]. split; [exact E2 |].
  apply (synthesize_blend a b gh1 gh2 e itype alt colat elong
           x1 y1 z1 (sqrt (x1 * x1 + y1 * y1 + z1 * z1))
           x2 y2 z2 (sqrt (x2 * x2 + y2 * y2 + z2 * z2)));
    [congruence | exact E1 | exact E2].
Qed.

Lemma X25_field_is_linear_in_the_coefficients_witness :
  exists reduced e x y z f,
    IGRF12.resolve 0 2005 = IGRF12.Resolved reduced e
    /\ IGRF12.synthesize (Linear.blend 2 3 Inputs.spike60 Inputs.spike60)
         e 2 6371.2 90 0
       = Py.Ok (x, y, z, f).
Proof.
  assert (Hdate : 1900 <= 2005 <= 2025) by lra.
  destruct (resolve_in_range 0 2005 Hdate) as (reduced & e & He & _).
  destruct (X25_field_is_linear_in_the_coefficients 2 3 Inputs.spike60
              Inputs.spike60 0 2005 2 6371.2 90 0 reduced e)
    as (x1 & y1 & z1 & f1 & x2 & y2 & z2 & f2 & _ & _ & H).
  - reflexivity.
  - reflexivity.
  - exact Hdate.
  - exact He.
  - right. split; [reflexivity | lra].
  - exists reduced, e. eexists _, _, _, _. split; [exact He | exact H].
Defined.

(** X26. For a geodetic colatitude theta in [0, pi] and an altitude
    alt >= 0, the geocentric colatitude geodetic2geocentric returns is
    theta + d, where d is the second value it returns (named gclon in the
    code): d lies in [0, pi/2) in the northern hemisphere and in
    (-pi/2, 0] in the southern one, so the geocentric colatitude is never
    nearer to the pole than the geodetic one.  The radius returned lies
    between alt + b and alt + a for the semi-axes of the spheroid. *)
Theorem X26_geocentric_colatitude :
  forall theta alt : R,
    0 <= alt ->
    0 <= theta <= PI ->
    let '(gccolat, d, r) := Coordinate.geodetic2geocentric theta alt in
    gccolat = theta + d
    /\ (theta <= PI / 2 -> 0 <= d < PI / 2)
    /\ (PI / 2 <= theta -> - (PI / 2) < d <= 0)
    /\ alt + sqrt 40408296.0 <= r <= alt + sqrt 40680631.6.
Proof.
  intros theta alt.
  intros Halt Htheta.
  destruct (geodetic_reduction_spec alt theta Halt)
    as (fr & Efr & E & Hr & Hunit & Ect & Est & Hbounds).
  destruct (geodetic_rotation_sign alt theta Halt)
    as (fr' & Efr' & Hcd & Hpos & Hneg).
  assert (fr' = fr) by congruence. subst fr'.
  rewrite E.
  set (d := Py.arctan2 (IGRF12.sd fr) (IGRF12.cd fr)).
  assert (Ed : d = atan (IGRF12.sd fr / IGRF12.cd fr)).
  { unfold d, Py.arctan2.
    destruct (Rlt_dec 0 (IGRF12.cd fr)); [reflexivity | lra]. }
  destruct (atan_bound (IGRF12.sd fr / IGRF12.cd fr)) as [Dlo Dhi].
  rewrite <- Ed in Dlo, Dhi.
  destruct (arctan2_polar (IGRF12.cd fr) (IGRF12.sd fr)) as [Pc Ps].
  rewrite Hunit, sqrt_1, !Rmult_1_l in Pc, Ps. fold d in Pc, Ps.
  assert (Hs : 0 <= sin theta) by (apply sin_ge_0; lra).
  assert (Hnorth : theta <= PI / 2 -> 0 <= d).
  { intros H. assert (0 <= cos theta) by (apply cos_ge_0; lra).
    assert (Hsd : 0 <= IGRF12.sd fr) by (apply Hpos; nra).
    destruct (Rle_lt_or_eq_dec _ _ Hsd) as [P | Z].
    - rewrite Ed. apply Rlt_le, atan_pos. apply Rdiv_lt_0_compat; lra.
    - rewrite Ed, <- Z. unfold Rdiv. rewrite Rmult_0_l, atan_0. lra. }
  assert (Hsouth : PI / 2 <= theta -> d <= 0).
  { intros H. assert (cos theta <= 0) by (apply cos_le_0; lra).
    assert (Hsd : IGRF12.sd fr <= 0) by (apply Hneg; nra).
    rewrite Ed. apply atan_nonpos.
    assert (0 < / IGRF12.cd fr) by (apply Rinv_0_lt_compat; exact Hcd).
    unfold Rdiv. nra. }
  assert (Hrange : - PI < theta + d <= PI).
  { destruct (Rle_or_lt theta (PI / 2)) as [N | S].
    - specialize (Hnorth N). lra.
    - assert (d <= 0) by (apply Hsouth; lra). lra. }
  split; [| split; [| split]].
  - rewrite Ect, Est, <- Pc, <- Ps.
    replace (sin theta * cos d + cos theta * sin d) with (1 * sin (theta + d))
      by (rewrite sin_plus; ring).
    replace (cos theta * cos d - sin theta * sin d) with (1 * cos (theta + d))
      by (rewrite cos_plus; ring).
    apply arctan2_of_angle; [lra | exact Hrange].
  - intros H. split; [apply Hnorth; exact H | exact Dhi].
  - intros H. split; [lra | apply Hsouth; exact H].
  - exact Hbounds.
Qed.

Lemma X26_geocentric_colatitude_witness :
  let '(gccolat, d, r) := Coordinate.geodetic2geocentric 0 300 in
  gccolat = 0 + d
  /\ (0 <= PI / 2 -> 0 <= d < PI / 2)
  /\ (PI / 2 <= 0 -> - (PI / 2) < d <= 0)
  /\ 300 + sqrt 40408296.0 <= r <= 300 + sqrt 40680631.6.
Proof.
  apply (X26_geocentric_colatitude 0 300); assert (H := PI_RGT_0); lra.
Defined.

(** X27. Where a trace starts.  For an altitude alt >= 0 the first entry
    of the path findApex returns is the Cartesian position of the launch
    point: geocentric2cartesian of the geocentric latitude
    pi/2 - gccolat, the longitude lon/FACT and the radius gcrho that
    geodetic2geocentric gives for the colatitude pi/2 - lat/FACT.  Its
    distance from the origin is gcrho, between alt + b and alt + a. *)
Theorem X27_launch_position_of_findApex :
  forall (igrf12syn : Z -> R -> Z -> R -> R -> R -> R * R * R * R)
         (getCoeffs : R -> (nat -> nat -> R) * (nat -> nat -> R))
         (lat lon alt date : R),
    0 <= alt ->
    exists start rest,
      Apex.findApex igrf12syn getCoeffs lat lon alt date = start :: rest
      /\ (let '(gccolat, _, gcrho) :=
            Coordinate.geodetic2geocentric (PI / 2 - lat / Apex.FACT) alt in
          let '(x0, y0, z0) :=
            Coordinate.geocentric2cartesian (PI / 2 - gccolat)
              (lon / Apex.FACT) gcrho in
          start = [x0; y0; z0] /\ Apex.radius start = gcrho)
      /\ alt + sqrt 40408296.0 <= Apex.radius start
         <= alt + sqrt 40680631.6.
Proof. exact launch_position. Qed.

Lemma X27_launch_position_of_findApex_witness :
  exists start rest,
    Apex.findApex Inputs.sentinel Inputs.axial 45 10 300 2005
    = start :: rest
    /\ 300 + sqrt 40408296.0 <= Apex.radius start
       <= 300 + sqrt 40680631.6.
Proof.
  destruct (X27_launch_position_of_findApex Inputs.sentinel Inputs.axial
              45 10 300 2005) as (start & rest & H1 & _ & H3); [lra |].
  exists start, rest. split; assumption.
Defined.

Lemma norm_radius (v : list R) :
  sqrt (nth 0 v 0 ^ 2 + nth 1 v 0 ^ 2 + nth 2 v 0 ^ 2) = Apex.radius v.
Proof. reflexivity. Qed.

Lemma findApex_loop_shaped
      (igrf12syn : Z -> R -> Z -> R -> R -> R -> R * R * R * R)
      (getCoeffs : R -> (nat -> nat -> R) * (nat -> nat -> R))
      (lat lon alt date : R) :
  Tracer.shaped
    (Apex.arr (Apex.findApex_loop igrf12syn getCoeffs lat lon alt date)).
Proof.
  destruct (findApex_first igrf12syn getCoeffs lat lon alt date)
    as (J & _ & -> & _).
  apply passes_shaped.
Qed.

(** C6. While a trace is bootstrapping (NSTP <= 7), itrace signals a passed
    apex exactly when NSTP is 6 or 7 and, of the three points about the
    apex it keeps in YAPX, the last (column 2) has a smaller distance
    sqrt(x^2 + y^2 + z^2) from the origin than the one before it
    (column 1).  Step 4 stores the point it starts from in column 1 and
    step 5 leaves YAPX alone; step 6 stores the point it starts from in
    column 2; step 7 moves columns 1 and 2 down and stores the point it
    produces in column 2.

    In findApex these are the completed bootstrap points, the path
    entries 4, 6 and 8.  The check of step 6 signals exactly when entry 6
    is closer to the origin than entry 4; findApex then makes no further
    pass and returns the 8 entries up to the position that step produced,
    with the prior point, entry 4, held as the middle one of the three
    points about the apex.  Otherwise the check of step 7 signals exactly
    when entry 8 is closer than entry 6; findApex then returns 9 entries,
    and the three points about the apex are entries 4, 6 and 8, of which
    the prior point, entry 6, is the farthest from the origin. *)
Theorem C6_bootstrap_apex_check :
  forall (a : Apex.arrays) (BX BY BZ BB SGN DS : R) (NSTP : Z),
    Tracer.shaped a ->
    (NSTP <= 7)%Z ->
    let norm := fun v : list R =>
      sqrt (nth 0 v 0 ^ 2 + nth 1 v 0 ^ 2 + nth 2 v 0 ^ 2) in
    let point := fun (M : list (list R)) (j : nat) =>
      map (fun row : list R => nth j row 0) M in
    let r := Apex.itrace a BX BY BZ BB SGN DS NSTP in
    (fst r = true
     <-> (NSTP = 6%Z \/ NSTP = 7%Z)
         /\ norm (point (Apex.YAPX (snd r)) 2%nat)
            < norm (point (Apex.YAPX (snd r)) 1%nat))
    /\ (NSTP = 4%Z -> point (Apex.YAPX (snd r)) 1%nat = Apex.Y a)
    /\ (NSTP = 5%Z -> Apex.YAPX (snd r) = Apex.YAPX a)
    /\ (NSTP = 6%Z ->
        point (Apex.YAPX (snd r)) 2%nat = Apex.Y a
        /\ point (Apex.YAPX (snd r)) 1%nat = point (Apex.YAPX a) 1%nat)
    /\ (NSTP = 7%Z ->
        point (Apex.YAPX (snd r)) 2%nat = Apex.Y (snd r)
        /\ point (Apex.YAPX (snd r)) 1%nat = point (Apex.YAPX a) 2%nat
        /\ point (Apex.YAPX (snd r)) 0%nat = point (Apex.YAPX a) 1%nat)
    /\ (forall (igrf12syn : Z -> R -> Z -> R -> R -> R -> R * R * R * R)
               (getCoeffs : R -> (nat -> nat -> R) * (nat -> nat -> R))
               (lat lon alt date : R),
           let path := Apex.findApex igrf12syn getCoeffs lat lon alt date in
           let stop :=
             Apex.findApex_loop igrf12syn getCoeffs lat lon alt date in
           let apex := Apex.YAPX (Apex.arr stop) in
           (8 <= List.length path)%nat
           /\ (List.length path = 8%nat
               <-> norm (nth 6 path []) < norm (nth 4 path []))
           /\ (List.length path = 8%nat ->
               Apex.arrive stop = true /\ Apex.step stop = 7%Z
               /\ point apex 1%nat = nth 4 path []
               /\ point apex 2%nat = nth 6 path [])
           /\ ((9 <= List.length path)%nat ->
               (List.length path = 9%nat
                <-> norm (nth 8 path []) < norm (nth 6 path [])))
           /\ (List.length path = 9%nat ->
               Apex.arrive stop = true /\ Apex.step stop = 8%Z
               /\ point apex 0%nat = nth 4 path []
               /\ point apex 1%nat = nth 6 path []
               /\ point apex 2%nat = nth 8 path []
               /\ norm (nth 4 path []) <= norm (nth 6 path [])
               /\ norm (nth 8 path []) < norm (nth 6 path []))).
Proof.
  intros a BX BY BZ BB SGN DS NSTP Hshape H7. cbv zeta beta.
  assert (Hnext := itrace_shaped a BX BY BZ BB SGN DS NSTP Hshape).
  assert (La : List.length (Apex.YAPX a) = 3%nat) by apply Hshape.
  assert (Lr : List.length
                 (Apex.YAPX (snd (Apex.itrace a BX BY BZ BB SGN DS NSTP)))
               = 3%nat) by apply Hnext.
  rewrite !(column_explicit _ _ Lr), !(column_explicit _ _ La), !norm_radius.
  split; [rewrite <- !radius_column; apply itrace_flag; exact H7 |].
  split; [intros ->; apply itrace_step_4; exact Hshape |].
  split; [intros ->; apply itrace_step_5; exact Hshape |].
  split; [intros ->; apply itrace_step_6; exact Hshape |].
  split.
  - intros ->.
    destruct (itrace_step_7 a BX BY BZ BB SGN DS Hshape) as [E2 E1].
    split; [exact E2 |]. split; [exact E1 |].
    apply itrace_step_7_first. exact Hshape.
  - intros igrf12syn getCoeffs lat lon alt date.
    assert (Ls : List.length
                   (Apex.YAPX
                      (Apex.arr (Apex.findApex_loop igrf12syn getCoeffs
                                   lat lon alt date))) = 3%nat)
      by apply findApex_loop_shaped.
    rewrite !(column_explicit _ _ Ls).
    apply (findApex_bootstrap_check igrf12syn getCoeffs lat lon alt date).
Qed.

Lemma C6_bootstrap_apex_check_witness :
  fst (Apex.itrace Inputs.past_apex 0 0 1 1 1 100 6) = true.
Proof.
  destruct (C6_bootstrap_apex_check Inputs.past_apex 0 0 1 1 1 100 6
              past_apex_shaped) as (Hflag & _ & _ & H6 & _); [lia |].
  cbv zeta beta in Hflag, H6.
  apply Hflag. split; [left; reflexivity |].
  destruct (H6 eq_refl) as [E2 E1]. rewrite E2, E1.
  cbn [Inputs.past_apex Apex.Y Apex.YAPX map nth].
  apply sqrt_lt_1; lra.
Defined.
